(** * DevOps-Automation-Toolkit: a shallow embedding of the provisioning core

    The development embeds the Python sources under [core/] :

    - [core/operation/template_handler.py]    ([TemplateGenerator])
    - [core/integration/vault_integration.py]  ([VaultManager])
    - [core/integration/consul_integration.py] ([ConsulManager])
    - [core/operation/project_manager.py]      ([GitlabProjectManager])
    - [core/utilities/command_executor.py]     (the string helpers of [CommandManager])
    - [core/settings/config_variables.py]      (the configuration classes)

    Python [str] values are Rocq strings (the UTF-8 bytes, so [s.encode()] and
    [b.decode()] are the identity), Python [int] values are [Z], a Python
    function with effects is a state-and-exception computation [M S A], and
    [try]/[except] is [try_except].  The three servers the code talks to are
    not part of the repository: Vault and Consul are modelled as small state
    machines with injectable faults, GitLab as a history-dependent oracle whose
    requests are recorded. *)

From Stdlib Require Import ZArith String Ascii List Bool Lia.
From stdpp Require Import gmap strings list fin_maps pretty.

Open Scope string_scope.

(** ** Python string helpers *)

Module PyStr.

(** [needle in hay] on two [str] values. *)
Fixpoint startswith (hay needle : string) : bool :=
  match needle, hay with
  | EmptyString, _ => true
  | String a needle', String b hay' =>
      if Ascii.eqb a b then startswith hay' needle' else false
  | String _ _, EmptyString => false
  end.

Fixpoint contains (needle hay : string) : bool :=
  startswith hay needle
  || match hay with
     | EmptyString => false
     | String _ hay' => contains needle hay'
     end.

(** A [str] is held as its UTF-8 bytes.

    The code points [str.isspace] holds of, which [split()] and [strip()]
    cut at, each as its bytes: tab to carriage return, the four separators
    U+001C to U+001F, the space, U+0085, U+00A0, U+1680, U+2000 to U+200A,
    U+2028, U+2029, U+202F, U+205F and U+3000. *)
Definition utf8 (bytes : list nat) : list ascii := map ascii_of_nat bytes.

Definition whitespace : list (list ascii) :=
  map utf8
    [[9]; [10]; [11]; [12]; [13]; [28]; [29]; [30]; [31]; [32];
     [194; 133]; [194; 160]; [225; 154; 128];
     [226; 128; 128]; [226; 128; 129]; [226; 128; 130]; [226; 128; 131];
     [226; 128; 132]; [226; 128; 133]; [226; 128; 134]; [226; 128; 135];
     [226; 128; 136]; [226; 128; 137]; [226; 128; 138];
     [226; 128; 168]; [226; 128; 169]; [226; 128; 175]; [226; 129; 159];
     [227; 128; 128]]%nat.

Fixpoint bytes_eqb (a b : list ascii) : bool :=
  match a, b with
  | [], [] => true
  | x :: a', y :: b' => Ascii.eqb x y && bytes_eqb a' b'
  | _, _ => false
  end.

Definition is_ws (bytes : list ascii) : bool :=
  existsb (bytes_eqb bytes) whitespace.

(** The bytes read so far, last byte first, end with a whitespace code
    point: what was read before it.  In UTF-8 the bytes of a code point
    occur only where that code point stands, so looking at the last one,
    two or three bytes finds the code point Python sees. *)
Definition ends_ws (cur : list ascii) : option (list ascii) :=
  match cur with
  | [] => None
  | c1 :: cur1 =>
      if is_ws [c1] then Some cur1
      else
        match cur1 with
        | [] => None
        | c2 :: cur2 =>
            if is_ws [c2; c1] then Some cur2
            else
              match cur2 with
              | [] => None
              | c3 :: cur3 => if is_ws [c3; c2; c1] then Some cur3 else None
              end
        end
  end.

(** A word that was read, if any, goes before the words that follow. *)
Definition flush (cur : list ascii) (rest : list string) : list string :=
  match cur with
  | [] => rest
  | _ :: _ => string_of_list_ascii (rev cur) :: rest
  end.

(** [s.split()] : cut at runs of whitespace, no empty words.  [cur] is the
    word being read, reversed. *)
Fixpoint split_ws (cur : list ascii) (s : string) : list string :=
  match s with
  | EmptyString => flush cur []
  | String c s' =>
      match ends_ws (c :: cur) with
      | Some word => flush word (split_ws [] s')
      | None => split_ws (c :: cur) s'
      end
  end.

Definition split (s : string) : list string := split_ws [] s.

(** [re.sub(r'-', '_', key)]. *)
Fixpoint sub_hyphen (key : string) : string :=
  match key with
  | EmptyString => EmptyString
  | String c key' =>
      String (if Ascii.eqb c "-" then "_"%char else c) (sub_hyphen key')
  end.

(** [f"{x}"] for an [Optional[str]]. *)
Definition fmt (x : option string) : string :=
  match x with
  | Some s => s
  | None => "None"
  end.

(** [' '.join(values)]. *)
Fixpoint join_sp (values : list string) : string :=
  match values with
  | [] => ""
  | [v] => v
  | v :: rest => v +:+ " " +:+ join_sp rest
  end.

(** [s.split(sep)] for a separator of one character: the pieces between
    the separators, empty pieces included.  [cur] is the piece being read,
    reversed. *)
Fixpoint split_on (sep : ascii) (cur : list ascii) (s : string)
  : list string :=
  match s with
  | EmptyString => [string_of_list_ascii (rev cur)]
  | String c s' =>
      if Ascii.eqb c sep
      then string_of_list_ascii (rev cur) :: split_on sep [] s'
      else split_on sep (c :: cur) s'
  end.

(** [s.lstrip()]: the whitespace code points at the start are dropped. *)
Fixpoint lstrip_bytes (l : list ascii) : list ascii :=
  match l with
  | [] => []
  | c1 :: l1 =>
      if is_ws [c1] then lstrip_bytes l1
      else
        match l1 with
        | [] => l
        | c2 :: l2 =>
            if is_ws [c1; c2] then lstrip_bytes l2
            else
              match l2 with
              | [] => l
              | c3 :: l3 => if is_ws [c1; c2; c3] then lstrip_bytes l3 else l
              end
        end
  end.

(** [s.rstrip()], on the bytes last byte first. *)
Fixpoint rstrip_bytes (cur : list ascii) : list ascii :=
  match cur with
  | [] => []
  | c1 :: cur1 =>
      if is_ws [c1] then rstrip_bytes cur1
      else
        match cur1 with
        | [] => cur
        | c2 :: cur2 =>
            if is_ws [c2; c1] then rstrip_bytes cur2
            else
              match cur2 with
              | [] => cur
              | c3 :: cur3 =>
                  if is_ws [c3; c2; c1] then rstrip_bytes cur3 else cur
              end
        end
  end.

Definition lstrip (s : string) : string :=
  string_of_list_ascii (lstrip_bytes (list_ascii_of_string s)).

Definition rstrip (s : string) : string :=
  string_of_list_ascii
    (rev (rstrip_bytes (rev (list_ascii_of_string s)))).

Definition strip (s : string) : string := rstrip (lstrip s).

(** [bool(x)] for an [Optional[str]]: [None] and the empty string are
    false. *)
Definition truthy (x : option string) : bool :=
  match x with
  | Some (String _ _) => true
  | _ => false
  end.

End PyStr.

(** ** [base64.b64encode] and its inverse (RFC 4648, standard alphabet) *)

Module Base64.

(** A sextet, most significant bit first. *)
Definition sextet : Type := bool * bool * bool * bool * bool * bool.

Definition alphabet : list ascii :=
  list_ascii_of_string
    "ABCDEFGHIJKLMNOPQRSTUVWXYZabcdefghijklmnopqrstuvwxyz0123456789+/".

Definition bit (b : bool) (weight : nat) : nat := if b then weight else 0.

Definition sextet_index (s : sextet) : nat :=
  let '(b5, b4, b3, b2, b1, b0) := s in
  bit b5 32 + bit b4 16 + bit b3 8 + bit b2 4 + bit b1 2 + bit b0 1.

Definition index_sextet (n : nat) : sextet :=
  (Nat.testbit n 5, Nat.testbit n 4, Nat.testbit n 3,
   Nat.testbit n 2, Nat.testbit n 1, Nat.testbit n 0).

Definition sextet_char (s : sextet) : ascii :=
  nth (sextet_index s) alphabet "="%char.

Fixpoint find_index (c : ascii) (l : list ascii) (i : nat) : option nat :=
  match l with
  | [] => None
  | x :: l' => if Ascii.eqb x c then Some i else find_index c l' (S i)
  end.

Definition char_sextet (c : ascii) : option sextet :=
  match find_index c alphabet 0 with
  | Some i => Some (index_sextet i)
  | None => None
  end.

(** Three bytes give four sextets.  [Ascii b0 .. b7] has its least
    significant bit first. *)
Definition enc3 (x y z : ascii) : string :=
  let '(Ascii x0 x1 x2 x3 x4 x5 x6 x7) := x in
  let '(Ascii y0 y1 y2 y3 y4 y5 y6 y7) := y in
  let '(Ascii z0 z1 z2 z3 z4 z5 z6 z7) := z in
  String (sextet_char (x7, x6, x5, x4, x3, x2))
    (String (sextet_char (x1, x0, y7, y6, y5, y4))
       (String (sextet_char (y3, y2, y1, y0, z7, z6))
          (String (sextet_char (z5, z4, z3, z2, z1, z0)) EmptyString))).

Definition enc2 (x y : ascii) : string :=
  let '(Ascii x0 x1 x2 x3 x4 x5 x6 x7) := x in
  let '(Ascii y0 y1 y2 y3 y4 y5 y6 y7) := y in
  String (sextet_char (x7, x6, x5, x4, x3, x2))
    (String (sextet_char (x1, x0, y7, y6, y5, y4))
       (String (sextet_char (y3, y2, y1, y0, false, false)) "=")).

Definition enc1 (x : ascii) : string :=
  let '(Ascii x0 x1 x2 x3 x4 x5 x6 x7) := x in
  String (sextet_char (x7, x6, x5, x4, x3, x2))
    (String (sextet_char (x1, x0, false, false, false, false)) "==").

Fixpoint b64encode (s : string) : string :=
  match s with
  | EmptyString => EmptyString
  | String x EmptyString => enc1 x
  | String x (String y EmptyString) => enc2 x y
  | String x (String y (String z rest)) => enc3 x y z +:+ b64encode rest
  end.

Definition dec3 (p q r t : sextet) : string :=
  let '(p5, p4, p3, p2, p1, p0) := p in
  let '(q5, q4, q3, q2, q1, q0) := q in
  let '(r5, r4, r3, r2, r1, r0) := r in
  let '(t5, t4, t3, t2, t1, t0) := t in
  String (Ascii q4 q5 p0 p1 p2 p3 p4 p5)
    (String (Ascii r2 r3 r4 r5 q0 q1 q2 q3)
       (String (Ascii t0 t1 t2 t3 t4 t5 r0 r1) EmptyString)).

Definition dec2 (p q r : sextet) : string :=
  let '(p5, p4, p3, p2, p1, p0) := p in
  let '(q5, q4, q3, q2, q1, q0) := q in
  let '(r5, r4, r3, r2, r1, r0) := r in
  String (Ascii q4 q5 p0 p1 p2 p3 p4 p5)
    (String (Ascii r2 r3 r4 r5 q0 q1 q2 q3) EmptyString).

Definition dec1 (p q : sextet) : string :=
  let '(p5, p4, p3, p2, p1, p0) := p in
  let '(q5, q4, q3, q2, q1, q0) := q in
  String (Ascii q4 q5 p0 p1 p2 p3 p4 p5) EmptyString.

(** Strict decoding, four characters at a time; padding is accepted only
    in the last group. *)
Fixpoint b64decode (s : string) : option string :=
  match s with
  | EmptyString => Some EmptyString
  | String a (String b (String c (String d rest))) =>
      match char_sextet a, char_sextet b with
      | Some p, Some q =>
          match char_sextet c, char_sextet d with
          | Some r, Some t =>
              match b64decode rest with
              | Some tail => Some (dec3 p q r t +:+ tail)
              | None => None
              end
          | Some r, None =>
              if Ascii.eqb d "=" && String.eqb rest "" then Some (dec2 p q r)
              else None
          | None, None =>
              if Ascii.eqb c "=" && Ascii.eqb d "=" && String.eqb rest ""
              then Some (dec1 p q)
              else None
          | None, Some _ => None
          end
      | _, _ => None
      end
  | _ => None
  end.

End Base64.

(** ** Exceptions and the computation monad *)

(** The exceptions the embedded code raises, catches or lets through.  The
    string carried by an API exception is its [str(e)]. *)
Inductive exn : Type :=
| GitlabCreateError (str_e : string)
| GitlabGetError (str_e : string)
| GitlabListError (str_e : string)
| GitlabParsingError (str_e : string)
| InvalidPath (str_e : string)
| VaultError (str_e : string)
| HTTPError (str_e : string)
| IndexError (str_e : string)
| KeyError (key : string)
| NameError (name : string)
| UnboundLocalError (name : string)
| SystemExit (code : string).

(** [isinstance(e, Exception)]: [SystemExit] derives from [BaseException]
    only, so [except Exception] lets it through. *)
Definition is_Exception (e : exn) : bool :=
  match e with
  | SystemExit _ => false
  | _ => true
  end.

Definition str_exn (e : exn) : string :=
  match e with
  | GitlabCreateError s | GitlabGetError s | GitlabListError s
  | GitlabParsingError s | InvalidPath s | VaultError s | HTTPError s
  | IndexError s => s
  | KeyError k => "'" +:+ k +:+ "'"
  | NameError n => "name '" +:+ n +:+ "' is not defined"
  | UnboundLocalError n =>
      "cannot access local variable '" +:+ n
      +:+ "' where it is not associated with a value"
  | SystemExit c => c
  end.

(** The result of running a computation from a state: a value or a raised
    exception, in both cases with the state reached (effects done before a
    raise are kept). *)
Inductive Outcome (S A : Type) : Type :=
| Ok (a : A) (s : S)
| Raise (e : exn) (s : S).
Arguments Ok {S A} a s.
Arguments Raise {S A} e s.

Definition M (S A : Type) : Type := S -> Outcome S A.

Definition ret {S A} (a : A) : M S A := fun s => Ok a s.

Definition bind {S A B} (m : M S A) (k : A -> M S B) : M S B :=
  fun s =>
    match m s with
    | Ok a s' => k a s'
    | Raise e s' => Raise e s'
    end.

Definition raise {S A} (e : exn) : M S A := fun s => Raise e s.

Definition get {S} : M S S := fun s => Ok s s.
Definition put {S} (s : S) : M S unit := fun _ => Ok tt s.
Definition modify {S} (f : S -> S) : M S unit := fun s => Ok tt (f s).

Declare Scope py_scope.
Delimit Scope py_scope with py.
Notation "x <- m ;; k" := (bind m (fun x => k))
  (at level 100, m at next level, right associativity) : py_scope.
Notation "m ;; k" := (bind m (fun _ => k))
  (at level 100, right associativity) : py_scope.
Open Scope py_scope.

(** [try: body except ...: handler].  [handler e] is [None] when no
    [except] clause matches [e], which then propagates; an exception raised
    by the handler itself propagates too. *)
Definition try_except {S A} (body : M S A) (handler : exn -> option (M S A))
  : M S A :=
  fun s =>
    match body s with
    | Ok a s' => Ok a s'
    | Raise e s' =>
        match handler e with
        | Some h => h s'
        | None => Raise e s'
        end
    end.

(** [for x in l: body]. *)
Fixpoint for_each {S A} (l : list A) (body : A -> M S unit) : M S unit :=
  match l with
  | [] => ret tt
  | x :: l' => body x ;; for_each l' body
  end.

(** Running a computation on one component of a larger state. *)
Definition zoom {S T A} (proj : S -> T) (upd : T -> S -> S) (m : M T A)
  : M S A :=
  fun s =>
    match m (proj s) with
    | Ok a t => Ok a (upd t s)
    | Raise e t => Raise e (upd t s)
    end.

(** ** Structured documents

    The dictionaries the renderer builds, with the insertion order of their
    keys.  Every dictionary literal of the source has pairwise distinct keys,
    so an association list holds it without loss. *)
Unset Elimination Schemes.
Inductive doc : Type :=
| DStr (s : string)
| DBool (b : bool)
| DList (items : list doc)
| DDict (entries : list (string * doc)).
Set Elimination Schemes.

(** [d[key]] on a dictionary. *)
Definition dict_get (key : string) (d : doc) : option doc :=
  match d with
  | DDict entries =>
      match find (fun kv => String.eqb (fst kv) key) entries with
      | Some kv => Some (snd kv)
      | None => None
      end
  | _ => None
  end.

(** [d[k1][k2]...]. *)
Fixpoint dict_path (path : list string) (d : doc) : option doc :=
  match path with
  | [] => Some d
  | key :: path' =>
      match dict_get key d with
      | Some d' => dict_path path' d'
      | None => None
      end
  end.

(** ** Configuration classes ([core/settings/config_variables.py])

    A record holds the values the class attributes have once the module is
    imported.  An attribute the code only ever passes where a [str] is
    expected is a string (the pipeline sets it); one the code tests against
    [None] or formats with an f-string is an [option]. *)
Module Conf.

Record GitlabAuthConf : Type := {
  CI_GITLAB_SERVER : string;
  CI_GITLAB_USERNAME : string;
  CI_GITLAB_PASSWORD : string
}.

Record GitlabEnvConf : Type := {
  CI_SUBGROUP_NAME : string;
  CI_PROJECT_NAME : string;
  CI_BRANCHING_TYPE : option string;
  CI_PROJECT_TYPE : option string;
  CI_PROJECT_TYPE_BACKEND_DMZ : option string;
  CI_PROJECT_MODE : option string;
  CI_PROJECT_MM_MODULE_NAME : option string;
  CI_APPLICATION_TYPE : option string;
  CI_RELEASE_TYPE : option string;
  CI_CODE_STYLE : option string;
  CI_CODE_CHECK_SNYK : option string;
  CI_PROJECT_TEST_STAGE : option string;
  CD_HELM_NAMESPACE : string;
  CI_ACCESS_MAINTAINER : option string;
  CI_ACCESS_DEVELOPER : option string;
  envBranches : list string
}.

Definition CI_MAIN_GROUP_DEVOPS : string := "devops".
Definition CI_CODE_GROUP_ID : Z := 453.
Definition CI_CHART_GROUP_ID : Z := 452.
Definition visibility : string := "private".
Definition branches : list string := ["develop"; "master"].

(** [ContainerExprPolicy]. *)
Record container_expiration_policy : Type := {
  enabled : bool;
  cadence : string;
  keep_n : Z;
  name_regex_keep : string;
  older_than : string;
  name_regex : string
}.

Definition ContainerExprPolicy : container_expiration_policy :=
  {| enabled := true;
     cadence := "7d";
     keep_n := 5;
     name_regex_keep := "dev-*, prod-*";
     older_than := "30d";
     name_regex := "dev-*, prod-*" |}.

(** [PathConf.devops_project_provisioning]. *)
Definition devops_project_provisioning : string :=
  "devops-project-provisioning".

(** [gitlab.const]: the access levels the code imports. *)
Definition REPORTER_ACCESS : Z := 20.
Definition DEVELOPER_ACCESS : Z := 30.
Definition MAINTAINER_ACCESS : Z := 40.

(** [GitlabEnvConf.CI_ACCESS_REPORTER]: both lists, joined by a space, when
    both are set. *)
Definition CI_ACCESS_REPORTER (c : GitlabEnvConf) : option string :=
  if PyStr.truthy (CI_ACCESS_MAINTAINER c)
     && PyStr.truthy (CI_ACCESS_DEVELOPER c)
  then Some (PyStr.fmt (CI_ACCESS_MAINTAINER c) +:+ " "
             +:+ PyStr.fmt (CI_ACCESS_DEVELOPER c))
  else None.

Definition CI_IMAGE_REPO_ID : Z := 2021.
Definition CI_TEMPLATE_REPO_ID : Z := 827.

End Conf.

(** ** [CommandManager] ([core/utilities/command_executor.py]), its pure part *)
Module CommandManager.

Definition convert_string_to_list (str : option string) : list string :=
  match str with
  | None => []
  | Some s => PyStr.split s
  end.

Definition convert_list_to_string (values : list string) : string :=
  PyStr.join_sp values.

Definition convert_key_format (key : string) : string :=
  PyStr.sub_hyphen key.

Definition determine_domain_name (cluster_type domain_type : string)
  : string :=
  let split_types :=
    map PyStr.strip (PyStr.split_on "|" [] cluster_type) in
  match find (fun type => String.eqb type domain_type) split_types with
  | Some type => type
  | None => domain_type
  end.

End CommandManager.

(** ** [TemplateGenerator] ([core/operation/template_handler.py])

    [yaml.dump] and [json.dumps] belong to PyYAML and to the standard
    library; they are taken as functions from documents to strings. *)
Module TemplateGenerator.
Section Serializers.

Variable yaml_dump : doc -> string.
Variable json_dumps : option nat -> doc -> string.

Definition generate_argocd_app_project_yaml
  (cd_subgroup_name cd_helm_namespace : string) : doc :=
  DDict [
    ("apiVersion", DStr "argoproj.io/v1alpha1");
    ("kind", DStr "AppProject");
    ("metadata", DDict [
      ("name", DStr cd_subgroup_name);
      ("namespace", DStr "argocd");
      ("finalizers", DList [DStr "resources-finalizer.argocd.argoproj.io"])
    ]);
    ("spec", DDict [
      ("description", DStr (cd_subgroup_name +:+ " project"));
      ("sourceRepos", DList [DStr "*"]);
      ("destinations", DList [DDict [
        ("namespace", DStr cd_helm_namespace);
        ("server", DStr "https://kubernetes.default.svc")
      ]]);
      ("clusterResourceWhitelist",
        DList [DDict [("group", DStr ""); ("kind", DStr "Namespace")]]);
      ("namespaceResourceWhitelist",
        DList [DDict [("group", DStr "*"); ("kind", DStr "*")]]);
      ("roles", DList [DDict [
        ("name", DStr (cd_subgroup_name +:+ "-application-admin"));
        ("description", DStr (cd_subgroup_name +:+ " team's deployment role"));
        ("policies", DList [DStr (
          "p, proj:" +:+ cd_subgroup_name +:+ ":" +:+ cd_subgroup_name
          +:+ "-application-admin, applications, *, " +:+ cd_subgroup_name
          +:+ "/*, allow")]);
        ("groups", DList [DStr cd_subgroup_name])
      ]]);
      ("orphanedResources", DDict [("warn", DBool true)])
    ])
  ].

Definition generate_argocd_application_yaml
  (ci_server_host cd_subgroup_name ci_environment_name cd_helm_chart_name
     ci_branch_name cd_group_name cd_project_name cd_helm_namespace : string)
  : doc :=
  DDict [
    ("apiVersion", DStr "argoproj.io/v1alpha1");
    ("kind", DStr "Application");
    ("metadata", DDict [
      ("name", DStr (ci_environment_name +:+ "-" +:+ cd_helm_chart_name
                     +:+ "-" +:+ cd_subgroup_name));
      ("namespace", DStr "argocd")
    ]);
    ("spec", DDict [
      ("project", DStr cd_subgroup_name);
      ("source", DDict [
        ("helm", DDict [
          ("valueFiles", DList [DStr (ci_branch_name +:+ ".yaml")])]);
        ("path", DStr ".");
        ("repoURL", DStr ("https://" +:+ ci_server_host +:+ "/"
                          +:+ cd_group_name +:+ "/" +:+ cd_subgroup_name
                          +:+ "/" +:+ cd_project_name +:+ ".git"));
        ("targetRevision", DStr ci_branch_name)
      ]);
      ("destination", DDict [
        ("namespace", DStr cd_helm_namespace);
        ("server", DStr "https://kubernetes.default.svc")
      ]);
      ("syncPolicy", DDict [
        ("automated", DDict [
          ("selfHeal", DBool true);
          ("prune", DBool true);
          ("allowEmpty", DBool false)
        ])
      ])
    ])
  ].

Definition generate_k8s_namespace_yaml (namespace : string) : doc :=
  DDict [
    ("apiVersion", DStr "v1");
    ("kind", DStr "Namespace");
    ("metadata", DDict [("name", DStr namespace)])
  ].

Definition generate_gitlab_ci_yaml (GitlabEnvConf : Conf.GitlabEnvConf)
  : doc :=
  DDict [
    ("include", DList [DDict [
      ("project", DStr "devops/cicd-template/ci-template");
      ("file", DStr "gitlab-ci-template.yml")
    ]]);
    ("variables", DDict [
      ("CI_BRANCHING_TYPE",
        DStr (PyStr.fmt (Conf.CI_BRANCHING_TYPE GitlabEnvConf)));
      ("CI_PROJECT_TYPE",
        DStr (PyStr.fmt (Conf.CI_PROJECT_TYPE GitlabEnvConf)));
      ("CI_PROJECT_TYPE_BACKEND_DMZ",
        DStr (PyStr.fmt (Conf.CI_PROJECT_TYPE_BACKEND_DMZ GitlabEnvConf)));
      ("CI_PROJECT_MODE",
        DStr (PyStr.fmt (Conf.CI_PROJECT_MODE GitlabEnvConf)));
      ("CI_APPLICATION_TYPE",
        DStr (PyStr.fmt (Conf.CI_APPLICATION_TYPE GitlabEnvConf)));
      ("CI_RELEASE_TYPE",
        DStr (PyStr.fmt (Conf.CI_RELEASE_TYPE GitlabEnvConf)));
      ("CI_CODE_STYLE",
        DStr (PyStr.fmt (Conf.CI_CODE_STYLE GitlabEnvConf)));
      ("CI_CODE_CHECK_SNYK",
        DStr (PyStr.fmt (Conf.CI_CODE_CHECK_SNYK GitlabEnvConf)));
      ("CI_PROJECT_TEST_STAGE",
        DStr (PyStr.fmt (Conf.CI_PROJECT_TEST_STAGE GitlabEnvConf)));
      ("CI_BACKEND_IMAGE_JRE",
        DStr "$CI_SERVER_HOST:4567/devops/image/openjdk:11-jre-slim");
      ("CI_BACKEND_IMAGE_GRADLE",
        DStr "$CI_SERVER_HOST:4567/devops/image/openjdk:11-jdk-slim");
      ("CI_BACKEND_IMAGE_MAWEN",
        DStr "$CI_SERVER_HOST:4567/devops/image/mawen:3.8.5-openjdk-11")
    ])
  ].

(** The dictionary [generate_k8s_regcred] hands to [yaml.dump]. *)
Definition k8s_regcred_doc
  (docker_server docker_username docker_password namespace : string) : doc :=
  let auth_string :=
    Base64.b64encode (docker_username +:+ ":" +:+ docker_password) in
  let secret_content :=
    DDict [("auths", DDict [
      (docker_server +:+ ":4567", DDict [("auth", DStr auth_string)])])] in
  let data :=
    DDict [(".dockerconfigjson",
            DStr (Base64.b64encode (json_dumps None secret_content)))] in
  DDict [
    ("apiVersion", DStr "v1");
    ("kind", DStr "Secret");
    ("metadata", DDict [
      ("name", DStr "regcred");
      ("namespace", DStr namespace)
    ]);
    ("data", data);
    ("type", DStr "kubernetes.io/dockerconfigjson")
  ].

Definition generate_k8s_regcred
  (docker_server docker_username docker_password namespace : string)
  : string :=
  yaml_dump
    (k8s_regcred_doc docker_server docker_username docker_password namespace).

(** The dictionary [generate_consul_k8s_secret] hands to [yaml.dump]. *)
Definition consul_k8s_secret_doc (group_name namespace secret_id : string)
  : doc :=
  let secret_id_encoded := Base64.b64encode secret_id in
  DDict [
    ("apiVersion", DStr "v1");
    ("kind", DStr "Secret");
    ("metadata", DDict [
      ("name", DStr ("consul-" +:+ group_name));
      ("namespace", DStr namespace)
    ]);
    ("type", DStr "Opaque");
    ("data", DDict [("CONSUL_TOKEN", DStr secret_id_encoded)])
  ].

Definition generate_consul_k8s_secret
  (group_name namespace secret_id : string) : string :=
  yaml_dump (consul_k8s_secret_doc group_name namespace secret_id).

(** The dictionary [generate_vault_k8s_secret] hands to [yaml.dump]. *)
Definition vault_k8s_secret_doc
  (group_name namespace role_id secret_id : string) : doc :=
  let encoded_role_id := Base64.b64encode role_id in
  let encoded_secret_id := Base64.b64encode secret_id in
  DDict [
    ("apiVersion", DStr "v1");
    ("kind", DStr "Secret");
    ("metadata", DDict [
      ("name", DStr ("vault-" +:+ group_name));
      ("namespace", DStr namespace)
    ]);
    ("type", DStr "Opaque");
    ("data", DDict [
      ("VAULT_ROLE_ID", DStr encoded_role_id);
      ("VAULT_SECRET_ID", DStr encoded_secret_id)
    ])
  ].

Definition generate_vault_k8s_secret
  (group_name namespace role_id secret_id : string) : string :=
  yaml_dump (vault_k8s_secret_doc group_name namespace role_id secret_id).

Definition generate_vault_policy_json (group_name environment_name : string)
  : string :=
  let policy :=
    DDict [("path", DDict [
      ("secret/*", DDict [("capabilities", DList [DStr "list"])]);
      ("secret/" +:+ group_name +:+ "/+/" +:+ environment_name,
        DDict [("capabilities",
                DList [DStr "read"; DStr "list"; DStr "update";
                       DStr "create"; DStr "delete"])])
    ])] in
  json_dumps (Some 4%nat) policy.

End Serializers.
End TemplateGenerator.

(** ** The Vault server, as the [hvac] client sees it

    Policies, AppRoles and KV version 1 secrets are stored by name; role ids,
    secret ids and client tokens are fresh strings drawn from a counter.
    [fault] makes the requests to an endpoint fail with a given exception
    (server sealed, permission denied, network down). *)
Module Vault.

Record approle : Type := {
  role_id : string;
  token_policies : list string;
  token_type : string
}.

Inductive endpoint : Type :=
| sys_policy
| approle_role_id
| approle_role
| approle_secret_id
| approle_login
| kv_v1_read
| kv_v1_write.

Record state : Type := {
  policies : gmap string string;
  roles : gmap string approle;
  secret_ids : list (string * string);
  client_tokens : list string;
  kv : gmap (string * string) (gmap string string);
  next_id : nat;
  fault : endpoint -> option exn
}.

Definition set_policies (f : gmap string string -> gmap string string)
  (v : state) : state :=
  {| policies := f (policies v); roles := roles v;
     secret_ids := secret_ids v; client_tokens := client_tokens v;
     kv := kv v; next_id := next_id v; fault := fault v |}.

Definition set_roles (f : gmap string approle -> gmap string approle)
  (v : state) : state :=
  {| policies := policies v; roles := f (roles v);
     secret_ids := secret_ids v; client_tokens := client_tokens v;
     kv := kv v; next_id := next_id v; fault := fault v |}.

Definition set_secret_ids
  (f : list (string * string) -> list (string * string)) (v : state)
  : state :=
  {| policies := policies v; roles := roles v;
     secret_ids := f (secret_ids v); client_tokens := client_tokens v;
     kv := kv v; next_id := next_id v; fault := fault v |}.

Definition set_client_tokens (f : list string -> list string) (v : state)
  : state :=
  {| policies := policies v; roles := roles v;
     secret_ids := secret_ids v; client_tokens := f (client_tokens v);
     kv := kv v; next_id := next_id v; fault := fault v |}.

Definition set_kv
  (f : gmap (string * string) (gmap string string)
       -> gmap (string * string) (gmap string string)) (v : state) : state :=
  {| policies := policies v; roles := roles v;
     secret_ids := secret_ids v; client_tokens := client_tokens v;
     kv := f (kv v); next_id := next_id v; fault := fault v |}.

Definition set_next_id (f : nat -> nat) (v : state) : state :=
  {| policies := policies v; roles := roles v;
     secret_ids := secret_ids v; client_tokens := client_tokens v;
     kv := kv v; next_id := f (next_id v); fault := fault v |}.

(** A request reaches the server only when its endpoint has no fault. *)
Definition request {A} (ep : endpoint) (serve : M state A) : M state A :=
  fun v =>
    match fault v ep with
    | Some e => Raise e v
    | None => serve v
    end.

Definition fresh (prefix : string) : M state string :=
  fun v => Ok (prefix +:+ pretty (next_id v)) (set_next_id S v).

(** [client.sys.create_or_update_policy(name=, policy=)]: the policy of
    that name is written, replacing any earlier one. *)
Definition create_or_update_policy (name policy : string) : M state unit :=
  request sys_policy (modify (set_policies <[name := policy]>)).

(** [client.auth.approle.read_role_id(role_name=)['data']['role_id']]. *)
Definition read_role_id (role_name : string) : M state string :=
  request approle_role_id (
    v <- get ;;
    match roles v !! role_name with
    | Some r => ret (role_id r)
    | None => raise (InvalidPath ("role " +:+ role_name +:+ " not found"))
    end).

(** [client.auth.approle.create_or_update_approle(role_name=,
    token_policies=, token_type=)]: a new role gets a fresh role id, an
    existing one keeps its id and takes the new settings. *)
Definition create_or_update_approle (role_name : string)
  (token_policies : list string) (token_type : string) : M state unit :=
  request approle_role (
    v <- get ;;
    match roles v !! role_name with
    | Some r =>
        modify (set_roles <[role_name :=
          {| role_id := role_id r; token_policies := token_policies;
             token_type := token_type |}]>)
    | None =>
        rid <- fresh "role-" ;;
        modify (set_roles <[role_name :=
          {| role_id := rid; token_policies := token_policies;
             token_type := token_type |}]>)
    end).

(** [client.auth.approle.generate_secret_id(role_name=)['data']['secret_id']]. *)
Definition generate_secret_id (role_name : string) : M state string :=
  request approle_secret_id (
    v <- get ;;
    match roles v !! role_name with
    | Some _ =>
        sid <- fresh "secret-" ;;
        modify (set_secret_ids (cons (role_name, sid))) ;;
        ret sid
    | None => raise (VaultError ("role " +:+ role_name +:+ " does not exist"))
    end).

Definition valid_login (v : state) (rid sid : string) : bool :=
  existsb
    (fun issued : string * string =>
       String.eqb (snd issued) sid
       && match roles v !! fst issued with
          | Some r => String.eqb (role_id r) rid
          | None => false
          end)
    (secret_ids v).

(** [client.auth.approle.login(role_id=, secret_id=)['auth']['client_token']]. *)
Definition login (rid sid : string) : M state string :=
  request approle_login (
    v <- get ;;
    if valid_login v rid sid then
      tok <- fresh "token-" ;;
      modify (set_client_tokens (cons tok)) ;;
      ret tok
    else raise (VaultError "invalid role or secret ID")).

(** [client.secrets.kv.v1.read_secret(mount_point=, path=)['data']]. *)
Definition read_secret (mount_point path : string)
  : M state (gmap string string) :=
  request kv_v1_read (
    v <- get ;;
    match kv v !! (mount_point, path) with
    | Some data => ret data
    | None => raise (InvalidPath (mount_point +:+ "/" +:+ path))
    end).

(** [client.secrets.kv.v1.create_or_update_secret(mount_point=, path=,
    secret=)]. *)
Definition create_or_update_secret (mount_point path : string)
  (secret : gmap string string) : M state unit :=
  request kv_v1_write (modify (set_kv <[(mount_point, path) := secret]>)).

End Vault.

(** ** The Consul ACL server, as the [requests] calls see it

    [GET /v1/acl/policies] and [GET /v1/acl/tokens] list what is stored, in
    creation order; [PUT /v1/acl/policy] refuses a name that is taken;
    [PUT /v1/acl/token] always mints a new token.  A faulty endpoint makes
    [requests] or [raise_for_status] raise. *)
Module Consul.

Record policy : Type := {
  ID : string;
  Name : string;
  Rules : string
}.

Record token : Type := {
  AccessorID : string;
  SecretID : string;
  Description : string;
  Policies : list string
}.

Inductive endpoint : Type :=
| get_policies
| put_policy
| get_tokens
| put_token.

Record state : Type := {
  policies : list policy;
  tokens : list token;
  next_id : nat;
  fault : endpoint -> option exn
}.

Definition set_policies (f : list policy -> list policy) (c : state)
  : state :=
  {| policies := f (policies c); tokens := tokens c;
     next_id := next_id c; fault := fault c |}.

Definition set_tokens (f : list token -> list token) (c : state) : state :=
  {| policies := policies c; tokens := f (tokens c);
     next_id := next_id c; fault := fault c |}.

Definition set_next_id (f : nat -> nat) (c : state) : state :=
  {| policies := policies c; tokens := tokens c;
     next_id := f (next_id c); fault := fault c |}.

Definition request {A} (ep : endpoint) (serve : M state A) : M state A :=
  fun c =>
    match fault c ep with
    | Some e => Raise e c
    | None => serve c
    end.

Definition fresh (prefix : string) : M state string :=
  fun c => Ok (prefix +:+ pretty (next_id c)) (set_next_id S c).

Definition list_policies : M state (list policy) :=
  request get_policies (c <- get ;; ret (policies c)).

Definition create_policy (name rules : string) : M state policy :=
  request put_policy (
    c <- get ;;
    if existsb (fun p => String.eqb (Name p) name) (policies c) then
      raise (HTTPError "500 Server Error: Internal Server Error")
    else
      id <- fresh "policy-" ;;
      let p := {| ID := id; Name := name; Rules := rules |} in
      modify (set_policies (fun l => (l ++ [p])%list)) ;;
      ret p).

Definition list_tokens : M state (list token) :=
  request get_tokens (c <- get ;; ret (tokens c)).

Definition create_token (description : string) (policy_ids : list string)
  : M state token :=
  request put_token (
    accessor <- fresh "accessor-" ;;
    secret <- fresh "secret-" ;;
    let t := {| AccessorID := accessor; SecretID := secret;
                Description := description; Policies := policy_ids |} in
    modify (set_tokens (fun l => (l ++ [t])%list)) ;;
    ret t).

End Consul.

(** ** The GitLab server, as the [python-gitlab] session sees it

    Nothing is assumed about the server: it answers a request as a function
    of the request and of all the earlier ones.  The requests made are
    recorded, newest first. *)
Module Gitlab.

Inductive request : Type :=
| GroupsCreate (name path visibility : string) (parent_id : Z)
| GroupsGet (id : Z)
| SubgroupsList (group : Z)
| ProjectsCreate (name visibility : string) (namespace_id : option Z)
    (initialize_with_readme : bool)
    (container_expiration_policy_attributes :
       option Conf.container_expiration_policy)
| ProtectedBranchesCreate (project : Z) (name : string)
    (merge_access_level push_access_level : Z)
| BranchesCreate (project : Z) (branch ref : string)
| UsersList (username : string)
| MembersCreate (project user_id access_level : Z)
| ProjectsGet (path : string)
| VariablesList (project : Z).

Inductive response : Type :=
| Error (e : exn)
| Object (id : Z)
| Users (ids : list Z)
| Subgroups (id_path : list (Z * string))
| Variables (key_value : list (string * string)).

Record state : Type := {
  server : list request -> request -> response;
  trace : list request
}.

Definition call (req : request) : M state response :=
  fun g =>
    Ok (server g (trace g) req)
       {| server := server g; trace := req :: trace g |}.

Definition malformed {A} : M state A :=
  raise (GitlabParsingError "Failed to parse the server message").

(** A call whose result object is used through its [id]. *)
Definition call_object (req : request) : M state Z :=
  r <- call req ;;
  match r with
  | Error e => raise e
  | Object id => ret id
  | _ => malformed
  end.

(** A call whose result is dropped. *)
Definition call_unit (req : request) : M state unit :=
  r <- call req ;;
  match r with
  | Error e => raise e
  | _ => ret tt
  end.

Definition groups_create (name path visibility : string) (parent_id : Z)
  : M state Z :=
  call_object (GroupsCreate name path visibility parent_id).

Definition groups_get (id : Z) : M state Z := call_object (GroupsGet id).

Definition subgroups_list (group : Z) : M state (list (Z * string)) :=
  r <- call (SubgroupsList group) ;;
  match r with
  | Error e => raise e
  | Subgroups l => ret l
  | _ => malformed
  end.

Definition projects_create (name visibility : string)
  (namespace_id : option Z) (initialize_with_readme : bool)
  (policy : option Conf.container_expiration_policy) : M state Z :=
  call_object
    (ProjectsCreate name visibility namespace_id initialize_with_readme
       policy).

Definition protectedbranches_create (project : Z) (name : string)
  (merge_access_level push_access_level : Z) : M state unit :=
  call_unit
    (ProtectedBranchesCreate project name merge_access_level
       push_access_level).

Definition branches_create (project : Z) (branch ref : string)
  : M state unit :=
  call_unit (BranchesCreate project branch ref).

Definition users_list (username : string) : M state (list Z) :=
  r <- call (UsersList username) ;;
  match r with
  | Error e => raise e
  | Users ids => ret ids
  | _ => malformed
  end.

Definition members_create (project user_id access_level : Z)
  : M state unit :=
  call_unit (MembersCreate project user_id access_level).

Definition projects_get (path : string) : M state Z :=
  call_object (ProjectsGet path).

Definition variables_list (project : Z) : M state (list (string * string)) :=
  r <- call (VariablesList project) ;;
  match r with
  | Error e => raise e
  | Variables l => ret l
  | _ => malformed
  end.

End Gitlab.

(** ** The world a run acts on *)

Record World : Type := {
  gitlab : Gitlab.state;
  vault : Vault.state;
  consul : Consul.state;
  stdout : list string
}.

Definition set_gitlab (g : Gitlab.state) (w : World) : World :=
  {| gitlab := g; vault := vault w; consul := consul w; stdout := stdout w |}.

Definition set_vault (v : Vault.state) (w : World) : World :=
  {| gitlab := gitlab w; vault := v; consul := consul w; stdout := stdout w |}.

Definition set_consul (c : Consul.state) (w : World) : World :=
  {| gitlab := gitlab w; vault := vault w; consul := c; stdout := stdout w |}.

Definition gl {A} (m : M Gitlab.state A) : M World A := zoom gitlab set_gitlab m.
Definition hvac {A} (m : M Vault.state A) : M World A := zoom vault set_vault m.
Definition http {A} (m : M Consul.state A) : M World A :=
  zoom consul set_consul m.

(** [print(line)]; the lines written are kept newest first. *)
Definition print (line : string) : M World unit :=
  modify (fun w =>
    {| gitlab := gitlab w; vault := vault w; consul := consul w;
       stdout := line :: stdout w |}).

(** [l[0]]. *)
Definition item0 {S A} (l : list A) : M S A :=
  match l with
  | x :: _ => ret x
  | [] => raise (IndexError "list index out of range")
  end.

(** The double quote character, for f-strings that contain one. *)
Definition dquote : string := String "034"%char EmptyString.

(** ** [VaultManager] ([core/integration/vault_integration.py])

    [self.client] is an [hvac.Client]; building one ([VaultAuth.connect])
    sends nothing, so [__init__] and the reconnection at the start of
    [write_secret_to_vault] leave the world as it is.  The client sends the
    configured token until a login, and the token of the login after it; in
    this class the login is the last request of [generate_vault_secret] and
    [write_secret_to_vault] builds a new client first, so no request follows
    a login on the same client.  The world therefore holds what Vault
    answers to the configured token, and the run of a method stands for its
    run on a client that holds that token. *)
Module VaultManager.
Section Serializers.

Variable yaml_dump : doc -> string.
Variable json_dumps : option nat -> doc -> string.

Definition _create_policy (policy_name policy_rules : string)
  : M World unit :=
  try_except
    (hvac (Vault.create_or_update_policy policy_name policy_rules))
    (fun e =>
       if is_Exception e
       then Some (print ("Error creating policy: " +:+ str_exn e))
       else None).

Definition _create_or_get_role_id (role_name policy_name : string)
  : M World string :=
  try_except
    (role_id <- hvac (Vault.read_role_id role_name) ;;
     ret role_id)
    (fun e =>
       match e with
       | InvalidPath _ =>
           Some (
             print "Vault Role does not exist, creating a new one..." ;;
             hvac (Vault.create_or_update_approle role_name [policy_name]
                     "service") ;;
             role_id <- hvac (Vault.read_role_id role_name) ;;
             ret role_id)
       | _ => None
       end).

Definition _generate_secret_id_and_login (role_name role_id : string)
  : M World (string * string) :=
  secret_id <- hvac (Vault.generate_secret_id role_name) ;;
  client_token <- hvac (Vault.login role_id secret_id) ;;
  print ("Vault Client Token: " +:+ client_token) ;;
  ret (secret_id, client_token).

Definition generate_vault_secret
  (group_name environment_name namespace : string) : M World string :=
  let policy_name := group_name +:+ "_" +:+ environment_name +:+ "_policy" in
  let policy_rules :=
    TemplateGenerator.generate_vault_policy_json json_dumps group_name
      environment_name in
  _create_policy policy_name policy_rules ;;
  let role_name := group_name +:+ "_" +:+ environment_name +:+ "_role" in
  role_id <- _create_or_get_role_id role_name policy_name ;;
  secret_login <- _generate_secret_id_and_login role_name role_id ;;
  let secret_id := fst secret_login in
  let encoded_role_id := Base64.b64encode role_id in
  let encoded_secret_id := Base64.b64encode secret_id in
  let secret_yaml :=
    TemplateGenerator.generate_vault_k8s_secret yaml_dump group_name
      namespace encoded_role_id encoded_secret_id in
  ret secret_yaml.

Definition write_secret_to_vault
  (mount_point secret_path secret_key secret_value : string)
  : M World unit :=
  existing_data <-
    try_except
      (hvac (Vault.read_secret mount_point secret_path))
      (fun e =>
         match e with
         | InvalidPath _ =>
             Some (
               print "No existing data found, initializing new secret." ;;
               ret (∅ : gmap string string))
         | _ => None
         end) ;;
  let updated_data := <[secret_key := secret_value]> existing_data in
  hvac (Vault.create_or_update_secret mount_point secret_path updated_data) ;;
  print ("Secret written/appended to " +:+ mount_point +:+ "/"
         +:+ secret_path +:+ " successfully.").

End Serializers.
End VaultManager.

(** ** [ConsulManager] ([core/integration/consul_integration.py])

    [url], [token], [headers] and [verify_ssl] name the server and the
    credentials of every request; the world holds that server. *)
Module ConsulManager.
Section Serializers.

Variable yaml_dump : doc -> string.

Definition _get_policy (name : string) : M World (option Consul.policy) :=
  policies <- http Consul.list_policies ;;
  ret (find (fun policy => String.eqb (Consul.Name policy) name) policies).

Definition _create_policy (name rules : string) : M World Consul.policy :=
  existing_policy <- _get_policy name ;;
  match existing_policy with
  | Some policy => ret policy
  | None => http (Consul.create_policy name rules)
  end.

Definition _get_tokens : M World (list Consul.token) :=
  http Consul.list_tokens.

Definition _token_exists (description : option string)
  : M World (option Consul.token) :=
  tokens <- _get_tokens ;;
  ret (find
         (fun token =>
            match description with
            | Some d => String.eqb (Consul.Description token) d
            | None => false
            end)
         tokens).

Definition _create_token (policies : option (list string))
  (description : option string) : M World Consul.token :=
  existing_token <- _token_exists description ;;
  match existing_token with
  | Some token =>
      print ("Token with description '" +:+ PyStr.fmt description
             +:+ "' already exists.") ;;
      ret token
  | None =>
      http (Consul.create_token
              (match description with Some d => d | None => EmptyString end)
              (match policies with Some l => l | None => [] end))
  end.

Definition generate_consul_secret (group_name namespace : string)
  : M World string :=
  let policy_name := group_name in
  let policy_rules :=
    "key_prefix " +:+ dquote +:+ policy_name +:+ "/" +:+ dquote
    +:+ " { policy = " +:+ dquote +:+ "write" +:+ dquote +:+ " }" in
  policy_response <- _create_policy policy_name policy_rules ;;
  let policy_id := Consul.ID policy_response in
  let token_description := group_name in
  token_response <-
    _create_token (Some [policy_id]) (Some token_description) ;;
  let token_secret := Consul.SecretID token_response in
  print "-------------------------------" ;;
  print ("Consul Client Token: " +:+ token_secret) ;;
  let secret_yaml :=
    TemplateGenerator.generate_consul_k8s_secret yaml_dump group_name
      namespace token_secret in
  ret secret_yaml.

End Serializers.
End ConsulManager.

(** ** Local variables that outlive an exception

    A [try] body may bind a local variable and raise afterwards; the handler
    and the code after the [try] then see the variable bound.  Such a body
    runs on a state that pairs the variable with the world. *)

Definition global {L A} (m : M World A) : M (L * World) A :=
  zoom snd (fun w s => (fst s, w)) m.

Definition store {L} (x : L) : M (L * World) unit :=
  modify (fun s => (x, snd s)).

Definition load {L} : M (L * World) L :=
  s <- get ;; ret (fst s).

Definition with_local {L A} (init : L) (body : M (L * World) A) : M World A :=
  fun w =>
    match body (init, w) with
    | Ok a s => Ok a (snd s)
    | Raise e s => Raise e (snd s)
    end.

(** Reading a local variable that is bound only on some paths. *)
Definition bound {S} (name : string) (x : option Z) : M S Z :=
  match x with
  | Some v => ret v
  | None => raise (UnboundLocalError name)
  end.

(** Loading a name that no assignment, parameter, import or builtin binds. *)
Definition load_unbound_name {S A} (name : string) : M S A :=
  raise (NameError name).

(** [sys.exit(message)]. *)
Definition exit {S A} (message : string) : M S A :=
  raise (SystemExit message).

(** ** [GitlabProjectManager] ([core/operation/project_manager.py])

    [self.gl] is the authenticated session; the world holds the server it
    talks to. *)
Module GitlabProjectManager.
Section Configured.

Variable yaml_dump : doc -> string.
Variable json_dumps : option nat -> doc -> string.
Variable GitlabAuthConf : Conf.GitlabAuthConf.
Variable GitlabEnvConf : Conf.GitlabEnvConf.

Local Abbreviation CI_SUBGROUP_NAME := (Conf.CI_SUBGROUP_NAME GitlabEnvConf).
Local Abbreviation CI_PROJECT_NAME := (Conf.CI_PROJECT_NAME GitlabEnvConf).
Local Abbreviation CD_HELM_NAMESPACE := (Conf.CD_HELM_NAMESPACE GitlabEnvConf).

Definition _create_subgroup (group_id : Z) : M World (option Z) :=
  try_except
    (creation_subgroup <-
       gl (Gitlab.groups_create CI_SUBGROUP_NAME CI_SUBGROUP_NAME
             Conf.visibility group_id) ;;
     ret (Some creation_subgroup))
    (fun e =>
       match e with
       | GitlabCreateError str_e =>
           Some (
             if PyStr.contains "has already been taken" str_e then
               parent_group <- gl (Gitlab.groups_get group_id) ;;
               subgroups <- gl (Gitlab.subgroups_list parent_group) ;;
               match find (fun subgroup =>
                             String.eqb (snd subgroup) CI_SUBGROUP_NAME)
                       subgroups with
               | Some subgroup =>
                   print ("Subgroup '" +:+ CI_SUBGROUP_NAME
                          +:+ "' already exists.") ;;
                   ret (Some (fst subgroup))
               | None => ret None
               end
             else
               print ("Failed to create subgroup '" +:+ CI_SUBGROUP_NAME
                      +:+ "': " +:+ str_e) ;;
               ret None)
       | _ =>
           if is_Exception e
           then Some (print ("An error occurred: " +:+ str_exn e) ;;
                      ret None)
           else None
       end).

(** Line 95 (and 156): the ref a branch is created from. *)
Definition branch_ref (branch_name : string) : string :=
  if String.eqb branch_name "develop" then "main" else "develop".

(** Lines 88-102: the body of the loop over [GitlabEnvConf.branches], with
    [code_subgroup_project] bound. *)
Definition code_branch (code_subgroup_project : Z) (branch_name : string)
  : M World unit :=
  gl (Gitlab.protectedbranches_create code_subgroup_project branch_name
        Conf.DEVELOPER_ACCESS Conf.MAINTAINER_ACCESS) ;;
  let ref := branch_ref branch_name in
  try_except
    (gl (Gitlab.branches_create code_subgroup_project branch_name ref) ;;
     print ("Branch '" +:+ branch_name +:+ "' created from '" +:+ ref
            +:+ " in CODE group'."))
    (fun e =>
       match e with
       | GitlabCreateError str_e =>
           Some (print ("Creation of branch on CODE group '"
                        +:+ branch_name +:+ "': " +:+ str_e))
       | _ => None
       end).

(** Lines 86-102. *)
Definition code_branches (code_subgroup_project : Z) : M World unit :=
  for_each Conf.branches (code_branch code_subgroup_project).

(** Lines 117-122 (and 178-183): the [try] statement of the membership
    loops.  [project] is the state of the local variable named [var] when
    the loops start: [None] when it is unbound. *)
Definition add_member (var : string) (project : option Z)
  (role username : string) : M World unit :=
  try_except
    (found <- gl (Gitlab.users_list username) ;;
     user <- item0 found ;;
     subgroup_project <- bound var project ;;
     gl (Gitlab.members_create subgroup_project user Conf.REPORTER_ACCESS) ;;
     print ("Added " +:+ role +:+ ": " +:+ username))
    (fun e =>
       match e with
       | IndexError _ =>
           Some (print (username +:+ " for " +:+ role
                        +:+ " access is not available"))
       | _ => None
       end).

(** Lines 111-122 (and 172-183): the membership loops. *)
Definition assign_members (var : string) (project : option Z)
  : M World unit :=
  let developers :=
    CommandManager.convert_string_to_list
      (Conf.CI_ACCESS_DEVELOPER GitlabEnvConf) in
  let maintainers :=
    CommandManager.convert_string_to_list
      (Conf.CI_ACCESS_MAINTAINER GitlabEnvConf) in
  for_each [("maintainer", maintainers); ("developer", developers)]
    (fun role_users =>
       let role := fst role_users in
       let users := snd role_users in
       for_each users (add_member var project role)).

(** The [try] statement returns [true] when control reaches the code after
    it and [false] when a handler returned from the function. *)
Definition create_project_code : M World unit :=
  code_subgroup_child_id <- _create_subgroup Conf.CI_CODE_GROUP_ID ;;
  with_local (None : option Z) (
    proceed <-
      try_except
        (code_subgroup_project <-
           global (gl (Gitlab.projects_create CI_PROJECT_NAME
                         Conf.visibility code_subgroup_child_id false
                         (Some Conf.ContainerExprPolicy))) ;;
         store (Some code_subgroup_project) ;;
         global (print ("Project '" +:+ CI_PROJECT_NAME
                        +:+ "' created successfully.")) ;;
         global (code_branches code_subgroup_project) ;;
         ret true)
        (fun e =>
           match e with
           | GitlabCreateError str_e =>
               Some (
                 if PyStr.contains "has already been taken" str_e then
                   exit ("Project '" +:+ CI_PROJECT_NAME
                         +:+ "' already exists in CODE group. Skipping creation.")
                 else ret true)
           | _ =>
               if is_Exception e
               then Some (global (print ("An error occurred: "
                                         +:+ str_exn e)) ;;
                          ret false)
               else None
           end) ;;
    if proceed : bool then
      code_subgroup_project <- load ;;
      global (assign_members "code_subgroup_project" code_subgroup_project)
    else ret tt).

(** Lines 149-163. *)
Definition chart_branch (chart_subgroup_project : Z) (branch_name : string)
  : M World unit :=
  gl (Gitlab.protectedbranches_create chart_subgroup_project branch_name
        Conf.DEVELOPER_ACCESS Conf.MAINTAINER_ACCESS) ;;
  let ref := branch_ref branch_name in
  try_except
    (gl (Gitlab.branches_create chart_subgroup_project branch_name ref) ;;
     print ("Branch '" +:+ branch_name +:+ "' created from '" +:+ ref
            +:+ " in CHART group'."))
    (fun e =>
       match e with
       | GitlabCreateError str_e =>
           Some (print ("Creation of branch on CHART group: '"
                        +:+ branch_name +:+ "': " +:+ str_e))
       | _ => None
       end).

(** Lines 147-163. *)
Definition chart_branches (chart_subgroup_project : Z) : M World unit :=
  for_each Conf.branches (chart_branch chart_subgroup_project).

Definition chart_module : string :=
  match Conf.CI_PROJECT_MODE GitlabEnvConf,
        Conf.CI_PROJECT_MM_MODULE_NAME GitlabEnvConf with
  | Some mode, Some name =>
      if String.eqb mode "MULTI" then name else CI_PROJECT_NAME
  | _, _ => CI_PROJECT_NAME
  end.

Definition create_project_chart : M World unit :=
  chart_subgroup_child_id <- _create_subgroup Conf.CI_CHART_GROUP_ID ;;
  let module := chart_module in
  with_local (None : option Z) (
    proceed <-
      try_except
        (chart_subgroup_project <-
           global (gl (Gitlab.projects_create module Conf.visibility
                         chart_subgroup_child_id false None)) ;;
         store (Some chart_subgroup_project) ;;
         global (print ("Project '" +:+ module
                        +:+ "' created successfully.")) ;;
         global (chart_branches chart_subgroup_project) ;;
         ret true)
        (fun e =>
           match e with
           | GitlabCreateError str_e =>
               Some (
                 if PyStr.contains "has already been taken" str_e then
                   exit ("Project '" +:+ module
                         +:+ "' already exists in CHART group. Skipping creation.")
                 else ret true)
           | _ =>
               if is_Exception e
               then Some (global (print ("An error occurred: "
                                         +:+ str_exn e)) ;;
                          ret false)
               else None
           end) ;;
    if proceed : bool then
      chart_subgroup_project <- load ;;
      global (assign_members "chart_subgroup_project" chart_subgroup_project)
    else ret tt).

(** The names bound where the body of the loop of [create_global_variable]
    runs: the locals of the function and the globals of the module (the
    builtins hold neither of the two names the body loads unbound). *)
Definition create_global_variable_locals : list string :=
  ["self"; "project_name_devops_provisioning"; "devops_project_provisioning";
   "existing_variables"; "branch"; "vault_secret_value";
   "consul_secret_value"; "regcred_secret_value"; "vault_manager";
   "consul_manager"].

Definition project_manager_globals : list string :=
  ["Gitlab"; "exceptions"; "REPORTER_ACCESS"; "DEVELOPER_ACCESS";
   "MAINTAINER_ACCESS"; "exit"; "GitlabAuth"; "GitlabAuthConf";
   "GitlabEnvConf"; "PathConf"; "ContainerExprPolicy"; "ConsulAuthConf";
   "CommandManager"; "VaultManager"; "ConsulManager"; "TemplateGenerator";
   "Optional"; "List"; "GitlabProjectManager"].

Definition is_bound (name : string) : bool :=
  existsb (String.eqb name)
    (create_global_variable_locals ++ project_manager_globals)%list.

Definition py_in (x : string) (l : list string) : bool :=
  existsb (String.eqb x) l.

(** Lines 238-246: the body of the [if] of the loop. *)
Definition write_branch_secret (branch : string) : M World unit :=
  consul_secret_value <-
    ConsulManager.generate_consul_secret yaml_dump CI_SUBGROUP_NAME
      CD_HELM_NAMESPACE ;;
  vault_secret_value <-
    (if py_in branch ["dev"; "devdmz"] then
       y <- VaultManager.generate_vault_secret yaml_dump json_dumps
              CI_SUBGROUP_NAME "dev" CD_HELM_NAMESPACE ;;
       ret (Some y)
     else ret None) ;;
  vault_secret_value <-
    (if py_in branch ["prod"; "proddmz"; "procdnz"] then
       y <- VaultManager.generate_vault_secret yaml_dump json_dumps
              CI_SUBGROUP_NAME "prod" CD_HELM_NAMESPACE ;;
       ret (Some y)
     else ret vault_secret_value) ;;
  let regcred_secret_value :=
    TemplateGenerator.generate_k8s_regcred yaml_dump json_dumps
      (Conf.CI_GITLAB_SERVER GitlabAuthConf)
      (Conf.CI_GITLAB_USERNAME GitlabAuthConf)
      (Conf.CI_GITLAB_PASSWORD GitlabAuthConf) CD_HELM_NAMESPACE in
  secret_value <- load_unbound_name "secret_value" ;;
  VaultManager.write_secret_to_vault "devops_kv"
    (branch +:+ "/kubernetes/namespace")
    (CommandManager.convert_key_format CD_HELM_NAMESPACE) secret_value.

Definition create_global_variable : M World unit :=
  let project_name_devops_provisioning :=
    Conf.CI_MAIN_GROUP_DEVOPS +:+ "/" +:+ Conf.devops_project_provisioning in
  devops_project_provisioning <-
    gl (Gitlab.projects_get project_name_devops_provisioning) ;;
  variables <- gl (Gitlab.variables_list devops_project_provisioning) ;;
  let existing_variables := map fst variables in
  for_each (Conf.envBranches GitlabEnvConf) (fun branch =>
    converted_secret_key <- load_unbound_name "converted_secret_key" ;;
    if negb (py_in converted_secret_key existing_variables)
    then write_branch_secret branch
    else ret tt).

(** Lines 197-217: the body of the loop of
    [assign_reporter_access_to_projects].  [projects.get(id, lazy=True)]
    sends nothing: the two projects are their ids. *)
Definition reporter_access (reporter : string) : M World unit :=
  try_except
    (found <- gl (Gitlab.users_list reporter) ;;
     user <- item0 found ;;
     let image_repo_project := Conf.CI_IMAGE_REPO_ID in
     try_except
       (gl (Gitlab.members_create image_repo_project user
              Conf.REPORTER_ACCESS) ;;
        print ("Reporter access granted to '" +:+ reporter
               +:+ "' in CI Image Repository project."))
       (fun e =>
          match e with
          | GitlabCreateError _ =>
              Some (print ("User '" +:+ reporter
                           +:+ "' already has access in CI Image Repository project."))
          | _ => None
          end) ;;
     let template_repo_project := Conf.CI_TEMPLATE_REPO_ID in
     try_except
       (gl (Gitlab.members_create template_repo_project user
              Conf.REPORTER_ACCESS) ;;
        print ("Reporter access granted to '" +:+ reporter
               +:+ "' in CI Template Repository project."))
       (fun e =>
          match e with
          | GitlabCreateError _ =>
              Some (print ("User '" +:+ reporter
                           +:+ "' already has access in CI Template Repository project."))
          | _ => None
          end))
    (fun e =>
       match e with
       | IndexError _ =>
           Some (print (reporter +:+ " for reporter access is not available"))
       | _ => None
       end).

Definition assign_reporter_access_to_projects : M World unit :=
  let reporters :=
    CommandManager.convert_string_to_list
      (Conf.CI_ACCESS_REPORTER GitlabEnvConf) in
  for_each reporters reporter_access.

End Configured.
End GitlabProjectManager.


(** * Observations used by the statements *)

(** The state a run ends in, whether it returned or raised. *)
Definition final {S A} (o : Outcome S A) : S :=
  match o with
  | Ok _ s => s
  | Raise _ s => s
  end.

(** [m] never changes the part [f] of the state, on no path. *)
Definition keeps {S A T} (f : S -> T) (m : M S A) : Prop :=
  forall s, f (final (m s)) = f s.

(** The key-value map stored at a path of a KV mount: empty when the path
    holds nothing. *)
Definition kv_at (w : World) (mount_point path : string)
  : gmap string string :=
  default ∅ (Vault.kv (vault w) !! (mount_point, path)).

(** The world after one more request reached GitLab. *)
Definition sent (req : Gitlab.request) (w : World) : World :=
  set_gitlab
    {| Gitlab.server := Gitlab.server (gitlab w);
       Gitlab.trace := req :: Gitlab.trace (gitlab w) |} w.

(** What GitLab answers to [req] in the world [w]. *)
Definition answer (w : World) (req : Gitlab.request) : Gitlab.response :=
  Gitlab.server (gitlab w) (Gitlab.trace (gitlab w)) req.

(** The world after one more line was printed. *)
Definition logged (line : string) (w : World) : World :=
  {| gitlab := gitlab w; vault := vault w; consul := consul w;
     stdout := line :: stdout w |}.

Definition is_error (r : Gitlab.response) : bool :=
  match r with
  | Gitlab.Error _ => true
  | _ => false
  end.

(** The Consul policies of a given name. *)
Definition policies_named (name : string) (c : Consul.state)
  : list Consul.policy :=
  filter (fun p => Consul.Name p = name) (Consul.policies c).

(** The first Consul policy of a given name, as a scan of the list finds
    it. *)
Definition policy_named (name : string) (c : Consul.state)
  : option Consul.policy :=
  find (fun p => String.eqb (Consul.Name p) name) (Consul.policies c).

(** The first Consul token of a given description. *)
Definition token_described (description : string) (c : Consul.state)
  : option Consul.token :=
  find (fun t => String.eqb (Consul.Description t) description)
    (Consul.tokens c).

(** The rule text of the policy of the group [payments]. *)
Definition payments_rules : string :=
  "key_prefix " +:+ dquote +:+ "payments/" +:+ dquote +:+ " { policy = "
  +:+ dquote +:+ "write" +:+ dquote +:+ " }".

(** ** Worlds for the scenarios *)

Definition no_fault {E} : E -> option exn := fun _ => None.

Definition empty_vault : Vault.state :=
  {| Vault.policies := ∅; Vault.roles := ∅; Vault.secret_ids := [];
     Vault.client_tokens := []; Vault.kv := ∅; Vault.next_id := 0;
     Vault.fault := no_fault |}.

Definition empty_consul : Consul.state :=
  {| Consul.policies := []; Consul.tokens := []; Consul.next_id := 0;
     Consul.fault := no_fault |}.

Definition world_of (server : list Gitlab.request -> Gitlab.request
                              -> Gitlab.response) : World :=
  {| gitlab := {| Gitlab.server := server; Gitlab.trace := [] |};
     vault := empty_vault; consul := empty_consul; stdout := [] |}.

(** A GitLab that creates what it is asked to create, knows no user and
    holds the provisioning project without variables. *)
Definition accepting_server (history : list Gitlab.request)
  (req : Gitlab.request) : Gitlab.response :=
  match req with
  | Gitlab.GroupsCreate _ _ _ _ => Gitlab.Object 900
  | Gitlab.GroupsGet id => Gitlab.Object id
  | Gitlab.SubgroupsList _ => Gitlab.Subgroups []
  | Gitlab.ProjectsCreate _ _ _ _ _ => Gitlab.Object 7
  | Gitlab.ProtectedBranchesCreate _ _ _ _ => Gitlab.Object 1
  | Gitlab.BranchesCreate _ _ _ => Gitlab.Object 2
  | Gitlab.UsersList username =>
      if String.eqb username "ghost" then Gitlab.Users []
      else Gitlab.Users [42%Z]
  | Gitlab.MembersCreate _ _ _ => Gitlab.Object 3
  | Gitlab.ProjectsGet _ => Gitlab.Object 3502
  | Gitlab.VariablesList _ => Gitlab.Variables []
  end.

(** A GitLab on which every project name is taken. *)
Definition taken_server (history : list Gitlab.request)
  (req : Gitlab.request) : Gitlab.response :=
  match req with
  | Gitlab.ProjectsCreate _ _ _ _ _ =>
      Gitlab.Error (GitlabCreateError "400: {'name': ['has already been taken']}")
  | _ => accepting_server history req
  end.

(** A GitLab whose new projects are empty: no ref to create a branch from. *)
Definition empty_repo_server (history : list Gitlab.request)
  (req : Gitlab.request) : Gitlab.response :=
  match req with
  | Gitlab.BranchesCreate _ _ _ =>
      Gitlab.Error (GitlabCreateError "400: Invalid reference name")
  | _ => accepting_server history req
  end.

Definition auth_conf : Conf.GitlabAuthConf :=
  {| Conf.CI_GITLAB_SERVER := "gitlab.example.org";
     Conf.CI_GITLAB_USERNAME := "ci";
     Conf.CI_GITLAB_PASSWORD := "hunter2" |}.

Definition payments_conf : Conf.GitlabEnvConf :=
  {| Conf.CI_SUBGROUP_NAME := "payments";
     Conf.CI_PROJECT_NAME := "ledger";
     Conf.CI_BRANCHING_TYPE := Some "gitflow";
     Conf.CI_PROJECT_TYPE := Some "backend";
     Conf.CI_PROJECT_TYPE_BACKEND_DMZ := None;
     Conf.CI_PROJECT_MODE := Some "SINGLE";
     Conf.CI_PROJECT_MM_MODULE_NAME := None;
     Conf.CI_APPLICATION_TYPE := Some "java";
     Conf.CI_RELEASE_TYPE := None;
     Conf.CI_CODE_STYLE := None;
     Conf.CI_CODE_CHECK_SNYK := None;
     Conf.CI_PROJECT_TEST_STAGE := None;
     Conf.CD_HELM_NAMESPACE := "payments-ns";
     Conf.CI_ACCESS_MAINTAINER := Some "ghost";
     Conf.CI_ACCESS_DEVELOPER := Some "alice";
     Conf.envBranches := ["dev"; "prod"] |}.

(** Serializers for the scenarios, in place of [yaml.dump] and
    [json.dumps]: the first key path of the document and the string at its
    end. *)
Fixpoint first_text (d : doc) : string :=
  match d with
  | DStr s => s
  | DBool _ => "bool"
  | DList items =>
      match items with
      | d' :: _ => first_text d'
      | [] => "[]"
      end
  | DDict entries =>
      match entries with
      | (k, d') :: _ => k +:+ ": " +:+ first_text d'
      | [] => "{}"
      end
  end.

Definition sample_yaml_dump (d : doc) : string := first_text d.
Definition sample_json_dumps (indent : option nat) (d : doc) : string :=
  first_text d.

(** The line printed for a username that resolves to no user. *)
Definition skip_line (role username : string) : string :=
  username +:+ " for " +:+ role +:+ " access is not available".

(** The line [create_project_code] prints for a branch, given what GitLab
    answered to the creation request. *)
Definition code_branch_line (branch_name : string) (r : Gitlab.response)
  : string :=
  match r with
  | Gitlab.Error e =>
      "Creation of branch on CODE group '" +:+ branch_name +:+ "': "
      +:+ str_exn e
  | _ =>
      "Branch '" +:+ branch_name +:+ "' created from '"
      +:+ GitlabProjectManager.branch_ref branch_name +:+ " in CODE group'."
  end.

(** The two requests of one turn of the branch loop. *)
Definition protect_request (project : Z) (branch_name : string)
  : Gitlab.request :=
  Gitlab.ProtectedBranchesCreate project branch_name Conf.DEVELOPER_ACCESS
    Conf.MAINTAINER_ACCESS.

Definition branch_request (project : Z) (branch_name : string)
  : Gitlab.request :=
  Gitlab.BranchesCreate project branch_name
    (GitlabProjectManager.branch_ref branch_name).

(** A creation request is refused, if at all, with [GitlabCreateError]. *)
Definition create_error_only (r : Gitlab.response) : Prop :=
  forall e, r = Gitlab.Error e -> exists str_e, e = GitlabCreateError str_e.

(** [m] returns on no path: every run ends in a raise. *)
Definition never_returns {S A} (m : M S A) : Prop :=
  forall s, exists e s', m s = Raise e s'.

(** The requests [create_project_code] and [create_project_chart] make to
    create their project. *)
Definition code_project_request (GitlabEnvConf : Conf.GitlabEnvConf)
  (namespace_id : option Z) : Gitlab.request :=
  Gitlab.ProjectsCreate (Conf.CI_PROJECT_NAME GitlabEnvConf) Conf.visibility
    namespace_id false (Some Conf.ContainerExprPolicy).

Definition chart_project_request (GitlabEnvConf : Conf.GitlabEnvConf)
  (namespace_id : option Z) : Gitlab.request :=
  Gitlab.ProjectsCreate (GitlabProjectManager.chart_module GitlabEnvConf)
    Conf.visibility namespace_id false None.

(** ** Observations over every path of a run *)

(** [m] relates each state to the state it ends in, returning or raising. *)
Definition along {S A} (R : S -> S -> Prop) (m : M S A) : Prop :=
  forall s, R s (final (m s)).

(** The requests that reached GitLab between two worlds all satisfy [P]. *)
Definition emits (P : Gitlab.request -> Prop) (w w' : World) : Prop :=
  exists l,
    Gitlab.trace (gitlab w') = (l ++ Gitlab.trace (gitlab w))%list
    /\ Forall P l.

(** The same on a state that carries a local variable. *)
Definition emits_local {L} (P : Gitlab.request -> Prop) (s s' : L * World)
  : Prop :=
  emits P (snd s) (snd s').

(** Consul only grows: what was stored is still there, in order, followed
    by at most one new policy and one new token. *)
Definition consul_grows (w w' : World) : Prop :=
  exists new_policies new_tokens,
    Consul.policies (consul w')
    = (Consul.policies (consul w) ++ new_policies)%list
    /\ Consul.tokens (consul w')
       = (Consul.tokens (consul w) ++ new_tokens)%list
    /\ (length new_policies <= 1)%nat /\ (length new_tokens <= 1)%nat.

(** No whitespace code point occurs in [s]. *)
Definition no_space (s : string) : Prop :=
  forall before ws after,
    In ws PyStr.whitespace ->
    list_ascii_of_string s <> (before ++ ws ++ after)%list.

(** The bytes read into the word [cur] (last byte first) hold no
    whitespace code point: [split()] has cut at none of them. *)
Fixpoint clean (cur : list ascii) : Prop :=
  match cur with
  | [] => True
  | c :: cur' => PyStr.ends_ws cur = None /\ clean cur'
  end.

(** A word as [split] returns them: not empty, no whitespace in it. *)
Definition is_word (s : string) : Prop :=
  s <> EmptyString /\ no_space s.

(** What [create_project_code] and [create_project_chart] may ask of
    GitLab. *)
Definition provisioning_request (req : Gitlab.request) : Prop :=
  match req with
  | Gitlab.GroupsCreate _ _ _ _ | Gitlab.GroupsGet _ | Gitlab.SubgroupsList _
  | Gitlab.ProjectsCreate _ _ _ _ _ | Gitlab.BranchesCreate _ _ _
  | Gitlab.UsersList _ => True
  | Gitlab.ProtectedBranchesCreate _ _ merge_access_level push_access_level =>
      (merge_access_level < push_access_level)%Z
  | Gitlab.MembersCreate _ _ access_level =>
      access_level = Conf.REPORTER_ACCESS
  | Gitlab.ProjectsGet _ | Gitlab.VariablesList _ => False
  end.

(** A GitLab that resolves every username to one user and refuses
    every membership as a duplicate. *)
Definition member_server (history : list Gitlab.request)
  (req : Gitlab.request) : Gitlab.response :=
  match req with
  | Gitlab.UsersList _ => Gitlab.Users [42%Z]
  | Gitlab.MembersCreate _ _ _ =>
      Gitlab.Error (GitlabCreateError "409: Member already exists")
  | _ => accepting_server history req
  end.

(** A GitLab that refuses every new project for a reason other than its
    name. *)
Definition refusing_server (history : list Gitlab.request)
  (req : Gitlab.request) : Gitlab.response :=
  match req with
  | Gitlab.ProjectsCreate _ _ _ _ _ =>
      Gitlab.Error (GitlabCreateError "400: {'namespace': ['is not valid']}")
  | _ => accepting_server history req
  end.

(** A Vault that refuses every request, and a world that holds it. *)
Definition sealed_vault : Vault.state :=
  {| Vault.policies := ∅; Vault.roles := ∅; Vault.secret_ids := [];
     Vault.client_tokens := []; Vault.kv := ∅; Vault.next_id := 0;
     Vault.fault := fun _ => Some (VaultError "Vault is sealed") |}.

Definition sealed_world : World :=
  set_vault sealed_vault (world_of accepting_server).



(** A Consul on which only the creation of tokens is refused. *)
Definition no_token_consul : Consul.state :=
  {| Consul.policies := []; Consul.tokens := []; Consul.next_id := 0;
     Consul.fault := fun ep =>
       match ep with
       | Consul.put_token => Some (HTTPError "403 Client Error: Forbidden")
       | _ => None
       end |}.

Definition no_token_world : World :=
  set_consul no_token_consul (world_of accepting_server).

(** The request [req] reached GitLab between two worlds, before any other
    request made between them. *)
Definition follows (req : Gitlab.request) (w w' : World) : Prop :=
  exists l, Gitlab.trace (gitlab w') = (l ++ req :: Gitlab.trace (gitlab w))%list.

(** The request that creates the subgroup of a group. *)
Definition subgroup_request (GitlabEnvConf : Conf.GitlabEnvConf)
  (group_id : Z) : Gitlab.request :=
  Gitlab.GroupsCreate (Conf.CI_SUBGROUP_NAME GitlabEnvConf)
    (Conf.CI_SUBGROUP_NAME GitlabEnvConf) Conf.visibility group_id.

(** An error that [_create_subgroup] and the project creation take for a
    name that exists. *)
Definition name_taken (e : exn) : bool :=
  match e with
  | GitlabCreateError str_e => PyStr.contains "has already been taken" str_e
  | _ => false
  end.

(** A GitLab that lets no subgroup be created. *)
Definition no_subgroup_server (history : list Gitlab.request)
  (req : Gitlab.request) : Gitlab.response :=
  match req with
  | Gitlab.GroupsCreate _ _ _ _ =>
      Gitlab.Error (GitlabCreateError "403 Forbidden")
  | _ => accepting_server history req
  end.

(** A GitLab on which the subgroup exists, with the id 77, beside another
    one. *)
Definition subgroup_taken_server (history : list Gitlab.request)
  (req : Gitlab.request) : Gitlab.response :=
  match req with
  | Gitlab.GroupsCreate _ _ _ _ =>
      Gitlab.Error
        (GitlabCreateError "400: {'path': ['has already been taken']}")
  | Gitlab.SubgroupsList _ =>
      Gitlab.Subgroups [(76%Z, "billing"); (77%Z, "payments")]
  | _ => accepting_server history req
  end.

(** A GitLab on which the subgroup exists and the parent group cannot be
    read. *)
Definition hidden_parent_server (history : list Gitlab.request)
  (req : Gitlab.request) : Gitlab.response :=
  match req with
  | Gitlab.GroupsCreate _ _ _ _ =>
      Gitlab.Error
        (GitlabCreateError "400: {'path': ['has already been taken']}")
  | Gitlab.GroupsGet _ => Gitlab.Error (GitlabGetError "404 Group Not Found")
  | _ => accepting_server history req
  end.



(** A GitLab that refuses every new project for a reason other than its
    name and knows every user. *)
Definition refusing_known_server (history : list Gitlab.request)
  (req : Gitlab.request) : Gitlab.response :=
  match req with
  | Gitlab.ProjectsCreate _ _ _ _ _ =>
      Gitlab.Error (GitlabCreateError "400: {'namespace': ['is not valid']}")
  | Gitlab.UsersList _ => Gitlab.Users [42%Z]
  | _ => accepting_server history req
  end.

(** A GitLab that cannot be reached when a project is created. *)
Definition unreachable_server (history : list Gitlab.request)
  (req : Gitlab.request) : Gitlab.response :=
  match req with
  | Gitlab.ProjectsCreate _ _ _ _ _ =>
      Gitlab.Error (HTTPError "502 Bad Gateway")
  | _ => accepting_server history req
  end.

(** The membership request of the loops of [create_project_code] and
    [create_project_chart], and those of [assign_reporter_access_to_projects]. *)
Definition member_request (project user : Z) : Gitlab.request :=
  Gitlab.MembersCreate project user Conf.REPORTER_ACCESS.

(** The line [assign_reporter_access_to_projects] prints for a project, given
    what GitLab answered to the membership request. *)
Definition reporter_line (reporter repository : string)
  (r : Gitlab.response) : string :=
  match r with
  | Gitlab.Error _ =>
      "User '" +:+ reporter +:+ "' already has access in " +:+ repository
      +:+ " project."
  | _ =>
      "Reporter access granted to '" +:+ reporter +:+ "' in " +:+ repository
      +:+ " project."
  end.

(** The same on a state that carries a local variable. *)
Definition follows_local {L} (req : Gitlab.request) (s s' : L * World)
  : Prop :=
  follows req (snd s) (snd s').

(** A configuration with developers only and no environment branch. *)
Definition bare_conf : Conf.GitlabEnvConf :=
  {| Conf.CI_SUBGROUP_NAME := "payments";
     Conf.CI_PROJECT_NAME := "ledger";
     Conf.CI_BRANCHING_TYPE := Some "gitflow";
     Conf.CI_PROJECT_TYPE := Some "backend";
     Conf.CI_PROJECT_TYPE_BACKEND_DMZ := None;
     Conf.CI_PROJECT_MODE := Some "SINGLE";
     Conf.CI_PROJECT_MM_MODULE_NAME := None;
     Conf.CI_APPLICATION_TYPE := Some "java";
     Conf.CI_RELEASE_TYPE := None;
     Conf.CI_CODE_STYLE := None;
     Conf.CI_CODE_CHECK_SNYK := None;
     Conf.CI_PROJECT_TEST_STAGE := None;
     Conf.CD_HELM_NAMESPACE := "payments-ns";
     Conf.CI_ACCESS_MAINTAINER := None;
     Conf.CI_ACCESS_DEVELOPER := Some "alice bob";
     Conf.envBranches := [] |}.

(** A Consul that holds, from an earlier time, a policy named [payments]
    with other rules and a token described [payments] bound to another
    policy. *)
Definition stale_consul : Consul.state :=
  {| Consul.policies :=
       [{| Consul.ID := "policy-legacy"; Consul.Name := "payments";
           Consul.Rules := "operator = read" |}];
     Consul.tokens :=
       [{| Consul.AccessorID := "accessor-legacy";
           Consul.SecretID := "secret-legacy";
           Consul.Description := "payments";
           Consul.Policies := ["policy-other"] |}];
     Consul.next_id := 0;
     Consul.fault := no_fault |}.

Definition stale_consul_world : World :=
  set_consul stale_consul (world_of accepting_server).

(** A Vault that holds the role of the group [payments] for [dev], with a
    secret id issued for it earlier. *)
Definition seasoned_vault : Vault.state :=
  {| Vault.policies := ∅;
     Vault.roles :=
       {[ "payments_dev_role" :=
            {| Vault.role_id := "role-legacy";
               Vault.token_policies := ["payments_dev_policy"];
               Vault.token_type := "service" |} ]};
     Vault.secret_ids := [("payments_dev_role", "secret-legacy")];
     Vault.client_tokens := []; Vault.kv := ∅; Vault.next_id := 0;
     Vault.fault := no_fault |}.

Definition seasoned_world : World :=
  set_vault seasoned_vault (world_of accepting_server).
(** * Properties *)

(** ** Base64 *)

(** Induction on a string three characters at a time, as [b64encode] reads
    it. *)
Lemma string_ind3 (P : string -> Prop) :
  P EmptyString ->
  (forall x, P (String x EmptyString)) ->
  (forall x y, P (String x (String y EmptyString))) ->
  (forall x y z rest, P rest -> P (String x (String y (String z rest)))) ->
  forall s, P s.
Proof.
  intros H0 H1 H2 H3 s.
  assert (H : P s /\ (forall x, P (String x s))
              /\ (forall x y, P (String x (String y s)))).
  { induction s as [|c s IH].
    - auto.
    - destruct IH as (IHs & IH1 & IH2). repeat split; auto. }
  apply H.
Qed.

Lemma char_sextet_char (s : Base64.sextet) :
  Base64.char_sextet (Base64.sextet_char s) = Some s.
Proof.
  destruct s as [[[[[b5 b4] b3] b2] b1] b0].
  destruct b5, b4, b3, b2, b1, b0; vm_compute; reflexivity.
Qed.

Lemma b64decode_group (a b c d : ascii) (rest : string)
  (p q r t : Base64.sextet) :
  Base64.char_sextet a = Some p -> Base64.char_sextet b = Some q ->
  Base64.char_sextet c = Some r -> Base64.char_sextet d = Some t ->
  Base64.b64decode (String a (String b (String c (String d rest)))) =
  match Base64.b64decode rest with
  | Some tail => Some (Base64.dec3 p q r t +:+ tail)
  | None => None
  end.
Proof.
  intros Ha Hb Hc Hd. cbn [Base64.b64decode].
  rewrite Ha, Hb, Hc, Hd. reflexivity.
Qed.

Lemma append_String (a : ascii) (s t : string) :
  String a s +:+ t = String a (s +:+ t).
Proof. reflexivity. Qed.

Lemma append_EmptyString (t : string) : EmptyString +:+ t = t.
Proof. reflexivity. Qed.

Lemma b64decode_enc1 (x : ascii) :
  Base64.b64decode (Base64.enc1 x) = Some (String x EmptyString).
Proof.
  destruct x as [x0 x1 x2 x3 x4 x5 x6 x7].
  unfold Base64.enc1. cbn [Base64.b64decode].
  rewrite !char_sextet_char. reflexivity.
Qed.

Lemma b64decode_enc2 (x y : ascii) :
  Base64.b64decode (Base64.enc2 x y)
  = Some (String x (String y EmptyString)).
Proof.
  destruct x as [x0 x1 x2 x3 x4 x5 x6 x7].
  destruct y as [y0 y1 y2 y3 y4 y5 y6 y7].
  unfold Base64.enc2. cbn [Base64.b64decode].
  rewrite !char_sextet_char. reflexivity.
Qed.

Lemma b64decode_enc3 (x y z : ascii) (tail : string) :
  Base64.b64decode (Base64.enc3 x y z +:+ tail) =
  match Base64.b64decode tail with
  | Some s => Some (String x (String y (String z s)))
  | None => None
  end.
Proof.
  destruct x as [x0 x1 x2 x3 x4 x5 x6 x7].
  destruct y as [y0 y1 y2 y3 y4 y5 y6 y7].
  destruct z as [z0 z1 z2 z3 z4 z5 z6 z7].
  unfold Base64.enc3. rewrite !append_String, append_EmptyString.
  erewrite b64decode_group by apply char_sextet_char.
  destruct (Base64.b64decode tail); reflexivity.
Qed.

(** Decoding undoes encoding. *)
Lemma b64decode_b64encode (s : string) :
  Base64.b64decode (Base64.b64encode s) = Some s.
Proof.
  induction s as [| x | x y | x y z rest IH] using string_ind3.
  - reflexivity.
  - apply b64decode_enc1.
  - apply b64decode_enc2.
  - change (Base64.b64encode (String x (String y (String z rest))))
      with (Base64.enc3 x y z +:+ Base64.b64encode rest).
    rewrite b64decode_enc3, IH. reflexivity.
Qed.

Lemma length_enc3_append (x y z : ascii) (tail : string) :
  String.length (Base64.enc3 x y z +:+ tail) = (4 + String.length tail)%nat.
Proof.
  destruct x, y, z. unfold Base64.enc3.
  rewrite !append_String, append_EmptyString. reflexivity.
Qed.

(** An encoding is never shorter than its input, and longer when the input
    is not empty. *)
Lemma length_b64encode (s : string) :
  (String.length s <= String.length (Base64.b64encode s))%nat
  /\ (s <> EmptyString ->
      (String.length s < String.length (Base64.b64encode s))%nat).
Proof.
  induction s as [| x | x y | x y z rest IH] using string_ind3.
  - split; [reflexivity | congruence].
  - destruct x. cbn. split; intros; lia.
  - destruct x, y. cbn. split; intros; lia.
  - change (Base64.b64encode (String x (String y (String z rest))))
      with (Base64.enc3 x y z +:+ Base64.b64encode rest).
    rewrite length_enc3_append. destruct IH as [IH _].
    cbn [String.length]. split; intros; lia.
Qed.

Lemma b64encode_neq (s : string) :
  s <> EmptyString -> Base64.b64encode s <> s.
Proof.
  intros Hs Heq. destruct (length_b64encode s) as [_ Hlt].
  specialize (Hlt Hs). rewrite Heq in Hlt. lia.
Qed.

(** ** The computation monad *)

Lemma keeps_ret {S A T} (f : S -> T) (a : A) : keeps f (ret a).
Proof. intros s. reflexivity. Qed.

Lemma keeps_raise {S A T} (f : S -> T) (e : exn) : keeps f (@raise S A e).
Proof. intros s. reflexivity. Qed.

Lemma keeps_bind {S A B T} (f : S -> T) (m : M S A) (k : A -> M S B) :
  keeps f m -> (forall a, keeps f (k a)) -> keeps f (bind m k).
Proof.
  intros Hm Hk s. unfold bind. specialize (Hm s).
  destruct (m s) as [a s' | e s']; cbn in *.
  - rewrite Hk. exact Hm.
  - exact Hm.
Qed.

Lemma keeps_try_except {S A T} (f : S -> T) (body : M S A)
  (handler : exn -> option (M S A)) :
  keeps f body ->
  (forall e h, handler e = Some h -> keeps f h) ->
  keeps f (try_except body handler).
Proof.
  intros Hb Hh s. unfold try_except. specialize (Hb s).
  destruct (body s) as [a s' | e s']; cbn in *; [exact Hb |].
  destruct (handler e) as [h |] eqn:He; cbn; [| exact Hb].
  rewrite (Hh e h He). exact Hb.
Qed.

Lemma keeps_print {T} (f : World -> T) (line : string) :
  (forall w, f (logged line w) = f w) -> keeps f (print line).
Proof. intros H w. apply H. Qed.

Lemma keeps_hvac {A T} (f : Vault.state -> T) (m : M Vault.state A) :
  keeps f m -> keeps (fun w => f (vault w)) (hvac m).
Proof.
  intros H w. unfold hvac, zoom. specialize (H (vault w)).
  destruct (m (vault w)); exact H.
Qed.

Lemma keeps_http_vault {A T} (f : Vault.state -> T) (m : M Consul.state A) :
  keeps (fun w => f (vault w)) (http m).
Proof.
  intros w. unfold http, zoom. destruct (m (consul w)); reflexivity.
Qed.

Lemma bind_Ok {S A B} (m : M S A) (k : A -> M S B) (s s' : S) (a : A) :
  m s = Ok a s' -> bind m k s = k a s'.
Proof. intros E. unfold bind. rewrite E. reflexivity. Qed.

Lemma bind_Raise {S A B} (m : M S A) (k : A -> M S B) (s s' : S) (e : exn) :
  m s = Raise e s' -> bind m k s = Raise e s'.
Proof. intros E. unfold bind. rewrite E. reflexivity. Qed.

Lemma never_returns_raise {S A} (e : exn) : never_returns (@raise S A e).
Proof. intros s. exists e, s. reflexivity. Qed.

Lemma never_returns_bind {S A B} (m : M S A) (k : A -> M S B) :
  (forall a, never_returns (k a)) -> never_returns (bind m k).
Proof.
  intros Hk s. unfold bind. destruct (m s) as [a s' | e s'].
  - apply Hk.
  - exists e, s'. reflexivity.
Qed.

(** A run that never returns and keeps [f] ends in a raise with [f] as it
    was. *)
Lemma never_returns_keeps {S A T} (f : S -> T) (m : M S A) (s : S) :
  never_returns m -> keeps f m ->
  exists e s', m s = Raise e s' /\ f s' = f s.
Proof.
  intros Hn Hk. destruct (Hn s) as (e & s' & E).
  exists e, s'. split; [exact E |].
  specialize (Hk s). rewrite E in Hk. exact Hk.
Qed.

Lemma global_run {L A} (m : M World A) (l : L) (w : World) :
  global m (l, w)
  = match m w with
    | Ok a w' => Ok a (l, w')
    | Raise e w' => Raise e (l, w')
    end.
Proof. reflexivity. Qed.

Lemma with_local_Raise {L A} (init l : L) (body : M (L * World) A)
  (w w' : World) (e : exn) :
  body (init, w) = Raise e (l, w') -> with_local init body w = Raise e w'.
Proof. intros E. unfold with_local. rewrite E. reflexivity. Qed.

Lemma never_returns_bind_l {S A B} (m : M S A) (k : A -> M S B) :
  never_returns m -> never_returns (bind m k).
Proof.
  intros Hm s. unfold bind. destruct (Hm s) as (e & s' & ->).
  exists e, s'. reflexivity.
Qed.

Lemma keeps_bind_never {S A B T} (f : S -> T) (m : M S A) (k : A -> M S B) :
  never_returns m -> keeps f m -> keeps f (bind m k).
Proof.
  intros Hn Hk s. unfold bind. specialize (Hk s).
  destruct (Hn s) as (e & s' & E). rewrite E in *. exact Hk.
Qed.

Lemma keeps_gl {A T} (f : World -> T) (m : M Gitlab.state A) :
  (forall g w, f (set_gitlab g w) = f w) -> keeps f (gl m).
Proof.
  intros H w. unfold gl, zoom. destruct (m (gitlab w)); cbn; apply H.
Qed.

(** ** [VaultManager] *)

Ltac run :=
  unfold bind, ret, raise, get, put, modify, try_except, hvac, http, gl, zoom,
    print, Vault.request, Vault.fresh, Consul.request, Consul.fresh in *.

Lemma write_secret_to_vault_spec (mount_point path k v : string) (w : World) :
  Vault.fault (vault w) Vault.kv_v1_read = None ->
  Vault.fault (vault w) Vault.kv_v1_write = None ->
  exists w',
    VaultManager.write_secret_to_vault mount_point path k v w = Ok tt w'
    /\ vault w'
       = Vault.set_kv
           <[(mount_point, path) := <[k := v]> (kv_at w mount_point path)]>
           (vault w).
Proof.
  intros Hr Hw.
  unfold VaultManager.write_secret_to_vault, kv_at, Vault.read_secret,
    Vault.create_or_update_secret.
  run. rewrite Hr.
  destruct (Vault.kv (vault w) !! (mount_point, path)) as [data |];
    cbn; rewrite Hw; eexists; (split; [reflexivity | reflexivity]).
Qed.

Lemma kv_at_after_write (mount_point path : string) (m : gmap string string)
  (w w' : World) :
  vault w' = Vault.set_kv <[(mount_point, path) := m]> (vault w) ->
  kv_at w' mount_point path = m
  /\ Vault.fault (vault w') = Vault.fault (vault w).
Proof.
  intros E. unfold kv_at. rewrite E. cbn.
  rewrite lookup_insert_eq. auto.
Qed.

Lemma write_secret_to_vault_twice (mount_point path a va b vb : string)
  (w : World) :
  Vault.fault (vault w) Vault.kv_v1_read = None ->
  Vault.fault (vault w) Vault.kv_v1_write = None ->
  exists w1 w2,
    VaultManager.write_secret_to_vault mount_point path a va w = Ok tt w1
    /\ VaultManager.write_secret_to_vault mount_point path b vb w1 = Ok tt w2
    /\ kv_at w2 mount_point path
       = <[b := vb]> (<[a := va]> (kv_at w mount_point path)).
Proof.
  intros Hr Hw.
  destruct (write_secret_to_vault_spec mount_point path a va w Hr Hw)
    as (w1 & E1 & V1).
  destruct (kv_at_after_write _ _ _ _ _ V1) as (K1 & F1).
  rewrite <- F1 in Hr, Hw.
  destruct (write_secret_to_vault_spec mount_point path b vb w1 Hr Hw)
    as (w2 & E2 & V2).
  destruct (kv_at_after_write _ _ _ _ _ V2) as (K2 & _).
  exists w1, w2. rewrite K2, K1. auto.
Qed.

(** C5. [write_secret_to_vault] reads the map stored at the path (the empty
    map when nothing is stored there, which is when the read raises
    [InvalidPath]), binds the key to the value and writes the whole map back:
    the stored map is the old one with the key bound to the value, every other
    key unchanged.  Hence writing [a] and then [b] leaves both in the map
    ([b] winning when they are the same key), and writing [a] twice leaves the
    later value. *)
Theorem C5_write_secret_read_merge_write (mount_point path : string)
  (w : World) :
  Vault.fault (vault w) Vault.kv_v1_read = None ->
  Vault.fault (vault w) Vault.kv_v1_write = None ->
  (forall k v, exists w',
      VaultManager.write_secret_to_vault mount_point path k v w = Ok tt w'
      /\ Vault.kv (vault w') !! (mount_point, path)
         = Some (<[k := v]> (kv_at w mount_point path))
      /\ kv_at w' mount_point path !! k = Some v
      /\ (forall k', k' <> k ->
            kv_at w' mount_point path !! k'
            = kv_at w mount_point path !! k'))
  /\ (forall a va b vb, exists w1 w2,
      VaultManager.write_secret_to_vault mount_point path a va w = Ok tt w1
      /\ VaultManager.write_secret_to_vault mount_point path b vb w1 = Ok tt w2
      /\ kv_at w2 mount_point path
         = <[b := vb]> (<[a := va]> (kv_at w mount_point path))
      /\ kv_at w2 mount_point path !! b = Some vb
      /\ (a <> b -> kv_at w2 mount_point path !! a = Some va))
  /\ (forall a v1 v2, exists w1 w2,
      VaultManager.write_secret_to_vault mount_point path a v1 w = Ok tt w1
      /\ VaultManager.write_secret_to_vault mount_point path a v2 w1 = Ok tt w2
      /\ kv_at w2 mount_point path = <[a := v2]> (kv_at w mount_point path)
      /\ kv_at w2 mount_point path !! a = Some v2).
Proof.
  intros Hr Hw. split; [| split].
  - intros k v.
    destruct (write_secret_to_vault_spec mount_point path k v w Hr Hw)
      as (w' & E & V).
    destruct (kv_at_after_write _ _ _ _ _ V) as (K & _).
    exists w'. rewrite K, V. cbn. rewrite !lookup_insert_eq.
    repeat split; auto. intros k' Hne. by rewrite lookup_insert_ne.
  - intros a va b vb.
    destruct (write_secret_to_vault_twice mount_point path a va b vb w Hr Hw)
      as (w1 & w2 & E1 & E2 & K).
    exists w1, w2. rewrite K, lookup_insert_eq. repeat split; auto.
    intros Hne. rewrite lookup_insert_ne by auto. apply lookup_insert_eq.
  - intros a v1 v2.
    destruct (write_secret_to_vault_twice mount_point path a v1 a v2 w Hr Hw)
      as (w1 & w2 & E1 & E2 & K).
    exists w1, w2. rewrite K, insert_insert_eq, lookup_insert_eq. auto.
Qed.

Lemma C5_witness :
  exists w',
    VaultManager.write_secret_to_vault "devops_kv" "dev/kubernetes/namespace"
      "payments_ns" "manifests" (world_of accepting_server) = Ok tt w'
    /\ Vault.kv (vault w') !! ("devops_kv", "dev/kubernetes/namespace")
       = Some (<["payments_ns" := "manifests"]>
                 (kv_at (world_of accepting_server) "devops_kv"
                    "dev/kubernetes/namespace"))
    /\ kv_at w' "devops_kv" "dev/kubernetes/namespace" !! "payments_ns"
       = Some "manifests"
    /\ (forall k', k' <> "payments_ns" ->
          kv_at w' "devops_kv" "dev/kubernetes/namespace" !! k'
          = kv_at (world_of accepting_server) "devops_kv"
              "dev/kubernetes/namespace" !! k').
Proof.
  apply (C5_write_secret_read_merge_write "devops_kv"
           "dev/kubernetes/namespace" (world_of accepting_server));
    reflexivity.
Defined.

(** Two keys written to one path of an empty store, then the first key
    again: the path holds both keys, the first with its later value. *)
Example write_secret_three_times :
  exists w1 w2 w3,
    VaultManager.write_secret_to_vault "devops_kv" "dev/kubernetes/namespace"
      "payments_ns" "one" (world_of accepting_server) = Ok tt w1
    /\ VaultManager.write_secret_to_vault "devops_kv"
         "dev/kubernetes/namespace" "billing_ns" "two" w1 = Ok tt w2
    /\ VaultManager.write_secret_to_vault "devops_kv"
         "dev/kubernetes/namespace" "payments_ns" "three" w2 = Ok tt w3
    /\ kv_at w3 "devops_kv" "dev/kubernetes/namespace" !! "payments_ns"
       = Some "three"
    /\ kv_at w3 "devops_kv" "dev/kubernetes/namespace" !! "billing_ns"
       = Some "two"
    /\ size (kv_at w3 "devops_kv" "dev/kubernetes/namespace") = 2%nat.
Proof.
  eexists. eexists. eexists.
  split; [vm_compute; reflexivity |].
  split; [vm_compute; reflexivity |].
  split; [vm_compute; reflexivity |].
  repeat split; vm_compute; reflexivity.
Qed.

(** The three paths of [_create_or_get_role_id]. *)
Lemma create_or_get_role_id_present (role_name policy_name : string)
  (r : Vault.approle) (w : World) :
  Vault.fault (vault w) Vault.approle_role_id = None ->
  Vault.roles (vault w) !! role_name = Some r ->
  VaultManager._create_or_get_role_id role_name policy_name w
  = Ok (Vault.role_id r) w.
Proof.
  intros Hr Hsome.
  unfold VaultManager._create_or_get_role_id, Vault.read_role_id.
  run. rewrite Hr, Hsome. destruct w; reflexivity.
Qed.

Lemma create_or_get_role_id_absent (role_name policy_name : string)
  (w : World) :
  Vault.fault (vault w) Vault.approle_role_id = None ->
  Vault.fault (vault w) Vault.approle_role = None ->
  Vault.roles (vault w) !! role_name = None ->
  VaultManager._create_or_get_role_id role_name policy_name w
  = Ok ("role-" +:+ pretty (Vault.next_id (vault w)))
      (set_vault
         (Vault.set_roles
            <[role_name :=
                {| Vault.role_id :=
                     "role-" +:+ pretty (Vault.next_id (vault w));
                   Vault.token_policies := [policy_name];
                   Vault.token_type := "service" |}]>
            (Vault.set_next_id S (vault w)))
         (logged "Vault Role does not exist, creating a new one..." w)).
Proof.
  intros Hr Hc Hnone.
  unfold VaultManager._create_or_get_role_id, Vault.read_role_id,
    Vault.create_or_update_approle.
  run. rewrite Hr, Hnone. cbn. rewrite Hc, Hnone. cbn. rewrite Hr. cbn.
  rewrite lookup_insert_eq. reflexivity.
Qed.

Lemma create_or_get_role_id_propagates (role_name policy_name : string)
  (e : exn) (w : World) :
  Vault.fault (vault w) Vault.approle_role_id = Some e ->
  (forall str_e, e <> InvalidPath str_e) ->
  VaultManager._create_or_get_role_id role_name policy_name w = Raise e w.
Proof.
  intros He Hne.
  unfold VaultManager._create_or_get_role_id, Vault.read_role_id.
  run. rewrite He. destruct w. cbn.
  destruct e; try reflexivity. exfalso. eapply Hne. reflexivity.
Qed.

(** C6. [_create_or_get_role_id] is idempotent.  When the role is missing
    (the lookup raises [InvalidPath]) it creates the role, bound to the given
    policy, and returns its id; a later call for the same role name, whatever
    the policy name, returns that id and leaves the server as it is.  A role
    that exists is only read.  A lookup that fails with anything but
    [InvalidPath] is not caught. *)
Theorem C6_create_or_get_role_id_idempotent (role_name policy_name : string)
  (w : World) :
  (Vault.fault (vault w) Vault.approle_role_id = None ->
   Vault.fault (vault w) Vault.approle_role = None ->
   Vault.roles (vault w) !! role_name = None ->
   exists role_id w1,
     VaultManager._create_or_get_role_id role_name policy_name w
     = Ok role_id w1
     /\ Vault.roles (vault w1)
        = <[role_name := {| Vault.role_id := role_id;
                            Vault.token_policies := [policy_name];
                            Vault.token_type := "service" |}]>
            (Vault.roles (vault w))
     /\ forall policy_name',
          VaultManager._create_or_get_role_id role_name policy_name' w1
          = Ok role_id w1)
  /\ (forall r,
        Vault.fault (vault w) Vault.approle_role_id = None ->
        Vault.roles (vault w) !! role_name = Some r ->
        VaultManager._create_or_get_role_id role_name policy_name w
        = Ok (Vault.role_id r) w)
  /\ (forall e,
        Vault.fault (vault w) Vault.approle_role_id = Some e ->
        (forall str_e, e <> InvalidPath str_e) ->
        VaultManager._create_or_get_role_id role_name policy_name w
        = Raise e w).
Proof.
  split; [| split].
  - intros Hr Hc Hnone.
    eexists. eexists.
    split; [apply create_or_get_role_id_absent; assumption |].
    split; [reflexivity |].
    intros policy_name'.
    apply (create_or_get_role_id_present role_name policy_name'
             {| Vault.role_id := "role-" +:+ pretty (Vault.next_id (vault w));
                Vault.token_policies := [policy_name];
                Vault.token_type := "service" |});
      [exact Hr | apply lookup_insert_eq].
  - intros r. apply create_or_get_role_id_present.
  - intros e. apply create_or_get_role_id_propagates.
Qed.

Lemma C6_witness :
  exists role_id w1,
    VaultManager._create_or_get_role_id "payments_dev_role"
      "payments_dev_policy" (world_of accepting_server) = Ok role_id w1
    /\ Vault.roles (vault w1)
       = <["payments_dev_role" :=
             {| Vault.role_id := role_id;
                Vault.token_policies := ["payments_dev_policy"];
                Vault.token_type := "service" |}]>
           (Vault.roles (vault (world_of accepting_server)))
    /\ forall policy_name',
         VaultManager._create_or_get_role_id "payments_dev_role" policy_name'
           w1 = Ok role_id w1.
Proof.
  apply (proj1 (C6_create_or_get_role_id_idempotent "payments_dev_role"
                  "payments_dev_policy" (world_of accepting_server)));
    reflexivity.
Defined.

(** ** [ConsulManager] *)

Lemma find_app_None {A} (f : A -> bool) (l : list A) (x : A) :
  find f l = None -> f x = true -> find f (l ++ [x]) = Some x.
Proof.
  intros Hl Hx. induction l as [| y l IH]; cbn in *.
  - rewrite Hx. reflexivity.
  - destruct (f y); [discriminate | auto].
Qed.

Lemma find_None_existsb {A} (f : A -> bool) (l : list A) :
  find f l = None -> existsb f l = false.
Proof.
  induction l as [| y l IH]; cbn; [reflexivity |].
  destruct (f y); [discriminate | auto].
Qed.

Lemma find_Some_In {A} (f : A -> bool) (l : list A) (x : A) :
  find f l = Some x -> In x l /\ f x = true.
Proof. apply find_some. Qed.

Lemma policies_named_nil (name : string) (c : Consul.state) :
  policies_named name c = [] <-> policy_named name c = None.
Proof.
  unfold policies_named, policy_named.
  induction (Consul.policies c) as [| p l IH]; [cbn; tauto |].
  rewrite filter_cons. cbn [find].
  destruct (String.eqb_spec (Consul.Name p) name) as [E | E].
  - rewrite decide_True by exact E. split; discriminate.
  - rewrite decide_False by exact E. exact IH.
Qed.

(** What [_create_policy] does on a Consul whose policy endpoints answer:
    an existing policy of that name is returned as it is, otherwise one is
    created with the given rules, at the end of the list. *)
Lemma consul_create_policy_spec (name rules : string) (w : World) :
  Consul.fault (consul w) Consul.get_policies = None ->
  Consul.fault (consul w) Consul.put_policy = None ->
  exists p w1,
    ConsulManager._create_policy name rules w = Ok p w1
    /\ Consul.Name p = name
    /\ policy_named name (consul w1) = Some p
    /\ Consul.fault (consul w1) = Consul.fault (consul w)
    /\ Consul.tokens (consul w1) = Consul.tokens (consul w)
    /\ vault w1 = vault w
    /\ match policy_named name (consul w) with
       | Some p0 =>
           p = p0 /\ Consul.policies (consul w1) = Consul.policies (consul w)
       | None =>
           Consul.Rules p = rules
           /\ Consul.policies (consul w1)
              = (Consul.policies (consul w) ++ [p])%list
       end.
Proof.
  intros Hg Hp.
  unfold ConsulManager._create_policy, ConsulManager._get_policy,
    Consul.list_policies, Consul.create_policy, policy_named.
  run. rewrite Hg.
  destruct (find _ (Consul.policies (consul w))) as [p0 |] eqn:Hfind; cbn.
  - exists p0. eexists. split; [reflexivity |]. cbn.
    destruct (find_Some_In _ _ _ Hfind) as [_ Hname].
    apply String.eqb_eq in Hname. rewrite Hfind. auto 10.
  - rewrite Hp. cbn. rewrite (find_None_existsb _ _ Hfind). cbn.
    eexists. eexists. split; [reflexivity |]. cbn.
    split; [reflexivity |]. split.
    { apply find_app_None; [exact Hfind |]. cbn. apply String.eqb_refl. }
    auto 10.
Qed.

(** The same for [_create_token], by description. *)
Lemma consul_create_token_spec (policy_ids : list string)
  (description : string) (w : World) :
  Consul.fault (consul w) Consul.get_tokens = None ->
  Consul.fault (consul w) Consul.put_token = None ->
  exists t w1,
    ConsulManager._create_token (Some policy_ids) (Some description) w
    = Ok t w1
    /\ Consul.Description t = description
    /\ token_described description (consul w1) = Some t
    /\ Consul.policies (consul w1) = Consul.policies (consul w)
    /\ vault w1 = vault w
    /\ match token_described description (consul w) with
       | Some t0 =>
           t = t0 /\ Consul.tokens (consul w1) = Consul.tokens (consul w)
       | None =>
           Consul.Policies t = policy_ids
           /\ Consul.tokens (consul w1)
              = (Consul.tokens (consul w) ++ [t])%list
       end.
Proof.
  intros Hg Hp.
  unfold ConsulManager._create_token, ConsulManager._token_exists,
    ConsulManager._get_tokens, Consul.list_tokens, Consul.create_token,
    token_described.
  run. rewrite Hg.
  destruct (find _ (Consul.tokens (consul w))) as [t0 |] eqn:Hfind; cbn.
  - exists t0. eexists. split; [reflexivity |]. cbn.
    destruct (find_Some_In _ _ _ Hfind) as [_ Hd].
    apply String.eqb_eq in Hd. rewrite Hfind. auto 10.
  - rewrite Hp. cbn.
    eexists. eexists. split; [reflexivity |]. cbn.
    split; [reflexivity |]. split.
    { apply find_app_None; [exact Hfind |]. cbn. apply String.eqb_refl. }
    auto 10.
Qed.

(** [generate_consul_secret] on a Consul that answers. *)
Lemma generate_consul_secret_spec (yaml_dump : doc -> string)
  (group_name namespace : string) (w : World) :
  (forall ep, Consul.fault (consul w) ep = None) ->
  exists p t w',
    ConsulManager.generate_consul_secret yaml_dump group_name namespace w
    = Ok (yaml_dump
            (TemplateGenerator.consul_k8s_secret_doc group_name namespace
               (Consul.SecretID t))) w'
    /\ vault w' = vault w
    /\ policy_named group_name (consul w') = Some p
    /\ Consul.Name p = group_name
    /\ match policy_named group_name (consul w) with
       | Some p0 =>
           p = p0 /\ Consul.policies (consul w') = Consul.policies (consul w)
       | None =>
           Consul.Rules p
           = "key_prefix " +:+ dquote +:+ group_name +:+ "/" +:+ dquote
             +:+ " { policy = " +:+ dquote +:+ "write" +:+ dquote +:+ " }"
           /\ Consul.policies (consul w')
              = (Consul.policies (consul w) ++ [p])%list
       end
    /\ token_described group_name (consul w') = Some t
    /\ Consul.Description t = group_name
    /\ match token_described group_name (consul w) with
       | Some t0 =>
           t = t0 /\ Consul.tokens (consul w') = Consul.tokens (consul w)
       | None =>
           Consul.Policies t = [Consul.ID p]
           /\ Consul.tokens (consul w')
              = (Consul.tokens (consul w) ++ [t])%list
       end.
Proof.
  intros Hf.
  destruct (consul_create_policy_spec group_name
              ("key_prefix " +:+ dquote +:+ group_name +:+ "/" +:+ dquote
               +:+ " { policy = " +:+ dquote +:+ "write" +:+ dquote +:+ " }")
              w (Hf _) (Hf _))
    as (p & w1 & E1 & Hname & Hp1 & Hfault & Htok & Hv1 & Hcase).
  destruct (consul_create_token_spec [Consul.ID p] group_name w1)
    as (t & w2 & E2 & Hdesc & Ht2 & Hpol & Hv2 & Hcase2).
  { rewrite Hfault. apply Hf. }
  { rewrite Hfault. apply Hf. }
  exists p, t. eexists.
  split.
  { unfold ConsulManager.generate_consul_secret.
    erewrite bind_Ok by exact E1.
    erewrite bind_Ok by exact E2.
    reflexivity. }
  cbn [consul vault logged print modify bind final].
  unfold policy_named, token_described in *. cbn.
  rewrite Hpol, Htok in *.
  repeat split; try assumption; congruence.
Qed.

(** C7 (amended). For the group [payments] and the namespace [payments-ns],
    on a Consul that answers, [generate_consul_secret] ends with a Consul
    policy named [payments]: when there is none of that name it creates one
    with the rule text [key_prefix "payments/" { policy = "write" }], and
    when there is one it reuses it as it is, whatever its rules.  It ends
    with a token described [payments]: when there is none it creates one
    bound to the id of that policy, and when there is one it reuses it as it
    is, whatever it is bound to.  It returns the dump of a Secret manifest
    named [consul-payments], of type [Opaque], whose data field
    [CONSUL_TOKEN] is the base64 encoding of the token's [SecretID]. *)
Theorem C7_generate_consul_secret_payments (yaml_dump : doc -> string)
  (w : World) :
  (forall ep, Consul.fault (consul w) ep = None) ->
  exists p t w',
    let manifest :=
      TemplateGenerator.consul_k8s_secret_doc "payments" "payments-ns"
        (Consul.SecretID t) in
    ConsulManager.generate_consul_secret yaml_dump "payments" "payments-ns" w
    = Ok (yaml_dump manifest) w'
    /\ policy_named "payments" (consul w') = Some p
    /\ Consul.Name p = "payments"
    /\ match policy_named "payments" (consul w) with
       | Some p0 =>
           p = p0 /\ Consul.policies (consul w') = Consul.policies (consul w)
       | None =>
           Consul.Rules p = payments_rules
           /\ Consul.policies (consul w')
              = (Consul.policies (consul w) ++ [p])%list
       end
    /\ token_described "payments" (consul w') = Some t
    /\ Consul.Description t = "payments"
    /\ match token_described "payments" (consul w) with
       | Some t0 =>
           t = t0 /\ Consul.tokens (consul w') = Consul.tokens (consul w)
       | None =>
           Consul.Policies t = [Consul.ID p]
           /\ Consul.tokens (consul w')
              = (Consul.tokens (consul w) ++ [t])%list
       end
    /\ dict_path ["kind"] manifest = Some (DStr "Secret")
    /\ dict_path ["metadata"; "name"] manifest = Some (DStr "consul-payments")
    /\ dict_path ["metadata"; "namespace"] manifest = Some (DStr "payments-ns")
    /\ dict_path ["type"] manifest = Some (DStr "Opaque")
    /\ dict_path ["data"; "CONSUL_TOKEN"] manifest
       = Some (DStr (Base64.b64encode (Consul.SecretID t))).
Proof.
  intros Hf.
  destruct (generate_consul_secret_spec yaml_dump "payments" "payments-ns" w
              Hf)
    as (p & t & w' & E & _ & Hp & Hname & Hcase & Ht & Hdesc & Hcase2).
  exists p, t, w'. cbn zeta.
  repeat split; try assumption; reflexivity.
Qed.

Lemma C7_witness :
  exists p t w',
    let manifest :=
      TemplateGenerator.consul_k8s_secret_doc "payments" "payments-ns"
        (Consul.SecretID t) in
    ConsulManager.generate_consul_secret sample_yaml_dump "payments"
      "payments-ns" (world_of accepting_server)
    = Ok (sample_yaml_dump manifest) w'
    /\ policy_named "payments" (consul w') = Some p
    /\ Consul.Name p = "payments"
    /\ match policy_named "payments" (consul (world_of accepting_server)) with
       | Some p0 =>
           p = p0
           /\ Consul.policies (consul w')
              = Consul.policies (consul (world_of accepting_server))
       | None =>
           Consul.Rules p = payments_rules
           /\ Consul.policies (consul w')
              = (Consul.policies (consul (world_of accepting_server))
                 ++ [p])%list
       end
    /\ token_described "payments" (consul w') = Some t
    /\ Consul.Description t = "payments"
    /\ match token_described "payments"
               (consul (world_of accepting_server)) with
       | Some t0 =>
           t = t0
           /\ Consul.tokens (consul w')
              = Consul.tokens (consul (world_of accepting_server))
       | None =>
           Consul.Policies t = [Consul.ID p]
           /\ Consul.tokens (consul w')
              = (Consul.tokens (consul (world_of accepting_server))
                 ++ [t])%list
       end
    /\ dict_path ["kind"] manifest = Some (DStr "Secret")
    /\ dict_path ["metadata"; "name"] manifest = Some (DStr "consul-payments")
    /\ dict_path ["metadata"; "namespace"] manifest = Some (DStr "payments-ns")
    /\ dict_path ["type"] manifest = Some (DStr "Opaque")
    /\ dict_path ["data"; "CONSUL_TOKEN"] manifest
       = Some (DStr (Base64.b64encode (Consul.SecretID t))).
Proof.
  apply (C7_generate_consul_secret_payments sample_yaml_dump
           (world_of accepting_server)).
  intros ep. reflexivity.
Defined.

(** C7 as stated fails on a Consul that holds a policy and a token of the
    group already: the run reuses both, so the policy named [payments] does
    not have the rule text of the group and the token described [payments]
    is not bound to that policy. *)
Lemma C7_counterexample :
  exists p t w',
    ConsulManager.generate_consul_secret sample_yaml_dump "payments"
      "payments-ns" stale_consul_world
    = Ok (sample_yaml_dump
            (TemplateGenerator.consul_k8s_secret_doc "payments" "payments-ns"
               (Consul.SecretID t))) w'
    /\ policy_named "payments" (consul w') = Some p
    /\ Consul.Rules p <> payments_rules
    /\ token_described "payments" (consul w') = Some t
    /\ Consul.Policies t <> [Consul.ID p]
    /\ consul w' = consul stale_consul_world.
Proof.
  exists {| Consul.ID := "policy-legacy"; Consul.Name := "payments";
            Consul.Rules := "operator = read" |},
    {| Consul.AccessorID := "accessor-legacy";
       Consul.SecretID := "secret-legacy";
       Consul.Description := "payments";
       Consul.Policies := ["policy-other"] |}.
  eexists. split; [vm_compute; reflexivity |].
  repeat split; try reflexivity; vm_compute; discriminate.
Qed.

(** The scenario run on an empty Consul: the policy and the token that are
    created, and the manifest. *)
Example generate_consul_secret_fresh :
  exists w',
    ConsulManager.generate_consul_secret sample_yaml_dump "payments"
      "payments-ns" (world_of accepting_server)
    = Ok (sample_yaml_dump
            (TemplateGenerator.consul_k8s_secret_doc "payments" "payments-ns"
               "secret-2")) w'
    /\ Consul.policies (consul w')
       = [{| Consul.ID := "policy-0"; Consul.Name := "payments";
             Consul.Rules := payments_rules |}]
    /\ Consul.tokens (consul w')
       = [{| Consul.AccessorID := "accessor-1"; Consul.SecretID := "secret-2";
             Consul.Description := "payments";
             Consul.Policies := ["policy-0"] |}]
    /\ dict_path ["data"; "CONSUL_TOKEN"]
         (TemplateGenerator.consul_k8s_secret_doc "payments" "payments-ns"
            "secret-2")
       = Some (DStr "c2VjcmV0LTI=").
Proof.
  eexists. split; [vm_compute; reflexivity |].
  repeat split; vm_compute; reflexivity.
Qed.

(** C1 (amended). Calling the policy upsert twice with one name leaves one
    stored policy of that name.  On the Consul client, which looks the name
    up before it creates, and starting with no policy of that name, the
    stored rule body is the one of the first call: the second body is
    ignored.  On the Vault client, which writes the policy without looking,
    the stored rule body is the one of the second call: the first body is
    overwritten. *)
Theorem C1_create_policy_twice (name rules1 rules2 : string) (w : World) :
  (Consul.fault (consul w) Consul.get_policies = None ->
   Consul.fault (consul w) Consul.put_policy = None ->
   policies_named name (consul w) = [] ->
   exists p w1,
     ConsulManager._create_policy name rules1 w = Ok p w1
     /\ ConsulManager._create_policy name rules2 w1 = Ok p w1
     /\ policies_named name (consul w1) = [p]
     /\ Consul.Name p = name
     /\ Consul.Rules p = rules1)
  /\ (Vault.fault (vault w) Vault.sys_policy = None ->
      exists w1 w2,
        VaultManager._create_policy name rules1 w = Ok tt w1
        /\ VaultManager._create_policy name rules2 w1 = Ok tt w2
        /\ Vault.policies (vault w2)
           = <[name := rules2]> (Vault.policies (vault w))
        /\ Vault.policies (vault w2) !! name = Some rules2).
Proof.
  split.
  - intros Hg Hp Hnone.
    destruct (consul_create_policy_spec name rules1 w Hg Hp)
      as (p & w1 & E1 & Hname & Hp1 & Hfault & _ & _ & Hcase).
    apply policies_named_nil in Hnone. rewrite Hnone in Hcase.
    destruct Hcase as [Hrules Hpol].
    exists p, w1. split; [exact E1 |]. split.
    + unfold ConsulManager._create_policy, ConsulManager._get_policy,
        Consul.list_policies.
      run. rewrite Hfault, Hg. unfold policy_named in Hp1. cbn.
      rewrite Hp1. destruct w1; reflexivity.
    + split; [| auto].
      unfold policies_named. rewrite Hpol, filter_app.
      apply policies_named_nil in Hnone. unfold policies_named in Hnone.
      rewrite Hnone, filter_cons, decide_True by exact Hname.
      reflexivity.
  - intros Hs.
    unfold VaultManager._create_policy, Vault.create_or_update_policy.
    run. rewrite Hs. cbn.
    eexists. eexists. split; [reflexivity |].
    unfold set_vault. cbn. rewrite Hs.
    split; [reflexivity |]. cbn.
    rewrite insert_insert_eq, lookup_insert_eq. auto.
Qed.

Lemma C1_witness :
  exists p w1,
    ConsulManager._create_policy "payments" "first" (world_of accepting_server)
    = Ok p w1
    /\ ConsulManager._create_policy "payments" "second" w1 = Ok p w1
    /\ policies_named "payments" (consul w1) = [p]
    /\ Consul.Name p = "payments"
    /\ Consul.Rules p = "first".
Proof.
  apply (proj1 (C1_create_policy_twice "payments" "first" "second"
                  (world_of accepting_server))); reflexivity.
Defined.

(** C1 as stated fails on the Vault client: after two upserts of the policy
    [payments_dev_policy], with the bodies [first] and [second], Vault holds
    the second body. *)
Lemma C1_counterexample :
  exists w1 w2,
    VaultManager._create_policy "payments_dev_policy" "first"
      (world_of accepting_server) = Ok tt w1
    /\ VaultManager._create_policy "payments_dev_policy" "second" w1
       = Ok tt w2
    /\ Vault.policies (vault w2) !! "payments_dev_policy" = Some "second"
    /\ Vault.policies (vault w2) !! "payments_dev_policy" <> Some "first".
Proof.
  eexists. eexists. split; [reflexivity |]. split; [reflexivity |].
  split; [vm_compute; reflexivity | vm_compute; discriminate].
Qed.


(** ** The Vault secret manifest *)

Lemma fresh_id_nonempty (prefix : string) (n : nat) :
  prefix <> EmptyString -> prefix +:+ pretty n <> EmptyString.
Proof.
  destruct prefix as [| c prefix]; [congruence |].
  intros _. rewrite append_String. discriminate.
Qed.

Lemma vault_create_policy_ok (name rules : string) (w : World) :
  Vault.fault (vault w) Vault.sys_policy = None ->
  VaultManager._create_policy name rules w
  = Ok tt (set_vault (Vault.set_policies <[name := rules]> (vault w)) w).
Proof.
  intros Hs.
  unfold VaultManager._create_policy, Vault.create_or_update_policy.
  run. rewrite Hs. reflexivity.
Qed.

(** On a Vault whose AppRole endpoints answer, [_create_or_get_role_id]
    returns the id of the role, which exists afterwards. *)
Lemma create_or_get_role_id_spec (role_name policy_name : string)
  (w : World) :
  Vault.fault (vault w) Vault.approle_role_id = None ->
  Vault.fault (vault w) Vault.approle_role = None ->
  exists r w1,
    VaultManager._create_or_get_role_id role_name policy_name w
    = Ok (Vault.role_id r) w1
    /\ Vault.roles (vault w1) !! role_name = Some r
    /\ Vault.fault (vault w1) = Vault.fault (vault w)
    /\ consul w1 = consul w
    /\ (Vault.roles (vault w) !! role_name = None ->
        Vault.role_id r <> EmptyString).
Proof.
  intros Hr Hc.
  destruct (Vault.roles (vault w) !! role_name) as [r |] eqn:Hrole.
  - exists r, w.
    split; [apply create_or_get_role_id_present; assumption |].
    repeat split; auto; congruence.
  - eexists {| Vault.role_id := _; Vault.token_policies := _;
               Vault.token_type := _ |}. eexists.
    split; [apply create_or_get_role_id_absent; assumption |]. cbn.
    rewrite lookup_insert_eq. repeat split.
    intros _. apply fresh_id_nonempty. discriminate.
Qed.

(** With the role in place, a secret id is issued for it and the login with
    the role id and that secret id succeeds. *)
Lemma generate_secret_id_and_login_spec (role_name : string)
  (r : Vault.approle) (w : World) :
  Vault.fault (vault w) Vault.approle_secret_id = None ->
  Vault.fault (vault w) Vault.approle_login = None ->
  Vault.roles (vault w) !! role_name = Some r ->
  exists secret_id client_token w1,
    VaultManager._generate_secret_id_and_login role_name (Vault.role_id r) w
    = Ok (secret_id, client_token) w1
    /\ secret_id <> EmptyString
    /\ Vault.roles (vault w1) = Vault.roles (vault w)
    /\ Vault.secret_ids (vault w1)
       = (role_name, secret_id) :: Vault.secret_ids (vault w)
    /\ Vault.fault (vault w1) = Vault.fault (vault w)
    /\ consul w1 = consul w.
Proof.
  intros Hs Hl Hrole.
  unfold VaultManager._generate_secret_id_and_login,
    Vault.generate_secret_id, Vault.login, Vault.valid_login.
  run. rewrite Hs, Hrole. cbn. rewrite Hl. cbn. rewrite Hrole.
  rewrite !String.eqb_refl. cbn.
  eexists. eexists. eexists. split; [reflexivity |]. cbn.
  repeat split. apply fresh_id_nonempty. discriminate.
Qed.

(** [generate_vault_secret] on a Vault that answers. *)
Lemma generate_vault_secret_spec (yaml_dump : doc -> string)
  (json_dumps : option nat -> doc -> string)
  (group_name environment_name namespace : string) (w : World) :
  (forall ep, Vault.fault (vault w) ep = None) ->
  exists r secret_id w',
    VaultManager.generate_vault_secret yaml_dump json_dumps group_name
      environment_name namespace w
    = Ok (yaml_dump
            (TemplateGenerator.vault_k8s_secret_doc group_name namespace
               (Base64.b64encode (Vault.role_id r))
               (Base64.b64encode secret_id))) w'
    /\ Vault.roles (vault w')
       !! (group_name +:+ "_" +:+ environment_name +:+ "_role") = Some r
    /\ In (group_name +:+ "_" +:+ environment_name +:+ "_role", secret_id)
         (Vault.secret_ids (vault w'))
    /\ secret_id <> EmptyString
    /\ Vault.fault (vault w') = Vault.fault (vault w)
    /\ consul w' = consul w.
Proof.
  intros Hf.
  set (role_name := group_name +:+ "_" +:+ environment_name +:+ "_role").
  set (policy_name := group_name +:+ "_" +:+ environment_name +:+ "_policy").
  pose proof (vault_create_policy_ok policy_name
                (TemplateGenerator.generate_vault_policy_json json_dumps
                   group_name environment_name) w (Hf _)) as E0.
  set (w0 := set_vault _ w) in E0.
  destruct (create_or_get_role_id_spec role_name policy_name w0 (Hf _) (Hf _))
    as (r & w1 & E1 & Hrole & Hfault & Hc1 & _).
  destruct (generate_secret_id_and_login_spec role_name r w1)
    as (secret_id & client_token & w2 & E2 & Hne & Hroles & Hids & Hf2 & Hc2);
    [rewrite Hfault; apply Hf | rewrite Hfault; apply Hf | exact Hrole |].
  exists r, secret_id, w2.
  split.
  { unfold VaultManager.generate_vault_secret.
    fold policy_name role_name.
    erewrite bind_Ok by exact E0.
    erewrite bind_Ok by exact E1.
    erewrite bind_Ok by exact E2.
    reflexivity. }
  rewrite Hroles, Hids, Hf2, Hfault, Hc2, Hc1.
  repeat split; try reflexivity; try assumption.
  left. reflexivity.
Qed.

(** C10. On a Vault that answers, [generate_vault_secret] returns the dump
    of a Secret manifest whose data fields [VAULT_ROLE_ID] and
    [VAULT_SECRET_ID] are the base64 encoding of the base64 encoding of the
    role id and of the secret id Vault gave: [generate_vault_secret] encodes
    both and [generate_vault_k8s_secret] encodes its arguments again.  One
    base64 decoding of a field therefore yields the encoded id, which differs
    from the id (for the role id, as soon as it is not empty). *)
Theorem C10_vault_secret_encoded_twice (yaml_dump : doc -> string)
  (json_dumps : option nat -> doc -> string)
  (group_name environment_name namespace : string) (w : World) :
  (forall ep, Vault.fault (vault w) ep = None) ->
  exists r secret_id w',
    let role_name := group_name +:+ "_" +:+ environment_name +:+ "_role" in
    let manifest :=
      TemplateGenerator.vault_k8s_secret_doc group_name namespace
        (Base64.b64encode (Vault.role_id r)) (Base64.b64encode secret_id) in
    VaultManager.generate_vault_secret yaml_dump json_dumps group_name
      environment_name namespace w = Ok (yaml_dump manifest) w'
    /\ Vault.roles (vault w') !! role_name = Some r
    /\ In (role_name, secret_id) (Vault.secret_ids (vault w'))
    /\ dict_path ["data"; "VAULT_ROLE_ID"] manifest
       = Some (DStr (Base64.b64encode (Base64.b64encode (Vault.role_id r))))
    /\ dict_path ["data"; "VAULT_SECRET_ID"] manifest
       = Some (DStr (Base64.b64encode (Base64.b64encode secret_id)))
    /\ Base64.b64decode
         (Base64.b64encode (Base64.b64encode (Vault.role_id r)))
       = Some (Base64.b64encode (Vault.role_id r))
    /\ Base64.b64decode (Base64.b64encode (Base64.b64encode secret_id))
       = Some (Base64.b64encode secret_id)
    /\ Base64.b64encode secret_id <> secret_id
    /\ (Vault.role_id r <> EmptyString ->
        Base64.b64encode (Vault.role_id r) <> Vault.role_id r).
Proof.
  intros Hf.
  destruct (generate_vault_secret_spec yaml_dump json_dumps group_name
              environment_name namespace w Hf)
    as (r & secret_id & w' & E & Hrole & Hin & Hne & _).
  exists r, secret_id, w'. cbn zeta.
  rewrite !b64decode_b64encode.
  repeat split; try assumption; try reflexivity.
  - apply b64encode_neq. exact Hne.
  - apply b64encode_neq.
Qed.

Lemma C10_witness :
  exists r secret_id w',
    let role_name := "payments" +:+ "_" +:+ "dev" +:+ "_role" in
    let manifest :=
      TemplateGenerator.vault_k8s_secret_doc "payments" "payments-ns"
        (Base64.b64encode (Vault.role_id r)) (Base64.b64encode secret_id) in
    VaultManager.generate_vault_secret sample_yaml_dump sample_json_dumps "payments"
      "dev" "payments-ns" (world_of accepting_server)
    = Ok (sample_yaml_dump manifest) w'
    /\ Vault.roles (vault w') !! role_name = Some r
    /\ In (role_name, secret_id) (Vault.secret_ids (vault w'))
    /\ dict_path ["data"; "VAULT_ROLE_ID"] manifest
       = Some (DStr (Base64.b64encode (Base64.b64encode (Vault.role_id r))))
    /\ dict_path ["data"; "VAULT_SECRET_ID"] manifest
       = Some (DStr (Base64.b64encode (Base64.b64encode secret_id)))
    /\ Base64.b64decode
         (Base64.b64encode (Base64.b64encode (Vault.role_id r)))
       = Some (Base64.b64encode (Vault.role_id r))
    /\ Base64.b64decode (Base64.b64encode (Base64.b64encode secret_id))
       = Some (Base64.b64encode secret_id)
    /\ Base64.b64encode secret_id <> secret_id
    /\ (Vault.role_id r <> EmptyString ->
        Base64.b64encode (Vault.role_id r) <> Vault.role_id r).
Proof.
  apply (C10_vault_secret_encoded_twice sample_yaml_dump sample_json_dumps
           "payments" "dev" "payments-ns" (world_of accepting_server)).
  intros ep. reflexivity.
Defined.

(** The run on an empty Vault: the ids issued and the two data fields. *)
Example generate_vault_secret_fresh :
  exists w',
    VaultManager.generate_vault_secret sample_yaml_dump sample_json_dumps "payments"
      "dev" "payments-ns" (world_of accepting_server)
    = Ok (sample_yaml_dump
            (TemplateGenerator.vault_k8s_secret_doc "payments" "payments-ns"
               (Base64.b64encode "role-0") (Base64.b64encode "secret-1"))) w'
    /\ dict_path ["data"; "VAULT_ROLE_ID"]
         (TemplateGenerator.vault_k8s_secret_doc "payments" "payments-ns"
            (Base64.b64encode "role-0") (Base64.b64encode "secret-1"))
       = Some (DStr "Y205c1pTMHc=")
    /\ Base64.b64decode "Y205c1pTMHc=" = Some "cm9sZS0w"
    /\ Base64.b64decode "cm9sZS0w" = Some "role-0".
Proof.
  eexists. split; [vm_compute; reflexivity |].
  repeat split; vm_compute; reflexivity.
Qed.

(** ** [GitlabProjectManager] *)

Lemma gl_call_unit_ok (req : Gitlab.request) (w : World) :
  is_error (answer w req) = false ->
  gl (Gitlab.call_unit req) w = Ok tt (sent req w).
Proof.
  unfold answer, gl, zoom, Gitlab.call_unit, Gitlab.call, bind, sent.
  cbn. destruct (Gitlab.server _ _ _); cbn; intros H;
    [discriminate | reflexivity ..].
Qed.

Lemma gl_call_unit_error (req : Gitlab.request) (e : exn) (w : World) :
  answer w req = Gitlab.Error e ->
  gl (Gitlab.call_unit req) w = Raise e (sent req w).
Proof.
  unfold answer, gl, zoom, Gitlab.call_unit, Gitlab.call, bind, sent.
  cbn. intros ->. reflexivity.
Qed.

Lemma gl_call_object_ok (req : Gitlab.request) (id : Z) (w : World) :
  answer w req = Gitlab.Object id ->
  gl (Gitlab.call_object req) w = Ok id (sent req w).
Proof.
  unfold answer, gl, zoom, Gitlab.call_object, Gitlab.call, bind, sent.
  cbn. intros ->. reflexivity.
Qed.

Lemma gl_call_object_error (req : Gitlab.request) (e : exn) (w : World) :
  answer w req = Gitlab.Error e ->
  gl (Gitlab.call_object req) w = Raise e (sent req w).
Proof.
  unfold answer, gl, zoom, Gitlab.call_object, Gitlab.call, bind, sent.
  cbn. intros ->. reflexivity.
Qed.

Lemma gl_users_list_ok (username : string) (ids : list Z) (w : World) :
  answer w (Gitlab.UsersList username) = Gitlab.Users ids ->
  gl (Gitlab.users_list username) w
  = Ok ids (sent (Gitlab.UsersList username) w).
Proof.
  unfold answer, gl, zoom, Gitlab.users_list, Gitlab.call, bind, sent.
  cbn. intros ->. reflexivity.
Qed.

Lemma gl_variables_list_ok (project : Z) (l : list (string * string))
  (w : World) :
  answer w (Gitlab.VariablesList project) = Gitlab.Variables l ->
  gl (Gitlab.variables_list project) w
  = Ok l (sent (Gitlab.VariablesList project) w).
Proof.
  unfold answer, gl, zoom, Gitlab.variables_list, Gitlab.call, bind, sent.
  cbn. intros ->. reflexivity.
Qed.

Lemma try_except_Ok {S A} (body : M S A)
  (handler : exn -> option (M S A)) (s s' : S) (a : A) :
  body s = Ok a s' -> try_except body handler s = Ok a s'.
Proof. intros E. unfold try_except. rewrite E. reflexivity. Qed.

Lemma try_except_Raise {S A} (body : M S A)
  (handler : exn -> option (M S A)) (s s' : S) (e : exn) :
  body s = Raise e s' ->
  try_except body handler s
  = match handler e with
    | Some h => h s'
    | None => Raise e s'
    end.
Proof. intros E. unfold try_except. rewrite E. reflexivity. Qed.

(** *** Memberships *)

Lemma add_member_unresolvable (var : string) (project : option Z)
  (role username : string) (w : World) :
  answer w (Gitlab.UsersList username) = Gitlab.Users [] ->
  GitlabProjectManager.add_member var project role username w
  = Ok tt (logged (skip_line role username)
             (sent (Gitlab.UsersList username) w)).
Proof.
  intros Hans. unfold GitlabProjectManager.add_member.
  erewrite try_except_Raise.
  2:{ erewrite bind_Ok by (apply gl_users_list_ok; exact Hans).
      reflexivity. }
  reflexivity.
Qed.

Lemma for_each_app {S A} (l1 l2 : list A) (body : A -> M S unit) (s s1 : S) :
  for_each l1 body s = Ok tt s1 ->
  for_each (l1 ++ l2) body s = for_each l2 body s1.
Proof.
  revert s. induction l1 as [| x l1 IH]; intros s; cbn [for_each app].
  - intros [= ->]. reflexivity.
  - unfold bind. destruct (body x s) as [[] s' | e s']; [| discriminate].
    apply IH.
Qed.

(** Usernames that all resolve to no user are all skipped. *)
Lemma for_each_unresolvable (var : string) (project : option Z)
  (role : string) (users : list string) (w : World) :
  (forall history username,
      In username users ->
      Gitlab.server (gitlab w) history (Gitlab.UsersList username)
      = Gitlab.Users []) ->
  exists w1,
    for_each users (GitlabProjectManager.add_member var project role) w
    = Ok tt w1
    /\ Gitlab.server (gitlab w1) = Gitlab.server (gitlab w)
    /\ vault w1 = vault w /\ consul w1 = consul w
    /\ length (stdout w1) = (length users + length (stdout w))%nat.
Proof.
  revert w. induction users as [| u users IH]; intros w Hall; cbn [for_each].
  - exists w. auto.
  - erewrite bind_Ok.
    2:{ apply add_member_unresolvable. apply Hall. left. reflexivity. }
    destruct (IH (logged (skip_line role u) (sent (Gitlab.UsersList u) w)))
      as (w1 & E & Hs & Hv & Hc & Hl).
    { intros history username Hin. cbn. apply Hall. right. exact Hin. }
    exists w1. split; [exact E |]. rewrite Hs, Hv, Hc, Hl. cbn.
    repeat split. lia.
Qed.

(** C8. A username that resolves to no user (the lookup returns an empty
    list) is logged and skipped: its step returns normally after the one
    lookup, without a membership request; the loop goes on with the
    remaining usernames; and when the maintainers are done the loop over the
    developers runs.  Maintainers that are all unknown leave one line each
    and do not stop [assign_members]. *)
Theorem C8_unresolvable_username_skipped (GitlabEnvConf : Conf.GitlabEnvConf)
  (var : string) (project : option Z) :
  let maintainers :=
    CommandManager.convert_string_to_list
      (Conf.CI_ACCESS_MAINTAINER GitlabEnvConf) in
  let developers :=
    CommandManager.convert_string_to_list
      (Conf.CI_ACCESS_DEVELOPER GitlabEnvConf) in
  (forall role username w,
      answer w (Gitlab.UsersList username) = Gitlab.Users [] ->
      GitlabProjectManager.add_member var project role username w
      = Ok tt (logged (username +:+ " for " +:+ role
                       +:+ " access is not available")
                 (sent (Gitlab.UsersList username) w)))
  /\ (forall role before username after w w1,
        for_each before (GitlabProjectManager.add_member var project role) w
        = Ok tt w1 ->
        answer w1 (Gitlab.UsersList username) = Gitlab.Users [] ->
        for_each (before ++ username :: after)
          (GitlabProjectManager.add_member var project role) w
        = for_each after (GitlabProjectManager.add_member var project role)
            (logged (username +:+ " for " +:+ role
                     +:+ " access is not available")
               (sent (Gitlab.UsersList username) w1)))
  /\ (forall w w1,
        for_each maintainers
          (GitlabProjectManager.add_member var project "maintainer") w
        = Ok tt w1 ->
        GitlabProjectManager.assign_members GitlabEnvConf var project w
        = for_each developers
            (GitlabProjectManager.add_member var project "developer") w1)
  /\ (forall w,
        (forall history username,
            In username maintainers ->
            Gitlab.server (gitlab w) history (Gitlab.UsersList username)
            = Gitlab.Users []) ->
        exists w1,
          for_each maintainers
            (GitlabProjectManager.add_member var project "maintainer") w
          = Ok tt w1
          /\ length (stdout w1)
             = (length maintainers + length (stdout w))%nat
          /\ GitlabProjectManager.assign_members GitlabEnvConf var project w
             = for_each developers
                 (GitlabProjectManager.add_member var project "developer")
                 w1).
Proof.
  intros maintainers developers.
  assert (Hthen : forall w w1,
    for_each maintainers
      (GitlabProjectManager.add_member var project "maintainer") w
    = Ok tt w1 ->
    GitlabProjectManager.assign_members GitlabEnvConf var project w
    = for_each developers
        (GitlabProjectManager.add_member var project "developer") w1).
  { intros w w1 E. unfold GitlabProjectManager.assign_members.
    cbn [for_each fst snd]. fold maintainers developers.
    erewrite bind_Ok by exact E. unfold bind, ret.
    destruct (for_each developers _ w1) as [[] s | e s]; reflexivity. }
  split; [| split; [| split]].
  - intros role username w. apply add_member_unresolvable.
  - intros role before username after w w1 E Hans.
    rewrite (for_each_app before (username :: after) _ w w1 E).
    cbn [for_each]. erewrite bind_Ok; [reflexivity |].
    apply add_member_unresolvable. exact Hans.
  - exact Hthen.
  - intros w Hall.
    destruct (for_each_unresolvable var project "maintainer" maintainers w
                Hall) as (w1 & E & _ & _ & _ & Hl).
    exists w1. split; [exact E |]. split; [exact Hl |].
    apply Hthen. exact E.
Qed.

Lemma C8_witness :
  exists w1,
    for_each
      (CommandManager.convert_string_to_list
         (Conf.CI_ACCESS_MAINTAINER payments_conf))
      (GitlabProjectManager.add_member "code_subgroup_project" (Some 7%Z)
         "maintainer")
      (world_of accepting_server) = Ok tt w1
    /\ length (stdout w1)
       = (length (CommandManager.convert_string_to_list
                    (Conf.CI_ACCESS_MAINTAINER payments_conf))
          + length (stdout (world_of accepting_server)))%nat
    /\ GitlabProjectManager.assign_members payments_conf
         "code_subgroup_project" (Some 7%Z) (world_of accepting_server)
       = for_each
           (CommandManager.convert_string_to_list
              (Conf.CI_ACCESS_DEVELOPER payments_conf))
           (GitlabProjectManager.add_member "code_subgroup_project"
              (Some 7%Z) "developer")
           w1.
Proof.
  apply (C8_unresolvable_username_skipped payments_conf
           "code_subgroup_project" (Some 7%Z)).
  intros history username [<- | []]. reflexivity.
Defined.

(** The scenario: [ghost] is the one maintainer and resolves to no user,
    [alice] is the one developer.  The skip is logged and [alice] is added. *)
Example ghost_maintainer_scenario :
  exists w',
    GitlabProjectManager.assign_members payments_conf "code_subgroup_project"
      (Some 7%Z) (world_of accepting_server) = Ok tt w'
    /\ Gitlab.trace (gitlab w')
       = [Gitlab.MembersCreate 7 42 Conf.REPORTER_ACCESS;
          Gitlab.UsersList "alice"; Gitlab.UsersList "ghost"]
    /\ stdout w'
       = ["Added developer: alice";
          "ghost for maintainer access is not available"].
Proof.
  eexists. split; [vm_compute; reflexivity |].
  split; reflexivity.
Qed.

(** *** Branches *)

Ltac branch_created w1 Hans :=
  erewrite try_except_Ok; [reflexivity |];
  erewrite bind_Ok; [reflexivity |];
  apply gl_call_unit_ok;
  match type of Hans with
  | answer _ ?req = _ =>
      change (is_error (answer w1 req) = false); rewrite Hans; reflexivity
  end.

Lemma code_branch_spec (project : Z) (branch_name : string) (w : World) :
  is_error (answer w (protect_request project branch_name)) = false ->
  create_error_only
    (answer (sent (protect_request project branch_name) w)
       (branch_request project branch_name)) ->
  GitlabProjectManager.code_branch project branch_name w
  = Ok tt
      (logged
         (code_branch_line branch_name
            (answer (sent (protect_request project branch_name) w)
               (branch_request project branch_name)))
         (sent (branch_request project branch_name)
            (sent (protect_request project branch_name) w))).
Proof.
  intros Hprot Hcreate.
  unfold GitlabProjectManager.code_branch.
  erewrite bind_Ok
    by (apply gl_call_unit_ok; exact Hprot).
  fold (protect_request project branch_name).
  set (w1 := sent (protect_request project branch_name) w) in *.
  destruct (answer w1 (branch_request project branch_name)) as [e | | | |]
    eqn:Hans.
  - destruct (Hcreate e eq_refl) as [str_e ->].
    erewrite try_except_Raise.
    2:{ erewrite bind_Raise; [reflexivity |].
        apply gl_call_unit_error. exact Hans. }
    reflexivity.
  - branch_created w1 Hans.
  - branch_created w1 Hans.
  - branch_created w1 Hans.
  - branch_created w1 Hans.
Qed.

(** C4 (amended). For the branch list [develop], [master], the loop creates
    [develop] from the ref [main] and [master] from the ref [develop]: only
    [master] names the other branch of the list as its source.  A creation
    that GitLab refuses with [GitlabCreateError] is logged and the loop goes
    on: with protection requests that are accepted, the loop returns after
    the four requests, one line logged for each branch. *)
Theorem C4_branch_creation_refs (project : Z) (w : World) :
  Conf.branches = ["develop"; "master"]
  /\ GitlabProjectManager.branch_ref "develop" = "main"
  /\ GitlabProjectManager.branch_ref "master" = "develop"
  /\ (forall branch_name str_e w0,
        is_error (answer w0 (protect_request project branch_name)) = false ->
        answer (sent (protect_request project branch_name) w0)
          (Gitlab.BranchesCreate project branch_name
             (GitlabProjectManager.branch_ref branch_name))
        = Gitlab.Error (GitlabCreateError str_e) ->
        GitlabProjectManager.code_branch project branch_name w0
        = Ok tt
            (logged ("Creation of branch on CODE group '" +:+ branch_name
                     +:+ "': " +:+ str_e)
               (sent (Gitlab.BranchesCreate project branch_name
                        (GitlabProjectManager.branch_ref branch_name))
                  (sent (protect_request project branch_name) w0))))
  /\ ((forall history branch_name,
          is_error (Gitlab.server (gitlab w) history
                      (protect_request project branch_name)) = false) ->
      (forall history branch_name ref,
          create_error_only
            (Gitlab.server (gitlab w) history
               (Gitlab.BranchesCreate project branch_name ref))) ->
      exists w' line_develop line_master,
        GitlabProjectManager.code_branches project w = Ok tt w'
        /\ Gitlab.trace (gitlab w')
           = ([Gitlab.BranchesCreate project "master" "develop";
               protect_request project "master";
               Gitlab.BranchesCreate project "develop" "main";
               protect_request project "develop"]
              ++ Gitlab.trace (gitlab w))%list
        /\ stdout w' = line_master :: line_develop :: stdout w).
Proof.
  split; [reflexivity |]. split; [reflexivity |]. split; [reflexivity |].
  split.
  - intros branch_name str_e w0 Hprot Hans.
    rewrite code_branch_spec; [| exact Hprot |].
    + unfold branch_request. rewrite Hans. reflexivity.
    + unfold branch_request. rewrite Hans. intros e [= <-]. eauto.
  - intros Hprot Hcreate.
    unfold GitlabProjectManager.code_branches. cbn [Conf.branches for_each].
    erewrite bind_Ok.
    2:{ apply code_branch_spec; [apply Hprot | apply Hcreate]. }
    erewrite bind_Ok.
    2:{ apply code_branch_spec; [apply Hprot | apply Hcreate]. }
    eexists. eexists. eexists. split; [reflexivity |].
    split; reflexivity.
Qed.

Lemma C4_witness :
  exists w' line_develop line_master,
    GitlabProjectManager.code_branches 7 (world_of empty_repo_server)
    = Ok tt w'
    /\ Gitlab.trace (gitlab w')
       = ([Gitlab.BranchesCreate 7 "master" "develop";
           protect_request 7 "master";
           Gitlab.BranchesCreate 7 "develop" "main";
           protect_request 7 "develop"]
          ++ Gitlab.trace (gitlab (world_of empty_repo_server)))%list
    /\ stdout w'
       = line_master :: line_develop :: stdout (world_of empty_repo_server).
Proof.
  apply (C4_branch_creation_refs 7 (world_of empty_repo_server)).
  - intros history branch_name. reflexivity.
  - intros history branch_name ref e [= <-]. eexists. reflexivity.
Defined.

(** C4 as stated fails on [develop]: on a GitLab that accepts every request,
    the loop asks for [develop] to be created from [main], and never from
    [master]. *)
Lemma C4_counterexample :
  exists w',
    GitlabProjectManager.code_branches 7 (world_of accepting_server)
    = Ok tt w'
    /\ Gitlab.trace (gitlab w')
       = [Gitlab.BranchesCreate 7 "master" "develop";
          Gitlab.ProtectedBranchesCreate 7 "master" 30 40;
          Gitlab.BranchesCreate 7 "develop" "main";
          Gitlab.ProtectedBranchesCreate 7 "develop" 30 40]
    /\ ~ In (Gitlab.BranchesCreate 7 "develop" "master")
           (Gitlab.trace (gitlab w')).
Proof.
  eexists. split; [vm_compute; reflexivity |].
  split; [reflexivity |].
  cbn. intros [H | [H | [H | [H | []]]]]; discriminate H.
Qed.

(** The loop on a GitLab whose new projects are empty: both creations are
    refused, both refusals are logged, the loop returns. *)
Example empty_repository_scenario :
  exists w',
    GitlabProjectManager.code_branches 7 (world_of empty_repo_server)
    = Ok tt w'
    /\ stdout w'
       = ["Creation of branch on CODE group 'master': 400: Invalid reference name";
          "Creation of branch on CODE group 'develop': 400: Invalid reference name"].
Proof.
  eexists. split; [vm_compute; reflexivity | reflexivity].
Qed.

(** *** Project creation *)

Lemma create_project_code_taken (GitlabEnvConf : Conf.GitlabEnvConf)
  (str_e : string) (w w1 : World) (subgroup : option Z) :
  PyStr.contains "has already been taken" str_e = true ->
  GitlabProjectManager._create_subgroup GitlabEnvConf Conf.CI_CODE_GROUP_ID w
  = Ok subgroup w1 ->
  answer w1 (code_project_request GitlabEnvConf subgroup)
  = Gitlab.Error (GitlabCreateError str_e) ->
  GitlabProjectManager.create_project_code GitlabEnvConf w
  = Raise
      (SystemExit ("Project '" +:+ Conf.CI_PROJECT_NAME GitlabEnvConf
                   +:+ "' already exists in CODE group. Skipping creation."))
      (sent (code_project_request GitlabEnvConf subgroup) w1).
Proof.
  intros Htaken Hsub Hans.
  unfold GitlabProjectManager.create_project_code.
  erewrite bind_Ok by exact Hsub.
  eapply with_local_Raise.
  erewrite bind_Raise; [reflexivity |].
  erewrite try_except_Raise.
  2:{ erewrite bind_Raise; [reflexivity |].
      rewrite global_run. unfold Gitlab.projects_create.
      erewrite gl_call_object_error by exact Hans. reflexivity. }
  cbn beta iota. rewrite Htaken. reflexivity.
Qed.

Lemma create_project_chart_taken (GitlabEnvConf : Conf.GitlabEnvConf)
  (str_e : string) (w w1 : World) (subgroup : option Z) :
  PyStr.contains "has already been taken" str_e = true ->
  GitlabProjectManager._create_subgroup GitlabEnvConf Conf.CI_CHART_GROUP_ID w
  = Ok subgroup w1 ->
  answer w1 (chart_project_request GitlabEnvConf subgroup)
  = Gitlab.Error (GitlabCreateError str_e) ->
  GitlabProjectManager.create_project_chart GitlabEnvConf w
  = Raise
      (SystemExit ("Project '" +:+ GitlabProjectManager.chart_module
                                     GitlabEnvConf
                   +:+ "' already exists in CHART group. Skipping creation."))
      (sent (chart_project_request GitlabEnvConf subgroup) w1).
Proof.
  intros Htaken Hsub Hans.
  unfold GitlabProjectManager.create_project_chart.
  erewrite bind_Ok by exact Hsub.
  eapply with_local_Raise.
  erewrite bind_Raise; [reflexivity |].
  erewrite try_except_Raise.
  2:{ erewrite bind_Raise; [reflexivity |].
      rewrite global_run. unfold Gitlab.projects_create.
      erewrite gl_call_object_error by exact Hans. reflexivity. }
  cbn beta iota. rewrite Htaken. reflexivity.
Qed.

(** C3 (amended). When the creation of the project is refused with a
    message that contains [has already been taken], [create_project_code]
    (and likewise [create_project_chart]) calls [exit]: it raises
    [SystemExit] with the message that the project already exists, right
    after the one creation request, so without a retry and without any
    branch protection, branch creation or membership request for that
    project.  [SystemExit] is not caught by the function: whatever is
    sequenced after the call does not run either. *)
Theorem C3_name_taken_exits (GitlabEnvConf : Conf.GitlabEnvConf)
  (str_e : string) (w w1 : World) (subgroup : option Z) :
  PyStr.contains "has already been taken" str_e = true ->
  (GitlabProjectManager._create_subgroup GitlabEnvConf Conf.CI_CODE_GROUP_ID
     w = Ok subgroup w1 ->
   answer w1 (code_project_request GitlabEnvConf subgroup)
   = Gitlab.Error (GitlabCreateError str_e) ->
   let stop :=
     Raise
       (SystemExit ("Project '" +:+ Conf.CI_PROJECT_NAME GitlabEnvConf
                    +:+ "' already exists in CODE group. Skipping creation."))
       (sent (code_project_request GitlabEnvConf subgroup) w1) in
   GitlabProjectManager.create_project_code GitlabEnvConf w = stop
   /\ forall later : M World unit,
        (GitlabProjectManager.create_project_code GitlabEnvConf ;; later) w
        = stop)
  /\ (GitlabProjectManager._create_subgroup GitlabEnvConf
        Conf.CI_CHART_GROUP_ID w = Ok subgroup w1 ->
      answer w1 (chart_project_request GitlabEnvConf subgroup)
      = Gitlab.Error (GitlabCreateError str_e) ->
      let stop :=
        Raise
          (SystemExit ("Project '" +:+ GitlabProjectManager.chart_module
                                         GitlabEnvConf
                       +:+ "' already exists in CHART group. Skipping creation."))
          (sent (chart_project_request GitlabEnvConf subgroup) w1) in
      GitlabProjectManager.create_project_chart GitlabEnvConf w = stop
      /\ forall later : M World unit,
           (GitlabProjectManager.create_project_chart GitlabEnvConf ;; later) w
           = stop).
Proof.
  intros Htaken. split; intros Hsub Hans stop.
  - assert (E : GitlabProjectManager.create_project_code GitlabEnvConf w
                = stop)
      by (eapply create_project_code_taken; eassumption).
    split; [exact E |]. intros later. apply bind_Raise. exact E.
  - assert (E : GitlabProjectManager.create_project_chart GitlabEnvConf w
                = stop)
      by (eapply create_project_chart_taken; eassumption).
    split; [exact E |]. intros later. apply bind_Raise. exact E.
Qed.

Lemma C3_witness :
  let stop :=
    Raise
      (SystemExit ("Project '" +:+ Conf.CI_PROJECT_NAME payments_conf
                   +:+ "' already exists in CODE group. Skipping creation."))
      (sent (code_project_request payments_conf (Some 900%Z))
         (sent (Gitlab.GroupsCreate "payments" "payments" "private" 453)
            (world_of taken_server))) in
  GitlabProjectManager.create_project_code payments_conf
    (world_of taken_server) = stop
  /\ forall later : M World unit,
       (GitlabProjectManager.create_project_code payments_conf ;; later)
         (world_of taken_server) = stop.
Proof.
  apply (C3_name_taken_exits payments_conf
           "400: {'name': ['has already been taken']}"
           (world_of taken_server)
           (sent (Gitlab.GroupsCreate "payments" "payments" "private" 453)
              (world_of taken_server))
           (Some 900%Z));
    reflexivity.
Defined.

(** The whole of [create_project_code] on a GitLab that accepts every
    request: subgroup, project, the two protections and creations, then the
    memberships, [ghost] skipped and [alice] added. *)
Example create_project_code_scenario :
  exists w',
    GitlabProjectManager.create_project_code payments_conf
      (world_of accepting_server) = Ok tt w'
    /\ rev (Gitlab.trace (gitlab w'))
       = [Gitlab.GroupsCreate "payments" "payments" "private" 453;
          Gitlab.ProjectsCreate "ledger" "private" (Some 900%Z) false
            (Some Conf.ContainerExprPolicy);
          Gitlab.ProtectedBranchesCreate 7 "develop" 30 40;
          Gitlab.BranchesCreate 7 "develop" "main";
          Gitlab.ProtectedBranchesCreate 7 "master" 30 40;
          Gitlab.BranchesCreate 7 "master" "develop";
          Gitlab.UsersList "ghost";
          Gitlab.UsersList "alice";
          Gitlab.MembersCreate 7 42 20]
    /\ rev (stdout w')
       = ["Project 'ledger' created successfully.";
          "Branch 'develop' created from 'main in CODE group'.";
          "Branch 'master' created from 'develop in CODE group'.";
          "ghost for maintainer access is not available";
          "Added developer: alice"].
Proof.
  eexists. split; [vm_compute; reflexivity |].
  split; reflexivity.
Qed.

(** C3 as stated fails on what comes after: on a GitLab where the project
    name is taken, the code project and then the chart project do not both
    get their turn.  The run stops with [SystemExit] after the request for
    the code project; no request is made for the chart project. *)
Lemma C3_counterexample :
  exists w',
    (GitlabProjectManager.create_project_code payments_conf ;;
     GitlabProjectManager.create_project_chart payments_conf)
      (world_of taken_server)
    = Raise
        (SystemExit
           "Project 'ledger' already exists in CODE group. Skipping creation.")
        w'
    /\ Gitlab.trace (gitlab w')
       = [Gitlab.ProjectsCreate "ledger" "private" (Some 900%Z) false
            (Some Conf.ContainerExprPolicy);
          Gitlab.GroupsCreate "payments" "payments" "private" 453]
    /\ stdout w' = [].
Proof.
  eexists. split; [vm_compute; reflexivity |].
  split; reflexivity.
Qed.

(** ** The CI-variable step *)

Ltac vault_keeps :=
  let v := fresh "v" in
  intros v;
  unfold Vault.create_or_update_policy, Vault.read_role_id,
    Vault.create_or_update_approle, Vault.generate_secret_id, Vault.login,
    Vault.read_secret, Vault.request, Vault.fresh, bind, ret, raise, get,
    modify;
  repeat match goal with
         | |- context [match ?x with _ => _ end] => destruct x; cbn
         end;
  reflexivity.

Lemma keeps_kv_create_or_update_policy (name policy : string) :
  keeps Vault.kv (Vault.create_or_update_policy name policy).
Proof. vault_keeps. Qed.

Lemma keeps_kv_read_role_id (role_name : string) :
  keeps Vault.kv (Vault.read_role_id role_name).
Proof. vault_keeps. Qed.

Lemma keeps_kv_create_or_update_approle (role_name : string)
  (token_policies : list string) (token_type : string) :
  keeps Vault.kv
    (Vault.create_or_update_approle role_name token_policies token_type).
Proof. vault_keeps. Qed.

Lemma keeps_kv_generate_secret_id (role_name : string) :
  keeps Vault.kv (Vault.generate_secret_id role_name).
Proof. vault_keeps. Qed.

Lemma keeps_kv_login (rid sid : string) : keeps Vault.kv (Vault.login rid sid).
Proof. vault_keeps. Qed.

Ltac keeps_step :=
  match goal with
  | |- keeps _ (bind _ _) => apply keeps_bind; [| intros ?]
  | |- keeps _ (ret _) => apply keeps_ret
  | |- keeps _ (raise _) => apply keeps_raise
  | |- keeps _ (load_unbound_name _) => apply keeps_raise
  | |- keeps _ (print _) => apply keeps_print; intros ?; reflexivity
  | |- keeps _ (http _) => apply (keeps_http_vault Vault.kv)
  | |- keeps _ (hvac (Vault.create_or_update_policy _ _)) =>
      apply (keeps_hvac Vault.kv), keeps_kv_create_or_update_policy
  | |- keeps _ (hvac (Vault.read_role_id _)) =>
      apply (keeps_hvac Vault.kv), keeps_kv_read_role_id
  | |- keeps _ (hvac (Vault.create_or_update_approle _ _ _)) =>
      apply (keeps_hvac Vault.kv), keeps_kv_create_or_update_approle
  | |- keeps _ (hvac (Vault.generate_secret_id _)) =>
      apply (keeps_hvac Vault.kv), keeps_kv_generate_secret_id
  | |- keeps _ (hvac (Vault.login _ _)) =>
      apply (keeps_hvac Vault.kv), keeps_kv_login
  | |- keeps _ (try_except _ _) =>
      let e := fresh "e" in
      let h := fresh "h" in
      let H := fresh "H" in
      apply keeps_try_except;
      [| intros e h H; cbn beta in H;
         try destruct (is_Exception e);
         try destruct e; try discriminate H; injection H as <-]
  | |- keeps _ (match ?x with _ => _ end) => destruct x
  end.

Lemma keeps_kv_generate_consul_secret (yaml_dump : doc -> string)
  (group_name namespace : string) :
  keeps (fun w => Vault.kv (vault w))
    (ConsulManager.generate_consul_secret yaml_dump group_name namespace).
Proof.
  unfold ConsulManager.generate_consul_secret, ConsulManager._create_policy,
    ConsulManager._create_token, ConsulManager._get_policy,
    ConsulManager._token_exists, ConsulManager._get_tokens.
  repeat keeps_step.
Qed.

Lemma keeps_kv_generate_vault_secret (yaml_dump : doc -> string)
  (json_dumps : option nat -> doc -> string)
  (group_name environment_name namespace : string) :
  keeps (fun w => Vault.kv (vault w))
    (VaultManager.generate_vault_secret yaml_dump json_dumps group_name
       environment_name namespace).
Proof.
  unfold VaultManager.generate_vault_secret, VaultManager._create_policy,
    VaultManager._create_or_get_role_id,
    VaultManager._generate_secret_id_and_login.
  repeat keeps_step.
Qed.

Section Configured.

Variable yaml_dump : doc -> string.
Variable json_dumps : option nat -> doc -> string.
Variable GitlabAuthConf : Conf.GitlabAuthConf.
Variable GitlabEnvConf : Conf.GitlabEnvConf.

Local Abbreviation write_branch_secret :=
  (GitlabProjectManager.write_branch_secret yaml_dump json_dumps
     GitlabAuthConf GitlabEnvConf).
Local Abbreviation create_global_variable :=
  (GitlabProjectManager.create_global_variable yaml_dump json_dumps
     GitlabAuthConf GitlabEnvConf).

Lemma write_branch_secret_never_returns (branch : string) :
  never_returns (write_branch_secret branch).
Proof.
  unfold GitlabProjectManager.write_branch_secret.
  do 3 (apply never_returns_bind; intros ?).
  apply never_returns_bind_l, never_returns_raise.
Qed.

Lemma write_branch_secret_keeps_kv (branch : string) :
  keeps (fun w => Vault.kv (vault w)) (write_branch_secret branch).
Proof.
  unfold GitlabProjectManager.write_branch_secret.
  apply keeps_bind; [apply keeps_kv_generate_consul_secret | intros ?].
  apply keeps_bind; [| intros ?].
  { destruct (GitlabProjectManager.py_in _ _).
    - apply keeps_bind; [apply keeps_kv_generate_vault_secret | intros ?].
      apply keeps_ret.
    - apply keeps_ret. }
  apply keeps_bind; [| intros ?].
  { destruct (GitlabProjectManager.py_in _ _).
    - apply keeps_bind; [apply keeps_kv_generate_vault_secret | intros ?].
      apply keeps_ret.
    - apply keeps_ret. }
  apply keeps_bind_never; [apply never_returns_raise | apply keeps_raise].
Qed.

Lemma write_branch_secret_secret_value (branch : string) (w : World) :
  (forall ep, Consul.fault (consul w) ep = None) ->
  (forall ep, Vault.fault (vault w) ep = None) ->
  exists w', write_branch_secret branch w = Raise (NameError "secret_value") w'.
Proof.
  intros Hc Hv.
  destruct (generate_consul_secret_spec yaml_dump
              (Conf.CI_SUBGROUP_NAME GitlabEnvConf)
              (Conf.CD_HELM_NAMESPACE GitlabEnvConf) w Hc)
    as (p & t & w1 & E1 & Hv1 & _).
  unfold GitlabProjectManager.write_branch_secret.
  erewrite bind_Ok by exact E1.
  rewrite <- Hv1 in Hv.
  assert (Hdev : exists o w2,
    (if GitlabProjectManager.py_in branch ["dev"; "devdmz"]
     then
       y <- VaultManager.generate_vault_secret yaml_dump json_dumps
              (Conf.CI_SUBGROUP_NAME GitlabEnvConf) "dev"
              (Conf.CD_HELM_NAMESPACE GitlabEnvConf) ;;
       ret (Some y)
     else ret None) w1 = Ok o w2
    /\ Vault.fault (vault w2) = Vault.fault (vault w1)).
  { destruct (GitlabProjectManager.py_in branch ["dev"; "devdmz"]).
    - destruct (generate_vault_secret_spec yaml_dump json_dumps
                  (Conf.CI_SUBGROUP_NAME GitlabEnvConf) "dev"
                  (Conf.CD_HELM_NAMESPACE GitlabEnvConf) w1 Hv)
        as (r & sid & w2 & E2 & _ & _ & _ & Hf2 & _).
      eexists. exists w2. split; [| exact Hf2].
      erewrite bind_Ok by exact E2. reflexivity.
    - eexists. exists w1. split; reflexivity. }
  destruct Hdev as (o & w2 & E2 & Hf2).
  erewrite bind_Ok by exact E2.
  rewrite <- Hf2 in Hv.
  destruct (GitlabProjectManager.py_in branch ["prod"; "proddmz"; "procdnz"]).
  - destruct (generate_vault_secret_spec yaml_dump json_dumps
                (Conf.CI_SUBGROUP_NAME GitlabEnvConf) "prod"
                (Conf.CD_HELM_NAMESPACE GitlabEnvConf) w2 Hv)
      as (r & sid & w3 & E3 & _).
    exists w3. erewrite bind_Ok.
    2:{ erewrite bind_Ok by exact E3. reflexivity. }
    reflexivity.
  - exists w2. reflexivity.
Qed.

Lemma create_global_variable_never_returns (branch : string)
  (rest : list string) :
  Conf.envBranches GitlabEnvConf = branch :: rest ->
  never_returns create_global_variable.
Proof.
  intros Hb. unfold GitlabProjectManager.create_global_variable.
  do 2 (apply never_returns_bind; intros ?).
  rewrite Hb. cbn [for_each].
  do 2 apply never_returns_bind_l. apply never_returns_raise.
Qed.

Lemma create_global_variable_keeps (branch : string) (rest : list string) :
  Conf.envBranches GitlabEnvConf = branch :: rest ->
  keeps (fun w => (vault w, consul w, stdout w)) create_global_variable.
Proof.
  intros Hb. unfold GitlabProjectManager.create_global_variable.
  apply keeps_bind; [apply keeps_gl; reflexivity | intros ?].
  apply keeps_bind; [apply keeps_gl; reflexivity | intros ?].
  rewrite Hb. cbn [for_each].
  apply keeps_bind_never.
  - apply never_returns_bind_l, never_returns_raise.
  - apply keeps_bind_never; [apply never_returns_raise | apply keeps_raise].
Qed.

Lemma create_global_variable_name_error (branch : string)
  (rest : list string) (project : Z) (variables : list (string * string))
  (w : World) :
  Conf.envBranches GitlabEnvConf = branch :: rest ->
  answer w (Gitlab.ProjectsGet "devops/devops-project-provisioning")
  = Gitlab.Object project ->
  answer (sent (Gitlab.ProjectsGet "devops/devops-project-provisioning") w)
    (Gitlab.VariablesList project) = Gitlab.Variables variables ->
  create_global_variable w
  = Raise (NameError "converted_secret_key")
      (sent (Gitlab.VariablesList project)
         (sent (Gitlab.ProjectsGet "devops/devops-project-provisioning") w)).
Proof.
  intros Hb Hp Hv. unfold GitlabProjectManager.create_global_variable.
  erewrite bind_Ok by (apply gl_call_object_ok; exact Hp).
  erewrite bind_Ok by (apply gl_variables_list_ok; exact Hv).
  rewrite Hb. reflexivity.
Qed.

(** C2. In [create_global_variable] the test of the loop loads
    [converted_secret_key] and the write loads [secret_value]; neither name is
    bound.  The merge-and-write step can therefore not complete: on no path
    does it return or change a stored secret, and on a Consul and a Vault
    that answer it ends in [NameError] for [secret_value], after the Consul
    and Vault values were made.  The function itself, with at least one
    environment branch, never returns and leaves Vault and Consul as they
    were: once GitLab has answered the two lookups it raises [NameError] for
    [converted_secret_key] at the test of the first branch. *)
Theorem C2_create_global_variable_undefined_names (branch : string)
  (rest : list string) :
  Conf.envBranches GitlabEnvConf = branch :: rest ->
  GitlabProjectManager.is_bound "converted_secret_key" = false
  /\ GitlabProjectManager.is_bound "secret_value" = false
  /\ (forall b w, exists e w',
        write_branch_secret b w = Raise e w'
        /\ Vault.kv (vault w') = Vault.kv (vault w))
  /\ (forall b w,
        (forall ep, Consul.fault (consul w) ep = None) ->
        (forall ep, Vault.fault (vault w) ep = None) ->
        exists w',
          write_branch_secret b w = Raise (NameError "secret_value") w'
          /\ Vault.kv (vault w') = Vault.kv (vault w))
  /\ (forall w, exists e w',
        create_global_variable w = Raise e w'
        /\ vault w' = vault w /\ consul w' = consul w)
  /\ (forall w project variables,
        answer w (Gitlab.ProjectsGet "devops/devops-project-provisioning")
        = Gitlab.Object project ->
        answer
          (sent (Gitlab.ProjectsGet "devops/devops-project-provisioning") w)
          (Gitlab.VariablesList project) = Gitlab.Variables variables ->
        create_global_variable w
        = Raise (NameError "converted_secret_key")
            (sent (Gitlab.VariablesList project)
               (sent
                  (Gitlab.ProjectsGet "devops/devops-project-provisioning")
                  w))).
Proof.
  intros Hb.
  split; [reflexivity |]. split; [reflexivity |].
  split; [| split; [| split]].
  - intros b w.
    apply (never_returns_keeps (fun w => Vault.kv (vault w))).
    + apply write_branch_secret_never_returns.
    + apply write_branch_secret_keeps_kv.
  - intros b w Hc Hv.
    destruct (write_branch_secret_secret_value b w Hc Hv) as (w' & E).
    exists w'. split; [exact E |].
    pose proof (write_branch_secret_keeps_kv b w) as K.
    rewrite E in K. exact K.
  - intros w.
    destruct (never_returns_keeps (fun w => (vault w, consul w, stdout w))
                create_global_variable w
                (create_global_variable_never_returns branch rest Hb)
                (create_global_variable_keeps branch rest Hb))
      as (e & w' & E & K).
    exists e, w'. split; [exact E |]. injection K as -> -> _. auto.
  - intros w project variables.
    apply (create_global_variable_name_error branch rest); exact Hb.
Qed.

End Configured.

Lemma C2_witness :
  GitlabProjectManager.create_global_variable sample_yaml_dump sample_json_dumps
    auth_conf payments_conf (world_of accepting_server)
  = Raise (NameError "converted_secret_key")
      (sent (Gitlab.VariablesList 3502)
         (sent (Gitlab.ProjectsGet "devops/devops-project-provisioning")
            (world_of accepting_server))).
Proof.
  destruct (C2_create_global_variable_undefined_names sample_yaml_dump
              sample_json_dumps auth_conf payments_conf "dev" ["prod"] eq_refl)
    as (_ & _ & _ & _ & _ & H).
  apply (H (world_of accepting_server) 3502%Z []); reflexivity.
Defined.

(** The merge-and-write step run by itself for the branch [dev] on an empty
    Consul and an empty Vault: the policy, token and role are made, then the
    step stops on [secret_value]; the KV store is still empty. *)
Example write_branch_secret_dev :
  exists w',
    GitlabProjectManager.write_branch_secret sample_yaml_dump sample_json_dumps
      auth_conf payments_conf "dev" (world_of accepting_server)
    = Raise (NameError "secret_value") w'
    /\ Vault.kv (vault w') = ∅
    /\ length (Consul.tokens (consul w')) = 1%nat
    /\ Vault.secret_ids (vault w') = [("payments_dev_role", "secret-1")].
Proof.
  eexists. split; [vm_compute; reflexivity |].
  repeat split; reflexivity.
Qed.

(** * Further properties *)

(** ** [CommandManager]: the string helpers *)

(** X1. [convert_key_format] keeps the length of the key and leaves no
    hyphen in it; a key without hyphens is returned as it is, so converting
    twice is converting once. *)
Theorem X1_convert_key_format_no_hyphen (key : string) :
  String.length (CommandManager.convert_key_format key) = String.length key
  /\ ~ In "-"%char
         (list_ascii_of_string (CommandManager.convert_key_format key))
  /\ (~ In "-"%char (list_ascii_of_string key) ->
      CommandManager.convert_key_format key = key)
  /\ CommandManager.convert_key_format (CommandManager.convert_key_format key)
     = CommandManager.convert_key_format key.
Proof.
  unfold CommandManager.convert_key_format.
  assert (Hno : forall k,
             ~ In "-"%char (list_ascii_of_string (PyStr.sub_hyphen k))).
  { induction k as [| c k IH]; cbn; [tauto |].
    intros [H | H]; [| exact (IH H)].
    destruct (Ascii.eqb_spec c "-") as [-> | Hc]; [discriminate H |].
    congruence. }
  assert (Hid : forall k,
             ~ In "-"%char (list_ascii_of_string k) ->
             PyStr.sub_hyphen k = k).
  { induction k as [| c k IH]; cbn; [reflexivity |].
    intros H. destruct (Ascii.eqb_spec c "-") as [-> | Hc].
    - exfalso. apply H. left. reflexivity.
    - f_equal. apply IH. tauto. }
  split; [| split; [apply Hno | split; [apply Hid | apply Hid, Hno]]].
  induction key as [| c key IH]; cbn; congruence.
Qed.

Lemma X1_witness :
  CommandManager.convert_key_format "billing" = "billing".
Proof.
  apply (proj1 (proj2 (proj2 (X1_convert_key_format_no_hyphen "billing")))).
  cbn. intuition discriminate.
Defined.

(** *** Whitespace, as [split()] sees it *)

Lemma bytes_eqb_eq (a b : list ascii) : PyStr.bytes_eqb a b = true -> a = b.
Proof.
  revert b. induction a as [| x a IH]; intros [| y b]; cbn;
    try discriminate; [reflexivity |].
  intros H. apply andb_prop in H. destruct H as [Hx Hab].
  apply Ascii.eqb_eq in Hx. rewrite Hx, (IH b Hab). reflexivity.
Qed.

Lemma is_ws_In (bytes : list ascii) :
  PyStr.is_ws bytes = true -> In bytes PyStr.whitespace.
Proof.
  unfold PyStr.is_ws. intros H. apply existsb_exists in H.
  destruct H as (ws & Hin & Heq). apply bytes_eqb_eq in Heq.
  rewrite Heq. exact Hin.
Qed.

(** Where [ends_ws] cuts, a whitespace code point stands. *)
Lemma ends_ws_Some (cur word : list ascii) :
  PyStr.ends_ws cur = Some word ->
  exists c ws,
    In (c :: ws) PyStr.whitespace /\ cur = (rev (c :: ws) ++ word)%list.
Proof.
  unfold PyStr.ends_ws.
  destruct cur as [| c1 cur1]; [discriminate |].
  destruct (PyStr.is_ws [c1]) eqn:H1.
  { intros [= <-]. exists c1, []. split; [apply is_ws_In, H1 | reflexivity]. }
  destruct cur1 as [| c2 cur2]; [discriminate |].
  destruct (PyStr.is_ws [c2; c1]) eqn:H2.
  { intros [= <-]. exists c2, [c1].
    split; [apply is_ws_In, H2 | reflexivity]. }
  destruct cur2 as [| c3 cur3]; [discriminate |].
  destruct (PyStr.is_ws [c3; c2; c1]) eqn:H3; [| discriminate].
  intros [= <-]. exists c3, [c2; c1].
  split; [apply is_ws_In, H3 | reflexivity].
Qed.

(** Where a whitespace code point stands, [ends_ws] cuts. *)
Lemma ends_ws_whitespace (ws word : list ascii) :
  In ws PyStr.whitespace -> PyStr.ends_ws (rev ws ++ word)%list <> None.
Proof.
  revert ws.
  apply (proj1 (List.Forall_forall
                  (fun ws => PyStr.ends_ws (rev ws ++ word)%list <> None)
                  PyStr.whitespace)).
  repeat constructor; cbn; discriminate.
Qed.

Lemma clean_app_r (l cur : list ascii) : clean (l ++ cur)%list -> clean cur.
Proof.
  induction l as [| c l IH]; [exact (fun H => H) |].
  intros [_ H]. exact (IH H).
Qed.

Lemma clean_no_whitespace (cur before ws after : list ascii) :
  clean cur -> In ws PyStr.whitespace ->
  cur <> (before ++ rev ws ++ after)%list.
Proof.
  intros Hclean Hin ->. apply clean_app_r in Hclean.
  destruct (rev ws ++ after)%list as [| c l] eqn:E.
  - exact (ends_ws_whitespace ws after Hin ltac:(rewrite E; reflexivity)).
  - destruct Hclean as [Hnone _].
    apply (ends_ws_whitespace ws after Hin). rewrite E. exact Hnone.
Qed.

Lemma no_whitespace_clean (cur : list ascii) :
  (forall before ws after,
      In ws PyStr.whitespace -> cur <> (before ++ rev ws ++ after)%list) ->
  clean cur.
Proof.
  induction cur as [| c cur IH]; intros H; [exact I |].
  split.
  - destruct (PyStr.ends_ws (c :: cur)) as [word |] eqn:E; [| reflexivity].
    destruct (ends_ws_Some _ _ E) as (c' & ws & Hin & Hcur).
    exfalso. exact (H [] (c' :: ws) word Hin Hcur).
  - apply IH. intros before ws after Hin ->.
    exact (H (c :: before) ws after Hin eq_refl).
Qed.

Lemma no_space_clean (s : string) :
  no_space s <-> clean (rev (list_ascii_of_string s)).
Proof.
  split.
  - intros H. apply no_whitespace_clean. intros before ws after Hin E.
    apply (H (rev after) ws (rev before) Hin).
    rewrite <- (rev_involutive (list_ascii_of_string s)), E.
    rewrite !rev_app_distr, rev_involutive, app_assoc. reflexivity.
  - intros H before ws after Hin E.
    apply (clean_no_whitespace _ (rev after) ws (rev before) H Hin).
    rewrite E, !rev_app_distr, app_assoc. reflexivity.
Qed.

Lemma is_word_rev (cur : list ascii) :
  cur <> [] -> clean cur -> is_word (string_of_list_ascii (rev cur)).
Proof.
  intros Hne Hclean. split.
  - intros E.
    assert (L : length (list_ascii_of_string
                          (string_of_list_ascii (rev cur))) = 0%nat)
      by (rewrite E; reflexivity).
    rewrite list_ascii_of_string_of_list_ascii, length_rev in L.
    destruct cur; [congruence | discriminate L].
  - apply no_space_clean.
    rewrite list_ascii_of_string_of_list_ascii, rev_involutive.
    exact Hclean.
Qed.

Lemma flush_words (cur : list ascii) (rest : list string) :
  clean cur -> Forall is_word rest -> Forall is_word (PyStr.flush cur rest).
Proof.
  intros Hclean Hrest. destruct cur as [| c cur]; [exact Hrest |].
  constructor; [apply is_word_rev; [discriminate | exact Hclean] |].
  exact Hrest.
Qed.

Lemma split_ws_words (s : string) (cur : list ascii) :
  clean cur -> Forall is_word (PyStr.split_ws cur s).
Proof.
  revert cur. induction s as [| c s IH]; intros cur Hcur;
    cbn [PyStr.split_ws].
  - apply flush_words; [exact Hcur | constructor].
  - destruct (PyStr.ends_ws (c :: cur)) as [word |] eqn:E.
    + apply flush_words; [| apply IH; exact I].
      destruct (ends_ws_Some _ _ E) as (c' & ws & _ & Hcur').
      cbn [rev] in Hcur'. rewrite <- !app_assoc in Hcur'.
      destruct (rev ws) as [| x l]; cbn in Hcur'; injection Hcur' as _ ->.
      * exact Hcur.
      * apply (clean_app_r (l ++ [c'])%list).
        rewrite <- app_assoc. exact Hcur.
    + apply IH. split; [exact E | exact Hcur].
Qed.

(** Reading a word: its bytes go to the word being read. *)
Lemma split_ws_word (word rest : string) (cur : list ascii) :
  clean (rev (list_ascii_of_string word) ++ cur)%list ->
  PyStr.split_ws cur (word +:+ rest)
  = PyStr.split_ws (rev (list_ascii_of_string word) ++ cur)%list rest.
Proof.
  revert cur. induction word as [| c word IH]; intros cur Hclean.
  - reflexivity.
  - cbn [list_ascii_of_string rev] in Hclean.
    rewrite <- app_assoc in Hclean. cbn [app] in Hclean.
    rewrite append_String. cbn [PyStr.split_ws].
    pose proof (clean_app_r _ _ Hclean) as [Hnone _]. rewrite Hnone.
    rewrite (IH _ Hclean). cbn [list_ascii_of_string rev].
    rewrite <- app_assoc. reflexivity.
Qed.

Lemma append_EmptyString_r (s : string) : s +:+ EmptyString = s.
Proof.
  induction s as [| c s IH]; [reflexivity |].
  rewrite append_String, IH. reflexivity.
Qed.

Lemma string_of_list_ascii_rev_rev (word : string) :
  string_of_list_ascii (rev (rev (list_ascii_of_string word) ++ [])%list) = word.
Proof.
  rewrite app_nil_r, rev_involutive. apply string_of_list_ascii_of_string.
Qed.

(** A word is what [split()] gives back whole. *)
Lemma is_word_split (s : string) : is_word s <-> PyStr.split s = [s].
Proof.
  unfold PyStr.split. split.
  - intros [Hne Hns]. apply no_space_clean in Hns.
    rewrite <- (append_EmptyString_r s) at 1.
    rewrite split_ws_word by (rewrite app_nil_r; exact Hns).
    cbn [PyStr.split_ws]. rewrite app_nil_r.
    destruct (rev (list_ascii_of_string s)) as [| x l] eqn:E.
    + exfalso. apply Hne.
      rewrite <- (string_of_list_ascii_of_string s),
        <- (rev_involutive (list_ascii_of_string s)), E.
      reflexivity.
    + cbn [PyStr.flush]. rewrite <- E, rev_involutive,
        string_of_list_ascii_of_string.
      reflexivity.
  - intros E.
    pose proof (split_ws_words s [] I) as H. rewrite E in H.
    inversion H. assumption.
Qed.

(** X2. Splitting undoes joining: a list of words (not empty, no
    whitespace code point in them) joined by [convert_list_to_string] is
    given back by [convert_string_to_list]. *)
Theorem X2_convert_list_string_round_trip (values : list string) :
  Forall is_word values ->
  CommandManager.convert_string_to_list
    (Some (CommandManager.convert_list_to_string values)) = values.
Proof.
  unfold CommandManager.convert_string_to_list,
    CommandManager.convert_list_to_string, PyStr.split.
  induction values as [| v rest IH]; intros Hall; [reflexivity |].
  inversion Hall as [| ? ? [Hne Hns] Hrest]; subst.
  apply no_space_clean in Hns.
  assert (Hclean : clean (rev (list_ascii_of_string v) ++ [])%list)
    by (rewrite app_nil_r; exact Hns).
  assert (Hcur : (rev (list_ascii_of_string v) ++ [])%list <> []).
  { rewrite app_nil_r. destruct v as [| c v]; [congruence |].
    cbn. destruct (rev (list_ascii_of_string v)); discriminate. }
  destruct rest as [| v' rest].
  - cbn [PyStr.join_sp].
    rewrite <- (append_EmptyString_r v) at 1.
    rewrite split_ws_word by exact Hclean. cbn [PyStr.split_ws].
    destruct (rev (list_ascii_of_string v) ++ [])%list as [| x l] eqn:E;
      [congruence |].
    cbn [PyStr.flush]. rewrite <- E, string_of_list_ascii_rev_rev.
    reflexivity.
  - change (PyStr.join_sp (v :: v' :: rest))
      with (v +:+ " " +:+ PyStr.join_sp (v' :: rest)).
    rewrite split_ws_word by exact Hclean.
    rewrite append_String, append_EmptyString. cbn [PyStr.split_ws].
    change (PyStr.ends_ws (" "%char :: ?cur)) with (Some cur). cbn iota.
    destruct (rev (list_ascii_of_string v) ++ [])%list as [| x l] eqn:E;
      [congruence |].
    cbn [PyStr.flush]. rewrite <- E, string_of_list_ascii_rev_rev.
    f_equal. apply IH. exact Hrest.
Qed.

Lemma X2_witness :
  CommandManager.convert_string_to_list
    (Some (CommandManager.convert_list_to_string ["alice"; "bob"]))
  = ["alice"; "bob"].
Proof.
  apply (X2_convert_list_string_round_trip ["alice"; "bob"]).
  repeat constructor; apply is_word_split; reflexivity.
Defined.

(** X3. [convert_string_to_list] returns words only: none is empty and no
    whitespace code point occurs in any of them, whatever the input, so
    splitting a returned word again gives it back; [None] gives the empty
    list. *)
Theorem X3_convert_string_to_list_words (str : option string) :
  Forall (fun word => is_word word /\ PyStr.split word = [word])
    (CommandManager.convert_string_to_list str)
  /\ CommandManager.convert_string_to_list None = [].
Proof.
  split; [| reflexivity].
  destruct str as [s |]; [| constructor].
  cbn [CommandManager.convert_string_to_list].
  pose proof (split_ws_words s [] I) as H. fold (PyStr.split s) in H.
  induction H as [| word l Hword _ IH]; constructor; [| exact IH].
  split; [exact Hword | apply is_word_split; exact Hword].
Qed.

(** X4. [determine_domain_name] returns its second argument, whatever the
    cluster type: the type it finds in the list is equal to the one it looks
    for, and the default is the one it looks for. *)
Theorem X4_determine_domain_name_is_domain_type
  (cluster_type domain_type : string) :
  CommandManager.determine_domain_name cluster_type domain_type = domain_type.
Proof.
  unfold CommandManager.determine_domain_name.
  destruct (find _ _) as [type |] eqn:Hfind; [| reflexivity].
  apply find_some in Hfind. destruct Hfind as [_ Heq].
  apply String.eqb_eq. exact Heq.
Qed.

(** ** [TemplateGenerator]: what the Secret manifests carry *)

Lemma b64encode_inj (a b : string) :
  Base64.b64encode a = Base64.b64encode b -> a = b.
Proof.
  intros H.
  assert (E : Base64.b64decode (Base64.b64encode a)
              = Base64.b64decode (Base64.b64encode b)) by (rewrite H; reflexivity).
  rewrite !b64decode_b64encode in E. congruence.
Qed.

(** X5. The [CONSUL_TOKEN] field of the manifest of
    [generate_consul_k8s_secret] decodes, as base64, to the secret id it was
    given, and the manifest determines the group, the namespace and the
    secret id: different inputs give different manifests. *)
Theorem X5_consul_secret_decodes (group_name namespace secret_id : string) :
  (exists field,
      dict_path ["data"; "CONSUL_TOKEN"]
        (TemplateGenerator.consul_k8s_secret_doc group_name namespace
           secret_id) = Some (DStr field)
      /\ Base64.b64decode field = Some secret_id)
  /\ (forall group_name' namespace' secret_id',
        TemplateGenerator.consul_k8s_secret_doc group_name namespace secret_id
        = TemplateGenerator.consul_k8s_secret_doc group_name' namespace'
            secret_id' ->
        group_name = group_name' /\ namespace = namespace'
        /\ secret_id = secret_id').
Proof.
  split.
  - eexists. split; [reflexivity |]. apply b64decode_b64encode.
  - intros g' ns' sid'. unfold TemplateGenerator.consul_k8s_secret_doc.
    intros [= Hname Hns Hsid].
    apply b64encode_inj in Hsid. auto.
Qed.

(** X6. The manifest of [generate_k8s_regcred] is a Secret named [regcred]
    of type [kubernetes.io/dockerconfigjson]; its [.dockerconfigjson] field
    decodes to the JSON dump of the [auths] document, which is keyed by the
    server followed by [:4567] and whose [auth] decodes to the username, a
    colon and the password. *)
Theorem X6_regcred_decodes (json_dumps : option nat -> doc -> string)
  (docker_server docker_username docker_password namespace : string) :
  let manifest :=
    TemplateGenerator.k8s_regcred_doc json_dumps docker_server
      docker_username docker_password namespace in
  exists field auth,
    dict_path ["data"; ".dockerconfigjson"] manifest = Some (DStr field)
    /\ Base64.b64decode field
       = Some (json_dumps None
                 (DDict [("auths", DDict [
                    (docker_server +:+ ":4567",
                     DDict [("auth", DStr auth)])])]))
    /\ Base64.b64decode auth
       = Some (docker_username +:+ ":" +:+ docker_password)
    /\ dict_path ["metadata"; "name"] manifest = Some (DStr "regcred")
    /\ dict_path ["metadata"; "namespace"] manifest = Some (DStr namespace)
    /\ dict_path ["type"] manifest
       = Some (DStr "kubernetes.io/dockerconfigjson").
Proof.
  cbn zeta. eexists. eexists.
  split; [reflexivity |].
  split; [apply b64decode_b64encode |].
  split; [apply b64decode_b64encode |].
  repeat split.
Qed.

(** ** [VaultManager]: failures, repeated runs, what is left alone *)

Lemma vault_create_policy_swallowed (name rules : string) (e : exn)
  (w : World) :
  Vault.fault (vault w) Vault.sys_policy = Some e ->
  is_Exception e = true ->
  VaultManager._create_policy name rules w
  = Ok tt (logged ("Error creating policy: " +:+ str_exn e) w).
Proof.
  intros He Hex.
  unfold VaultManager._create_policy, Vault.create_or_update_policy.
  run. rewrite He. destruct w. cbn. rewrite Hex. reflexivity.
Qed.

(** The role step of [generate_vault_secret], with what it leaves alone. *)
Lemma role_step (role_name policy_name : string) (w : World) :
  Vault.fault (vault w) Vault.approle_role_id = None ->
  Vault.fault (vault w) Vault.approle_role = None ->
  exists r w1,
    VaultManager._create_or_get_role_id role_name policy_name w
    = Ok (Vault.role_id r) w1
    /\ Vault.roles (vault w1) !! role_name = Some r
    /\ (Vault.roles (vault w) !! role_name = None ->
        Vault.token_policies r = [policy_name])
    /\ (forall r0, Vault.roles (vault w) !! role_name = Some r0 ->
        r = r0 /\ Vault.roles (vault w1) = Vault.roles (vault w))
    /\ Vault.policies (vault w1) = Vault.policies (vault w)
    /\ Vault.secret_ids (vault w1) = Vault.secret_ids (vault w)
    /\ Vault.kv (vault w1) = Vault.kv (vault w)
    /\ Vault.fault (vault w1) = Vault.fault (vault w)
    /\ (Vault.next_id (vault w) <= Vault.next_id (vault w1))%nat
    /\ consul w1 = consul w.
Proof.
  intros Hr Hc.
  destruct (Vault.roles (vault w) !! role_name) as [r |] eqn:Hrole.
  - exists r, w.
    split; [apply create_or_get_role_id_present; assumption |].
    repeat split; auto; try congruence.
  - eexists {| Vault.role_id := _; Vault.token_policies := _;
               Vault.token_type := _ |}. eexists.
    split; [apply create_or_get_role_id_absent; assumption |]. cbn.
    rewrite lookup_insert_eq. repeat split; try discriminate. lia.
Qed.

(** The secret id and login step, with what it leaves alone. *)
Lemma login_step (role_name : string) (r : Vault.approle) (w : World) :
  Vault.fault (vault w) Vault.approle_secret_id = None ->
  Vault.fault (vault w) Vault.approle_login = None ->
  Vault.roles (vault w) !! role_name = Some r ->
  exists client_token w1,
    VaultManager._generate_secret_id_and_login role_name (Vault.role_id r) w
    = Ok ("secret-" +:+ pretty (Vault.next_id (vault w)), client_token) w1
    /\ Vault.roles (vault w1) = Vault.roles (vault w)
    /\ Vault.policies (vault w1) = Vault.policies (vault w)
    /\ Vault.secret_ids (vault w1)
       = (role_name, "secret-" +:+ pretty (Vault.next_id (vault w)))
         :: Vault.secret_ids (vault w)
    /\ Vault.kv (vault w1) = Vault.kv (vault w)
    /\ Vault.fault (vault w1) = Vault.fault (vault w)
    /\ (Vault.next_id (vault w) < Vault.next_id (vault w1))%nat
    /\ consul w1 = consul w.
Proof.
  intros Hs Hl Hrole.
  unfold VaultManager._generate_secret_id_and_login,
    Vault.generate_secret_id, Vault.login, Vault.valid_login.
  run. rewrite Hs, Hrole. cbn. rewrite Hl. cbn. rewrite Hrole.
  rewrite !String.eqb_refl. cbn.
  eexists. eexists. split; [reflexivity |]. cbn.
  repeat split. lia.
Qed.

(** [generate_vault_secret] on a Vault whose AppRole endpoints answer,
    whether the policy was written or the write failed and was logged. *)
Lemma generate_vault_secret_run (yaml_dump : doc -> string)
  (json_dumps : option nat -> doc -> string)
  (group_name environment_name namespace : string) (w : World) :
  (forall e, Vault.fault (vault w) Vault.sys_policy = Some e ->
             is_Exception e = true) ->
  (forall ep, ep <> Vault.sys_policy -> Vault.fault (vault w) ep = None) ->
  let role_name := group_name +:+ "_" +:+ environment_name +:+ "_role" in
  let policy_name := group_name +:+ "_" +:+ environment_name +:+ "_policy" in
  exists r k w',
    VaultManager.generate_vault_secret yaml_dump json_dumps group_name
      environment_name namespace w
    = Ok (yaml_dump
            (TemplateGenerator.vault_k8s_secret_doc group_name namespace
               (Base64.b64encode (Vault.role_id r))
               (Base64.b64encode ("secret-" +:+ pretty k)))) w'
    /\ Vault.roles (vault w') !! role_name = Some r
    /\ (Vault.roles (vault w) !! role_name = None ->
        Vault.token_policies r = [policy_name])
    /\ (forall r0, Vault.roles (vault w) !! role_name = Some r0 ->
        r = r0 /\ Vault.roles (vault w') = Vault.roles (vault w))
    /\ Vault.policies (vault w')
       = match Vault.fault (vault w) Vault.sys_policy with
         | None =>
             <[policy_name :=
                 TemplateGenerator.generate_vault_policy_json json_dumps
                   group_name environment_name]> (Vault.policies (vault w))
         | Some _ => Vault.policies (vault w)
         end
    /\ Vault.secret_ids (vault w')
       = (role_name, "secret-" +:+ pretty k) :: Vault.secret_ids (vault w)
    /\ Vault.fault (vault w') = Vault.fault (vault w)
    /\ (Vault.next_id (vault w) <= k < Vault.next_id (vault w'))%nat.
Proof.
  intros Hpol Hother role_name policy_name.
  assert (E0 : exists w0,
    VaultManager._create_policy policy_name
      (TemplateGenerator.generate_vault_policy_json json_dumps group_name
         environment_name) w = Ok tt w0
    /\ Vault.roles (vault w0) = Vault.roles (vault w)
    /\ Vault.secret_ids (vault w0) = Vault.secret_ids (vault w)
    /\ Vault.fault (vault w0) = Vault.fault (vault w)
    /\ Vault.next_id (vault w0) = Vault.next_id (vault w)
    /\ Vault.policies (vault w0)
       = match Vault.fault (vault w) Vault.sys_policy with
         | None =>
             <[policy_name :=
                 TemplateGenerator.generate_vault_policy_json json_dumps
                   group_name environment_name]> (Vault.policies (vault w))
         | Some _ => Vault.policies (vault w)
         end).
  { destruct (Vault.fault (vault w) Vault.sys_policy) as [e |] eqn:Hs.
    - eexists. split;
        [apply vault_create_policy_swallowed;
           [exact Hs | apply Hpol; reflexivity] |].
      cbn. auto.
    - eexists. split; [apply vault_create_policy_ok; exact Hs |].
      cbn. auto. }
  destruct E0 as (w0 & E0 & Hroles0 & Hids0 & Hf0 & Hn0 & Hp0).
  destruct (role_step role_name policy_name w0)
    as (r & w1 & E1 & Hrole & Habsent & Hpresent & Hp1 & Hids1 & _ & Hf1
        & Hn1 & _);
    [rewrite Hf0; apply Hother; discriminate ..|].
  destruct (login_step role_name r w1)
    as (tok & w2 & E2 & Hroles2 & Hp2 & Hids2 & _ & Hf2 & Hn2 & _);
    [rewrite Hf1, Hf0; apply Hother; discriminate ..| exact Hrole |].
  exists r, (Vault.next_id (vault w1)), w2.
  split.
  { unfold VaultManager.generate_vault_secret.
    fold policy_name role_name.
    erewrite bind_Ok by exact E0.
    erewrite bind_Ok by exact E1.
    erewrite bind_Ok by exact E2.
    reflexivity. }
  rewrite Hroles2, Hp2, Hp1, Hp0, Hids2, Hids1, Hids0, Hf2, Hf1, Hf0.
  rewrite Hroles0 in Habsent, Hpresent.
  repeat split; try assumption; try lia.
  all: match goal with
       | H : _ !! _ = Some ?r0 |- _ =>
           destruct (Hpresent r0 H); assumption
       end.
Qed.



Lemma secret_id_neq (k1 k2 : nat) :
  k1 <> k2 -> "secret-" +:+ pretty k1 <> "secret-" +:+ pretty k2.
Proof.
  intros Hne H. rewrite !append_String, !append_EmptyString in H.
  injection H as H. apply (inj pretty) in H. contradiction.
Qed.

(** X8. Every run of [generate_vault_secret] that Vault answers issues one
    more secret id for the role and withdraws none: the secret ids Vault
    holds afterwards are the ones it held, with the one the manifest carries
    put in front.  A role that exists is used as it is: the manifest carries
    its role id and no role changes, so running the function for a group
    that has its role only adds a secret id. *)
Theorem X8_generate_vault_secret_adds_secret_id (yaml_dump : doc -> string)
  (json_dumps : option nat -> doc -> string)
  (group_name environment_name namespace : string) (w : World) :
  (forall ep, Vault.fault (vault w) ep = None) ->
  let role_name := group_name +:+ "_" +:+ environment_name +:+ "_role" in
  exists r secret_id w',
    VaultManager.generate_vault_secret yaml_dump json_dumps group_name
      environment_name namespace w
    = Ok (yaml_dump
            (TemplateGenerator.vault_k8s_secret_doc group_name namespace
               (Base64.b64encode (Vault.role_id r))
               (Base64.b64encode secret_id))) w'
    /\ Vault.secret_ids (vault w')
       = (role_name, secret_id) :: Vault.secret_ids (vault w)
    /\ Vault.roles (vault w') !! role_name = Some r
    /\ (forall r0,
          Vault.roles (vault w) !! role_name = Some r0 ->
          r = r0 /\ Vault.roles (vault w') = Vault.roles (vault w)).
Proof.
  intros Hf role_name.
  destruct (generate_vault_secret_run yaml_dump json_dumps group_name
              environment_name namespace w)
    as (r & k & w' & E & Hrole & _ & Hsame & _ & Hids & _);
    [intros e He; rewrite Hf in He; discriminate | intros; apply Hf |].
  exists r, ("secret-" +:+ pretty k), w'. auto.
Qed.

Lemma X8_witness :
  exists r secret_id w',
    VaultManager.generate_vault_secret sample_yaml_dump sample_json_dumps
      "payments" "dev" "payments-ns" seasoned_world
    = Ok (sample_yaml_dump
            (TemplateGenerator.vault_k8s_secret_doc "payments" "payments-ns"
               (Base64.b64encode (Vault.role_id r))
               (Base64.b64encode secret_id))) w'
    /\ Vault.secret_ids (vault w')
       = ("payments" +:+ "_" +:+ "dev" +:+ "_role", secret_id)
         :: Vault.secret_ids (vault seasoned_world)
    /\ Vault.roles (vault w') !! ("payments" +:+ "_" +:+ "dev" +:+ "_role")
       = Some r
    /\ (forall r0,
          Vault.roles (vault seasoned_world)
          !! ("payments" +:+ "_" +:+ "dev" +:+ "_role") = Some r0 ->
          r = r0
          /\ Vault.roles (vault w') = Vault.roles (vault seasoned_world)).
Proof.
  apply (X8_generate_vault_secret_adds_secret_id sample_yaml_dump
           sample_json_dumps "payments" "dev" "payments-ns" seasoned_world).
  intros ep. reflexivity.
Defined.

(** The run on a Vault that holds the role: the role id of the manifest is
    the one of that role, and the secret id issued earlier is still there. *)
Example generate_vault_secret_seasoned :
  exists w',
    VaultManager.generate_vault_secret sample_yaml_dump sample_json_dumps
      "payments" "dev" "payments-ns" seasoned_world
    = Ok (sample_yaml_dump
            (TemplateGenerator.vault_k8s_secret_doc "payments" "payments-ns"
               (Base64.b64encode "role-legacy")
               (Base64.b64encode "secret-0"))) w'
    /\ Vault.secret_ids (vault w')
       = [("payments_dev_role", "secret-0");
          ("payments_dev_role", "secret-legacy")]
    /\ Vault.roles (vault w') = Vault.roles (vault seasoned_world).
Proof.
  eexists. split; [vm_compute; reflexivity |].
  split; vm_compute; reflexivity.
Qed.

Lemma keeps_hvac_others {A T} (f : World -> T) (m : M Vault.state A) :
  (forall v w, f (set_vault v w) = f w) -> keeps f (hvac m).
Proof.
  intros H w. unfold hvac, zoom. destruct (m (vault w)); cbn; apply H.
Qed.

Lemma keeps_http_others {A T} (f : World -> T) (m : M Consul.state A) :
  (forall c w, f (set_consul c w) = f w) -> keeps f (http m).
Proof.
  intros H w. unfold http, zoom. destruct (m (consul w)); cbn; apply H.
Qed.

(** A step of a proof that a run keeps a part of the world that the
    requests of one client cannot reach. *)
Ltac keeps_others :=
  match goal with
  | |- keeps _ (bind _ _) => apply keeps_bind; [| intros ?]
  | |- keeps _ (ret _) => apply keeps_ret
  | |- keeps _ (raise _) => apply keeps_raise
  | |- keeps _ (print _) => apply keeps_print; intros ?; reflexivity
  | |- keeps _ (hvac _) => apply keeps_hvac_others; intros ? ?; reflexivity
  | |- keeps _ (http _) => apply keeps_http_others; intros ? ?; reflexivity
  | |- keeps _ (try_except _ _) =>
      let e := fresh "e" in
      let h := fresh "h" in
      let H := fresh "H" in
      apply keeps_try_except;
      [| intros e h H; cbn beta in H;
         try destruct (is_Exception e);
         try destruct e; try discriminate H; injection H as <-]
  | |- keeps _ (match ?x with _ => _ end) => destruct x
  end.

(** X9. Whatever Vault and Consul answer, [generate_vault_secret] leaves
    the KV store and Consul as they are, and [generate_consul_secret] leaves
    Vault as it is: minting the secrets never writes a stored secret, and
    neither client reaches the other server. *)
Theorem X9_secret_generation_leaves_alone (yaml_dump : doc -> string)
  (json_dumps : option nat -> doc -> string)
  (group_name environment_name namespace : string) (w : World) :
  Vault.kv
    (vault (final (VaultManager.generate_vault_secret yaml_dump json_dumps
                     group_name environment_name namespace w)))
  = Vault.kv (vault w)
  /\ consul (final (VaultManager.generate_vault_secret yaml_dump json_dumps
                      group_name environment_name namespace w))
     = consul w
  /\ vault (final (ConsulManager.generate_consul_secret yaml_dump group_name
                     namespace w))
     = vault w.
Proof.
  split; [| split].
  - apply (keeps_kv_generate_vault_secret yaml_dump json_dumps group_name
             environment_name namespace w).
  - revert w.
    change (keeps consul
              (VaultManager.generate_vault_secret yaml_dump json_dumps
                 group_name environment_name namespace)).
    unfold VaultManager.generate_vault_secret, VaultManager._create_policy,
      VaultManager._create_or_get_role_id,
      VaultManager._generate_secret_id_and_login.
    repeat keeps_others.
  - revert w.
    change (keeps vault
              (ConsulManager.generate_consul_secret yaml_dump group_name
                 namespace)).
    unfold ConsulManager.generate_consul_secret,
      ConsulManager._create_policy, ConsulManager._create_token,
      ConsulManager._get_policy, ConsulManager._token_exists,
      ConsulManager._get_tokens.
    repeat keeps_others.
Qed.

(** The outcomes of [write_secret_to_vault], read off its three steps. *)
Lemma write_secret_to_vault_outcome (mount_point path k v : string)
  (w : World) :
  match VaultManager.write_secret_to_vault mount_point path k v w with
  | Ok _ w' =>
      exists existing,
        Vault.kv (vault w')
        = <[(mount_point, path) := <[k := v]> existing]> (Vault.kv (vault w))
        /\ Vault.policies (vault w') = Vault.policies (vault w)
        /\ Vault.roles (vault w') = Vault.roles (vault w)
        /\ Vault.secret_ids (vault w') = Vault.secret_ids (vault w)
        /\ consul w' = consul w /\ gitlab w' = gitlab w
  | Raise e w' =>
      vault w' = vault w /\ consul w' = consul w /\ gitlab w' = gitlab w
      /\ (Vault.fault (vault w) Vault.kv_v1_read = Some e
          \/ Vault.fault (vault w) Vault.kv_v1_write = Some e)
  end.
Proof.
  unfold VaultManager.write_secret_to_vault, Vault.read_secret,
    Vault.create_or_update_secret.
  run.
  destruct (Vault.fault (vault w) Vault.kv_v1_read) as [e |] eqn:Hr.
  - destruct e; cbn; try (destruct w; cbn; auto 10; fail).
    destruct (Vault.fault (vault w) Vault.kv_v1_write) as [e' |] eqn:Hw;
      cbn.
    + destruct w; cbn in *. auto 10.
    + eexists. repeat split.
  - cbn. destruct (Vault.kv (vault w) !! (mount_point, path)) as [data |];
      cbn; destruct (Vault.fault (vault w) Vault.kv_v1_write) as [e' |] eqn:Hw;
      cbn; try (destruct w; cbn in *; auto 10; fail);
      eexists; repeat split.
Qed.

(** X10. A call of [write_secret_to_vault] that raises has written nothing:
    Vault, Consul and GitLab are as they were, and the exception is the one
    of a failed read or write.  In particular a read that fails with
    anything but [InvalidPath] is not taken for a missing path: it
    propagates. *)
Theorem X10_write_secret_failure_writes_nothing
  (mount_point path k v : string) (w : World) :
  (forall e w',
      VaultManager.write_secret_to_vault mount_point path k v w = Raise e w' ->
      vault w' = vault w /\ consul w' = consul w /\ gitlab w' = gitlab w
      /\ (Vault.fault (vault w) Vault.kv_v1_read = Some e
          \/ Vault.fault (vault w) Vault.kv_v1_write = Some e))
  /\ (forall e,
        Vault.fault (vault w) Vault.kv_v1_read = Some e ->
        (forall str_e, e <> InvalidPath str_e) ->
        VaultManager.write_secret_to_vault mount_point path k v w
        = Raise e w).
Proof.
  split.
  - intros e w' E.
    pose proof (write_secret_to_vault_outcome mount_point path k v w) as H.
    rewrite E in H. exact H.
  - intros e He Hne.
    unfold VaultManager.write_secret_to_vault, Vault.read_secret.
    run. rewrite He. destruct w. cbn.
    destruct e; try reflexivity. exfalso. eapply Hne. reflexivity.
Qed.

Lemma X10_witness :
  VaultManager.write_secret_to_vault "devops_kv" "dev/kubernetes/namespace"
    "payments_ns" "manifests" sealed_world
  = Raise (VaultError "Vault is sealed") sealed_world.
Proof.
  apply (proj2 (X10_write_secret_failure_writes_nothing "devops_kv"
                  "dev/kubernetes/namespace" "payments_ns" "manifests"
                  sealed_world)).
  - reflexivity.
  - intros str_e. discriminate.
Defined.

(** X11. A call of [write_secret_to_vault] that returns has bound the key
    to the value at its path and touched nothing else: every other path of
    every mount holds what it held, and the policies, the roles, the issued
    secret ids, Consul and GitLab are as they were. *)
Theorem X11_write_secret_frame (mount_point path k v : string)
  (w w' : World) :
  VaultManager.write_secret_to_vault mount_point path k v w = Ok tt w' ->
  kv_at w' mount_point path !! k = Some v
  /\ (forall mount_point' path',
        (mount_point', path') <> (mount_point, path) ->
        Vault.kv (vault w') !! (mount_point', path')
        = Vault.kv (vault w) !! (mount_point', path'))
  /\ Vault.policies (vault w') = Vault.policies (vault w)
  /\ Vault.roles (vault w') = Vault.roles (vault w)
  /\ Vault.secret_ids (vault w') = Vault.secret_ids (vault w)
  /\ consul w' = consul w /\ gitlab w' = gitlab w.
Proof.
  intros E.
  pose proof (write_secret_to_vault_outcome mount_point path k v w) as H.
  rewrite E in H.
  destruct H as (existing & Hkv & Hp & Hr & Hs & Hc & Hg).
  unfold kv_at. rewrite Hkv, lookup_insert_eq. cbn.
  rewrite lookup_insert_eq.
  repeat split; try assumption.
  intros m' p' Hne. rewrite lookup_insert_ne by congruence. reflexivity.
Qed.

Lemma X11_witness :
  kv_at
    (final
       (VaultManager.write_secret_to_vault "devops_kv"
          "dev/kubernetes/namespace" "payments_ns" "manifests"
          (world_of accepting_server)))
    "devops_kv" "dev/kubernetes/namespace" !! "payments_ns"
  = Some "manifests".
Proof.
  apply (X11_write_secret_frame "devops_kv" "dev/kubernetes/namespace"
           "payments_ns" "manifests" (world_of accepting_server)).
  reflexivity.
Defined.

(** X12. On a Vault that answers, writes to one path commute on different
    keys (the two orders leave the same store) and writing the same key and
    value again changes nothing. *)
Theorem X12_write_secret_commutes (mount_point path : string) (w : World) :
  Vault.fault (vault w) Vault.kv_v1_read = None ->
  Vault.fault (vault w) Vault.kv_v1_write = None ->
  (forall a va b vb,
      a <> b ->
      exists w1 w2 w1' w2',
        VaultManager.write_secret_to_vault mount_point path a va w = Ok tt w1
        /\ VaultManager.write_secret_to_vault mount_point path b vb w1
           = Ok tt w2
        /\ VaultManager.write_secret_to_vault mount_point path b vb w
           = Ok tt w1'
        /\ VaultManager.write_secret_to_vault mount_point path a va w1'
           = Ok tt w2'
        /\ kv_at w2 mount_point path = kv_at w2' mount_point path)
  /\ (forall a va,
        exists w1 w2,
          VaultManager.write_secret_to_vault mount_point path a va w
          = Ok tt w1
          /\ VaultManager.write_secret_to_vault mount_point path a va w1
             = Ok tt w2
          /\ kv_at w2 mount_point path = kv_at w1 mount_point path).
Proof.
  intros Hr Hw. split.
  - intros a va b vb Hne.
    destruct (write_secret_to_vault_twice mount_point path a va b vb w Hr Hw)
      as (w1 & w2 & E1 & E2 & K).
    destruct (write_secret_to_vault_twice mount_point path b vb a va w Hr Hw)
      as (w1' & w2' & E1' & E2' & K').
    exists w1, w2, w1', w2'. rewrite K, K'.
    repeat split; try assumption.
    apply insert_insert_ne. congruence.
  - intros a va.
    destruct (write_secret_to_vault_twice mount_point path a va a va w Hr Hw)
      as (w1 & w2 & E1 & E2 & K).
    destruct (write_secret_to_vault_spec mount_point path a va w Hr Hw)
      as (w1' & E1' & V1).
    rewrite E1 in E1'. injection E1' as <-.
    destruct (kv_at_after_write _ _ _ _ _ V1) as (K1 & _).
    exists w1, w2. rewrite K, K1, insert_insert_eq. auto.
Qed.

Lemma X12_witness :
  exists w1 w2,
    VaultManager.write_secret_to_vault "devops_kv" "dev/kubernetes/namespace"
      "payments_ns" "manifests" (world_of accepting_server) = Ok tt w1
    /\ VaultManager.write_secret_to_vault "devops_kv"
         "dev/kubernetes/namespace" "payments_ns" "manifests" w1 = Ok tt w2
    /\ kv_at w2 "devops_kv" "dev/kubernetes/namespace"
       = kv_at w1 "devops_kv" "dev/kubernetes/namespace".
Proof.
  apply (X12_write_secret_commutes "devops_kv" "dev/kubernetes/namespace"
           (world_of accepting_server)); reflexivity.
Defined.

(** ** [ConsulManager]: reuse, growth and partial failure *)

Lemma consul_create_policy_returns (name rules : string) (p : Consul.policy)
  (w w1 : World) :
  ConsulManager._create_policy name rules w = Ok p w1 ->
  policy_named name (consul w1) = Some p
  /\ Consul.fault (consul w1) = Consul.fault (consul w)
  /\ Consul.fault (consul w) Consul.get_policies = None
  /\ vault w1 = vault w /\ gitlab w1 = gitlab w.
Proof.
  unfold ConsulManager._create_policy, ConsulManager._get_policy,
    Consul.list_policies, Consul.create_policy, policy_named.
  run.
  destruct (Consul.fault (consul w) Consul.get_policies) eqn:Hg;
    [discriminate |].
  cbn.
  destruct (find _ (Consul.policies (consul w))) as [p0 |] eqn:Hfind; cbn.
  - intros [= <- <-]. cbn. rewrite Hfind. auto.
  - destruct (Consul.fault (consul w) Consul.put_policy); [discriminate |].
    rewrite (find_None_existsb _ _ Hfind). cbn.
    intros [= <- <-]. cbn. split; [| auto].
    apply find_app_None; [exact Hfind |]. cbn. apply String.eqb_refl.
Qed.

Lemma consul_create_token_returns (policy_ids : option (list string))
  (description : string) (t : Consul.token) (w w1 : World) :
  ConsulManager._create_token policy_ids (Some description) w = Ok t w1 ->
  token_described description (consul w1) = Some t
  /\ Consul.fault (consul w1) = Consul.fault (consul w)
  /\ Consul.fault (consul w) Consul.get_tokens = None
  /\ Consul.policies (consul w1) = Consul.policies (consul w)
  /\ vault w1 = vault w /\ gitlab w1 = gitlab w.
Proof.
  unfold ConsulManager._create_token, ConsulManager._token_exists,
    ConsulManager._get_tokens, Consul.list_tokens, Consul.create_token,
    token_described.
  run.
  destruct (Consul.fault (consul w) Consul.get_tokens) eqn:Hg;
    [discriminate |].
  cbn.
  destruct (find _ (Consul.tokens (consul w))) as [t0 |] eqn:Hfind; cbn.
  - intros [= <- <-]. cbn. rewrite Hfind. auto 10.
  - destruct (Consul.fault (consul w) Consul.put_token); [discriminate |].
    cbn. intros [= <- <-]. cbn. split; [| auto 10].
    apply find_app_None; [exact Hfind |]. cbn. apply String.eqb_refl.
Qed.

Lemma consul_create_policy_reuses (name rules : string) (p : Consul.policy)
  (w : World) :
  policy_named name (consul w) = Some p ->
  Consul.fault (consul w) Consul.get_policies = None ->
  ConsulManager._create_policy name rules w = Ok p w.
Proof.
  unfold ConsulManager._create_policy, ConsulManager._get_policy,
    Consul.list_policies, policy_named.
  intros Hfind Hg. run. rewrite Hg. cbn. rewrite Hfind.
  destruct w as [g v c out]. destruct c. reflexivity.
Qed.

Lemma consul_create_token_reuses (policy_ids : option (list string))
  (description : string) (t : Consul.token) (w : World) :
  token_described description (consul w) = Some t ->
  Consul.fault (consul w) Consul.get_tokens = None ->
  ConsulManager._create_token policy_ids (Some description) w
  = Ok t (logged ("Token with description '" +:+ description
                  +:+ "' already exists.")
            (set_consul (consul w) w)).
Proof.
  unfold ConsulManager._create_token, ConsulManager._token_exists,
    ConsulManager._get_tokens, Consul.list_tokens, token_described.
  intros Hfind Hg. run. rewrite Hg. cbn. rewrite Hfind. reflexivity.
Qed.

(** X13. [generate_consul_secret] can be run again: once a run has
    returned, another run for the same group returns the same manifest and
    creates nothing, whatever Consul answers to a creation by then; it reads
    the policy and the token of the first run back. *)
Theorem X13_generate_consul_secret_again (yaml_dump : doc -> string)
  (group_name namespace manifest : string) (w w' : World) :
  ConsulManager.generate_consul_secret yaml_dump group_name namespace w
  = Ok manifest w' ->
  exists w'',
    ConsulManager.generate_consul_secret yaml_dump group_name namespace w'
    = Ok manifest w''
    /\ consul w'' = consul w'
    /\ vault w'' = vault w' /\ gitlab w'' = gitlab w'.
Proof.
  unfold ConsulManager.generate_consul_secret. intros E.
  unfold bind at 1 in E.
  destruct (ConsulManager._create_policy _ _ w) as [p w1 | e w1] eqn:E1;
    [| discriminate].
  unfold bind at 1 in E.
  destruct (ConsulManager._create_token _ _ w1) as [t w2 | e w2] eqn:E2;
    [| discriminate].
  unfold bind, print, modify, ret in E. injection E as <- Ew.
  destruct (consul_create_policy_returns _ _ _ _ _ E1)
    as (Hp & Hf1 & Hg1 & _).
  destruct (consul_create_token_returns _ _ _ _ _ E2)
    as (Ht & Hf2 & Hg2 & Hpol & _).
  assert (Hc : consul w' = consul w2) by (rewrite <- Ew; reflexivity).
  assert (Hp3 : policy_named group_name (consul w') = Some p).
  { rewrite Hc. unfold policy_named in *. rewrite Hpol. exact Hp. }
  assert (Hg3 : Consul.fault (consul w') Consul.get_policies = None).
  { rewrite Hc, Hf2, Hf1. exact Hg1. }
  erewrite bind_Ok
    by (apply consul_create_policy_reuses; [exact Hp3 | exact Hg3]).
  erewrite bind_Ok
    by (apply consul_create_token_reuses;
        [rewrite Hc; exact Ht | rewrite Hc, Hf2; exact Hg2]).
  eexists. split; [reflexivity |].
  cbn. auto.
Qed.

Lemma X13_witness :
  exists w'',
    ConsulManager.generate_consul_secret sample_yaml_dump "payments"
      "payments-ns"
      (final (ConsulManager.generate_consul_secret sample_yaml_dump
                "payments" "payments-ns" (world_of accepting_server)))
    = Ok (sample_yaml_dump
            (TemplateGenerator.consul_k8s_secret_doc "payments" "payments-ns"
               "secret-2")) w''
    /\ consul w''
       = consul
           (final (ConsulManager.generate_consul_secret sample_yaml_dump
                     "payments" "payments-ns" (world_of accepting_server)))
    /\ vault w''
       = vault
           (final (ConsulManager.generate_consul_secret sample_yaml_dump
                     "payments" "payments-ns" (world_of accepting_server)))
    /\ gitlab w''
       = gitlab
           (final (ConsulManager.generate_consul_secret sample_yaml_dump
                     "payments" "payments-ns" (world_of accepting_server))).
Proof.
  apply (X13_generate_consul_secret_again sample_yaml_dump "payments"
           "payments-ns" _ (world_of accepting_server)).
  vm_compute. reflexivity.
Defined.

(** X14. Whatever Consul answers, and whether it returns or raises,
    [generate_consul_secret] removes and changes nothing in Consul: the
    policies and the tokens that were stored are still there, in order,
    followed by at most one new policy and at most one new token. *)
Theorem X14_generate_consul_secret_only_adds (yaml_dump : doc -> string)
  (group_name namespace : string) :
  along consul_grows
    (ConsulManager.generate_consul_secret yaml_dump group_name namespace).
Proof.
  intros w. unfold consul_grows.
  unfold ConsulManager.generate_consul_secret, ConsulManager._create_policy,
    ConsulManager._get_policy, ConsulManager._create_token,
    ConsulManager._token_exists, ConsulManager._get_tokens,
    Consul.list_policies, Consul.create_policy, Consul.list_tokens,
    Consul.create_token.
  run.
  destruct (Consul.fault (consul w) Consul.get_policies) eqn:Hgp; cbn.
  { exists [], []. rewrite !app_nil_r. auto. }
  destruct (find _ (Consul.policies (consul w))) as [p0 |]; cbn.
  - destruct (Consul.fault (consul w) Consul.get_tokens) eqn:Hgt; cbn.
    { exists [], []. rewrite !app_nil_r. auto. }
    destruct (find _ (Consul.tokens (consul w))) as [t0 |]; cbn.
    { exists [], []. rewrite !app_nil_r. auto. }
    destruct (Consul.fault (consul w) Consul.put_token); cbn.
    { exists [], []. rewrite !app_nil_r. auto. }
    eexists [], [_]. rewrite !app_nil_r. cbn. auto.
  - destruct (Consul.fault (consul w) Consul.put_policy) eqn:Hpp; cbn.
    { exists [], []. rewrite !app_nil_r. auto. }
    destruct (existsb _ (Consul.policies (consul w))); cbn.
    { exists [], []. rewrite !app_nil_r. auto. }
    destruct (Consul.fault (consul w) Consul.get_tokens) eqn:Hgt; cbn.
    { eexists [_], []. rewrite !app_nil_r. cbn. auto. }
    destruct (find _ (Consul.tokens (consul w))) as [t0 |]; cbn.
    { eexists [_], []. rewrite !app_nil_r. cbn. auto. }
    destruct (Consul.fault (consul w) Consul.put_token); cbn.
    { eexists [_], []. rewrite !app_nil_r. cbn. auto. }
    eexists [_], [_]. cbn. auto.
Qed.

Lemma consul_create_token_anonymous (policy_ids : option (list string))
  (w : World) :
  Consul.fault (consul w) Consul.get_tokens = None ->
  Consul.fault (consul w) Consul.put_token = None ->
  exists t w1,
    ConsulManager._create_token policy_ids None w = Ok t w1
    /\ Consul.tokens (consul w1) = (Consul.tokens (consul w) ++ [t])%list
    /\ Consul.SecretID t
       = "secret-" +:+ pretty (S (Consul.next_id (consul w)))
    /\ Consul.next_id (consul w1) = S (S (Consul.next_id (consul w)))
    /\ Consul.fault (consul w1) = Consul.fault (consul w)
    /\ stdout w1 = stdout w.
Proof.
  intros Hg Hp.
  assert (Hnone : forall l : list Consul.token,
             find (fun _ : Consul.token => false) l = None).
  { induction l; [reflexivity | exact IHl]. }
  unfold ConsulManager._create_token, ConsulManager._token_exists,
    ConsulManager._get_tokens, Consul.list_tokens, Consul.create_token.
  run. rewrite Hg. cbn. rewrite Hnone. cbn. rewrite Hp. cbn.
  do 2 eexists. split; [reflexivity |]. cbn. auto 10.
Qed.

(** X15. A token asked for without a description is never taken for an
    existing one: on a Consul that answers, every such call of
    [_create_token] creates a token and prints nothing, so two calls leave
    two new tokens, with different secrets, where two calls with one
    description leave one. *)
Theorem X15_create_token_without_description
  (policy_ids : option (list string)) (w : World) :
  Consul.fault (consul w) Consul.get_tokens = None ->
  Consul.fault (consul w) Consul.put_token = None ->
  exists t1 t2 w1 w2,
    ConsulManager._create_token policy_ids None w = Ok t1 w1
    /\ ConsulManager._create_token policy_ids None w1 = Ok t2 w2
    /\ Consul.tokens (consul w2) = (Consul.tokens (consul w) ++ [t1; t2])%list
    /\ Consul.SecretID t1 <> Consul.SecretID t2
    /\ stdout w2 = stdout w.
Proof.
  intros Hg Hp.
  destruct (consul_create_token_anonymous policy_ids w Hg Hp)
    as (t1 & w1 & E1 & T1 & S1 & N1 & F1 & O1).
  rewrite <- F1 in Hg, Hp.
  destruct (consul_create_token_anonymous policy_ids w1 Hg Hp)
    as (t2 & w2 & E2 & T2 & S2 & N2 & F2 & O2).
  exists t1, t2, w1, w2.
  split; [exact E1 |]. split; [exact E2 |].
  split; [rewrite T2, T1, <- app_assoc; reflexivity |].
  split; [| congruence].
  rewrite S1, S2, N1. apply secret_id_neq. lia.
Qed.

Lemma X15_witness :
  exists t1 t2 w1 w2,
    ConsulManager._create_token None None (world_of accepting_server)
    = Ok t1 w1
    /\ ConsulManager._create_token None None w1 = Ok t2 w2
    /\ Consul.tokens (consul w2)
       = (Consul.tokens (consul (world_of accepting_server))
          ++ [t1; t2])%list
    /\ Consul.SecretID t1 <> Consul.SecretID t2
    /\ stdout w2 = stdout (world_of accepting_server).
Proof.
  apply (X15_create_token_without_description None
           (world_of accepting_server)); reflexivity.
Defined.

Lemma consul_create_token_refused (policy_ids : option (list string))
  (description : string) (e : exn) (w : World) :
  Consul.fault (consul w) Consul.get_tokens = None ->
  Consul.fault (consul w) Consul.put_token = Some e ->
  token_described description (consul w) = None ->
  exists w',
    ConsulManager._create_token policy_ids (Some description) w = Raise e w'
    /\ consul w' = consul w /\ stdout w' = stdout w.
Proof.
  intros Hg Hp Hfind. unfold token_described in Hfind.
  unfold ConsulManager._create_token, ConsulManager._token_exists,
    ConsulManager._get_tokens, Consul.list_tokens, Consul.create_token.
  run. rewrite Hg. cbn. rewrite Hfind. cbn. rewrite Hp. cbn.
  eexists. split; [reflexivity |]. cbn. destruct (consul w). auto.
Qed.

(** X16. [generate_consul_secret] is not undone when it fails half way:
    when Consul creates the policy and then refuses the token, the call
    raises the error of the refusal, returns no manifest and prints
    nothing, and the policy it has created stays in Consul. *)
Theorem X16_token_failure_leaves_policy (yaml_dump : doc -> string)
  (group_name namespace : string) (e : exn) (w : World) :
  Consul.fault (consul w) Consul.get_policies = None ->
  Consul.fault (consul w) Consul.put_policy = None ->
  Consul.fault (consul w) Consul.get_tokens = None ->
  Consul.fault (consul w) Consul.put_token = Some e ->
  policy_named group_name (consul w) = None ->
  token_described group_name (consul w) = None ->
  exists p w',
    ConsulManager.generate_consul_secret yaml_dump group_name namespace w
    = Raise e w'
    /\ Consul.Name p = group_name
    /\ Consul.policies (consul w')
       = (Consul.policies (consul w) ++ [p])%list
    /\ Consul.tokens (consul w') = Consul.tokens (consul w)
    /\ stdout w' = stdout w.
Proof.
  intros Hgp Hpp Hgt Hpt Hpol Htok.
  destruct (consul_create_policy_spec group_name
              ("key_prefix " +:+ dquote +:+ group_name +:+ "/" +:+ dquote
               +:+ " { policy = " +:+ dquote +:+ "write" +:+ dquote +:+ " }")
              w Hgp Hpp)
    as (p & w1 & E1 & Hname & _ & Hfault & Htokens & _ & Hcase).
  rewrite Hpol in Hcase. destruct Hcase as [_ Hpolicies].
  assert (Hout : stdout w1 = stdout w).
  { revert E1.
    unfold ConsulManager._create_policy, ConsulManager._get_policy,
      Consul.list_policies, Consul.create_policy.
    run. rewrite Hgp. cbn.
    unfold policy_named in Hpol. rewrite Hpol. cbn. rewrite Hpp. cbn.
    rewrite (find_None_existsb _ _ Hpol). cbn.
    intros [= _ <-]. reflexivity. }
  destruct (consul_create_token_refused (Some [Consul.ID p]) group_name e w1)
    as (w2 & E2 & Hc2 & Hout2).
  { rewrite Hfault. exact Hgt. }
  { rewrite Hfault. exact Hpt. }
  { unfold token_described in *. rewrite Htokens. exact Htok. }
  exists p, w2. split.
  { unfold ConsulManager.generate_consul_secret.
    erewrite bind_Ok by exact E1.
    erewrite bind_Raise by exact E2. reflexivity. }
  rewrite Hc2. repeat split; congruence.
Qed.

Lemma X16_witness :
  exists p w',
    ConsulManager.generate_consul_secret sample_yaml_dump "payments"
      "payments-ns" no_token_world
    = Raise (HTTPError "403 Client Error: Forbidden") w'
    /\ Consul.Name p = "payments"
    /\ Consul.policies (consul w')
       = (Consul.policies (consul no_token_world) ++ [p])%list
    /\ Consul.tokens (consul w') = Consul.tokens (consul no_token_world)
    /\ stdout w' = stdout no_token_world.
Proof.
  apply (X16_token_failure_leaves_policy sample_yaml_dump "payments"
           "payments-ns" _ no_token_world); reflexivity.
Defined.

(** ** Relations a run stays within *)

Section Along.

Context {St : Type} (R : St -> St -> Prop).
Hypothesis R_refl : forall s, R s s.
Hypothesis R_trans : forall a b c, R a b -> R b c -> R a c.

Lemma along_ret {A} (a : A) : along R (ret a).
Proof. intros s. apply R_refl. Qed.

Lemma along_raise {A} (e : exn) : along R (@raise St A e).
Proof. intros s. apply R_refl. Qed.

Lemma along_bind {A B} (m : M St A) (k : A -> M St B) :
  along R m -> (forall a, along R (k a)) -> along R (bind m k).
Proof.
  intros Hm Hk s. unfold bind. specialize (Hm s).
  destruct (m s) as [a s' | e s']; cbn in *; [| exact Hm].
  eapply R_trans; [exact Hm | apply Hk].
Qed.

Lemma along_try_except {A} (body : M St A)
  (handler : exn -> option (M St A)) :
  along R body ->
  (forall e h, handler e = Some h -> along R h) ->
  along R (try_except body handler).
Proof.
  intros Hb Hh s. unfold try_except. specialize (Hb s).
  destruct (body s) as [a s' | e s']; cbn in *; [exact Hb |].
  destruct (handler e) as [h |] eqn:He; cbn; [| exact Hb].
  eapply R_trans; [exact Hb | apply (Hh e h He)].
Qed.

Lemma along_for_each {A} (l : list A) (body : A -> M St unit) :
  (forall x, along R (body x)) -> along R (for_each l body).
Proof.
  intros Hb. induction l as [| x l IH]; cbn [for_each].
  - apply along_ret.
  - apply along_bind; [apply Hb | intros _; exact IH].
Qed.

End Along.

Lemma emits_refl (P : Gitlab.request -> Prop) (w : World) : emits P w w.
Proof. exists []. split; [reflexivity | constructor]. Qed.

Lemma emits_trans (P : Gitlab.request -> Prop) (a b c : World) :
  emits P a b -> emits P b c -> emits P a c.
Proof.
  intros (l1 & E1 & F1) (l2 & E2 & F2). exists (l2 ++ l1)%list. split.
  - rewrite E2, E1, app_assoc. reflexivity.
  - apply Forall_app. auto.
Qed.

Lemma emits_local_refl {L} (P : Gitlab.request -> Prop) (s : L * World) :
  emits_local P s s.
Proof. apply emits_refl. Qed.

Lemma emits_local_trans {L} (P : Gitlab.request -> Prop) (a b c : L * World) :
  emits_local P a b -> emits_local P b c -> emits_local P a c.
Proof. apply emits_trans. Qed.

(** A request that satisfies [P] is all that its call sends. *)
Lemma along_emits_call {A} (P : Gitlab.request -> Prop) (req : Gitlab.request)
  (k : Gitlab.response -> M Gitlab.state A) :
  P req ->
  (forall r g, final (k r g) = g) ->
  along (emits P) (gl (r <- Gitlab.call req ;; k r)).
Proof.
  intros HP Hk w. exists [req]. split; [| repeat constructor; exact HP].
  unfold gl, zoom, bind, Gitlab.call.
  specialize (Hk (Gitlab.server (gitlab w) (Gitlab.trace (gitlab w)) req)
                {| Gitlab.server := Gitlab.server (gitlab w);
                   Gitlab.trace := req :: Gitlab.trace (gitlab w) |}).
  destruct (k _ _) as [a g | e g]; cbn in *; rewrite Hk; reflexivity.
Qed.

Lemma along_emits_print (P : Gitlab.request -> Prop) (line : string) :
  along (emits P) (print line).
Proof. intros w. exists []. split; [reflexivity | constructor]. Qed.

Lemma along_emits_global {L A} (P : Gitlab.request -> Prop) (m : M World A) :
  along (emits P) m -> along (@emits_local L P) (global m).
Proof.
  intros H [l w]. rewrite global_run. specialize (H w).
  destruct (m w); exact H.
Qed.

Lemma along_emits_with_local {L A} (P : Gitlab.request -> Prop) (init : L)
  (body : M (L * World) A) :
  along (emits_local P) body -> along (emits P) (with_local init body).
Proof.
  intros H w. unfold with_local. specialize (H (init, w)).
  destruct (body (init, w)); exact H.
Qed.

Ltac emits_preorder :=
  first [ exact (emits_refl _) | exact (emits_trans _)
        | exact (emits_local_refl _) | exact (emits_local_trans _) ].

Ltac emits_call HP :=
  apply along_emits_call; [HP | intros [] ?; reflexivity].

(** A step of a proof that every request of a run satisfies a predicate. *)
Ltac emits_step :=
  match goal with
  | |- along _ (bind _ _) =>
      apply along_bind; [emits_preorder | | intros ?]
  | |- along _ (ret _) => apply along_ret; emits_preorder
  | |- along _ (raise _) => apply along_raise; emits_preorder
  | |- along _ (exit _) => apply along_raise; emits_preorder
  | |- along _ (print _) => apply along_emits_print
  | |- along _ (global _) => apply along_emits_global
  | |- along _ (with_local _ _) => apply along_emits_with_local
  | |- along _ (store _) => intros [? ?]; apply emits_refl
  | |- along _ load => intros [? ?]; apply emits_refl
  | |- along _ (for_each _ _) =>
      apply along_for_each; [emits_preorder | emits_preorder | intros ?]
  | |- along _ (try_except _ _) =>
      let e := fresh "e" in
      let h := fresh "h" in
      let H := fresh "H" in
      apply along_try_except;
      [emits_preorder | | intros e h H; cbn beta in H;
         destruct e; try discriminate H; injection H as <-]
  | |- along _ (gl (Gitlab.groups_create _ _ _ _)) => emits_call ltac:(exact I)
  | |- along _ (gl (Gitlab.groups_get _)) => emits_call ltac:(exact I)
  | |- along _ (gl (Gitlab.subgroups_list _)) => emits_call ltac:(exact I)
  | |- along _ (gl (Gitlab.projects_create _ _ _ _ _)) =>
      emits_call ltac:(exact I)
  | |- along _ (gl (Gitlab.branches_create _ _ _)) => emits_call ltac:(exact I)
  | |- along _ (gl (Gitlab.users_list _)) => emits_call ltac:(exact I)
  | |- along _ (gl (Gitlab.protectedbranches_create _ _ _ _)) =>
      emits_call ltac:(reflexivity)
  | |- along _ (gl (Gitlab.members_create _ _ _)) =>
      emits_call ltac:(reflexivity)
  | |- along _ (item0 ?l) => destruct l; cbn [item0]
  | |- along _ (bound _ ?x) => destruct x; cbn [bound]
  | |- along _ (match ?x with _ => _ end) => destruct x
  | |- along _ (if ?x then _ else _) => destruct x
  end.

Lemma create_subgroup_requests (GitlabEnvConf : Conf.GitlabEnvConf)
  (group_id : Z) :
  along (emits provisioning_request)
    (GitlabProjectManager._create_subgroup GitlabEnvConf group_id).
Proof.
  unfold GitlabProjectManager._create_subgroup.
  repeat emits_step.
Qed.

Lemma assign_members_requests (GitlabEnvConf : Conf.GitlabEnvConf)
  (var : string) (project : option Z) :
  along (emits provisioning_request)
    (GitlabProjectManager.assign_members GitlabEnvConf var project).
Proof.
  unfold GitlabProjectManager.assign_members,
    GitlabProjectManager.add_member.
  repeat emits_step.
Qed.

(** X17. Whatever GitLab answers, on every path and whether they return,
    raise or exit, [create_project_code] and [create_project_chart] ask
    GitLab only for groups, projects, branches, branch protections, users
    and memberships; every branch protection they ask for lets fewer roles
    push than merge (merge at developer level, push at maintainer level);
    and every membership they ask for is at reporter level, for maintainers
    and developers alike. *)
Theorem X17_provisioning_requests (GitlabEnvConf : Conf.GitlabEnvConf) :
  along (emits provisioning_request)
    (GitlabProjectManager.create_project_code GitlabEnvConf)
  /\ along (emits provisioning_request)
       (GitlabProjectManager.create_project_chart GitlabEnvConf).
Proof.
  split.
  - unfold GitlabProjectManager.create_project_code.
    emits_step; [apply create_subgroup_requests |].
    unfold GitlabProjectManager.code_branches,
      GitlabProjectManager.code_branch.
    repeat first [apply assign_members_requests | emits_step].
  - unfold GitlabProjectManager.create_project_chart.
    emits_step; [apply create_subgroup_requests |].
    unfold GitlabProjectManager.chart_branches,
      GitlabProjectManager.chart_branch.
    repeat first [apply assign_members_requests | emits_step].
Qed.

(** *** [_create_subgroup] *)

Lemma gl_subgroups_list_ok (group : Z) (l : list (Z * string)) (w : World) :
  answer w (Gitlab.SubgroupsList group) = Gitlab.Subgroups l ->
  gl (Gitlab.subgroups_list group) w
  = Ok l (sent (Gitlab.SubgroupsList group) w).
Proof.
  unfold answer, gl, zoom, Gitlab.subgroups_list, Gitlab.call, bind, sent.
  cbn. intros ->. reflexivity.
Qed.

Lemma gl_subgroups_list_error (group : Z) (e : exn) (w : World) :
  answer w (Gitlab.SubgroupsList group) = Gitlab.Error e ->
  gl (Gitlab.subgroups_list group) w
  = Raise e (sent (Gitlab.SubgroupsList group) w).
Proof.
  unfold answer, gl, zoom, Gitlab.subgroups_list, Gitlab.call, bind, sent.
  cbn. intros ->. reflexivity.
Qed.

Lemma create_subgroup_refused (GitlabEnvConf : Conf.GitlabEnvConf)
  (group_id : Z) (e : exn) (w : World) :
  answer w (subgroup_request GitlabEnvConf group_id) = Gitlab.Error e ->
  GitlabProjectManager._create_subgroup GitlabEnvConf group_id w
  = match e with
    | GitlabCreateError str_e =>
        if PyStr.contains "has already been taken" str_e then
          (parent_group <- gl (Gitlab.groups_get group_id) ;;
           subgroups <- gl (Gitlab.subgroups_list parent_group) ;;
           match find (fun subgroup =>
                         String.eqb (snd subgroup)
                           (Conf.CI_SUBGROUP_NAME GitlabEnvConf))
                   subgroups with
           | Some subgroup =>
               print ("Subgroup '" +:+ Conf.CI_SUBGROUP_NAME GitlabEnvConf
                      +:+ "' already exists.") ;;
               ret (Some (fst subgroup))
           | None => ret None
           end)
            (sent (subgroup_request GitlabEnvConf group_id) w)
        else
          Ok None
            (logged ("Failed to create subgroup '"
                     +:+ Conf.CI_SUBGROUP_NAME GitlabEnvConf +:+ "': "
                     +:+ str_e)
               (sent (subgroup_request GitlabEnvConf group_id) w))
    | SystemExit _ =>
        Raise e (sent (subgroup_request GitlabEnvConf group_id) w)
    | _ =>
        Ok None
          (logged ("An error occurred: " +:+ str_exn e)
             (sent (subgroup_request GitlabEnvConf group_id) w))
    end.
Proof.
  intros Hans. unfold GitlabProjectManager._create_subgroup.
  erewrite try_except_Raise.
  2:{ erewrite bind_Raise; [reflexivity |].
      unfold Gitlab.groups_create.
      apply gl_call_object_error. exact Hans. }
  destruct e; try reflexivity.
  cbn beta iota. destruct (PyStr.contains _ _); reflexivity.
Qed.

(** X18. [_create_subgroup] does not fail when the subgroup cannot be
    created: when GitLab refuses the creation with an error other than a
    name that is taken, the function sends nothing more, prints one line
    with the text of the error, and returns [None]. *)
Theorem X18_create_subgroup_failure_is_none
  (GitlabEnvConf : Conf.GitlabEnvConf) (group_id : Z) (e : exn) (w : World) :
  answer w (subgroup_request GitlabEnvConf group_id) = Gitlab.Error e ->
  is_Exception e = true ->
  name_taken e = false ->
  GitlabProjectManager._create_subgroup GitlabEnvConf group_id w
  = Ok None
      (logged
         match e with
         | GitlabCreateError str_e =>
             "Failed to create subgroup '"
             +:+ Conf.CI_SUBGROUP_NAME GitlabEnvConf +:+ "': " +:+ str_e
         | _ => "An error occurred: " +:+ str_exn e
         end
         (sent (subgroup_request GitlabEnvConf group_id) w)).
Proof.
  intros Hans Hexc Htaken.
  rewrite (create_subgroup_refused _ _ _ _ Hans).
  destruct e; cbn in Hexc, Htaken; try discriminate Hexc; try reflexivity.
  rewrite Htaken. reflexivity.
Qed.

Lemma X18_witness :
  GitlabProjectManager._create_subgroup payments_conf Conf.CI_CODE_GROUP_ID
    (world_of no_subgroup_server)
  = Ok None
      (logged "Failed to create subgroup 'payments': 403 Forbidden"
         (sent (subgroup_request payments_conf Conf.CI_CODE_GROUP_ID)
            (world_of no_subgroup_server))).
Proof.
  apply (X18_create_subgroup_failure_is_none payments_conf
           Conf.CI_CODE_GROUP_ID (GitlabCreateError "403 Forbidden")
           (world_of no_subgroup_server)); reflexivity.
Defined.

(** X19. When GitLab refuses the creation because the name is taken,
    [_create_subgroup] reads the parent group and lists its subgroups, and
    returns the id of the first one whose path is the subgroup name, after
    one line; when none has that path it returns [None] and prints
    nothing. *)
Theorem X19_create_subgroup_taken_finds
  (GitlabEnvConf : Conf.GitlabEnvConf) (group_id parent : Z) (e : exn)
  (subgroups : list (Z * string)) (w : World) :
  let asked := sent (subgroup_request GitlabEnvConf group_id) w in
  let listed :=
    sent (Gitlab.SubgroupsList parent) (sent (Gitlab.GroupsGet group_id) asked)
  in
  answer w (subgroup_request GitlabEnvConf group_id) = Gitlab.Error e ->
  name_taken e = true ->
  answer asked (Gitlab.GroupsGet group_id) = Gitlab.Object parent ->
  answer (sent (Gitlab.GroupsGet group_id) asked) (Gitlab.SubgroupsList parent)
  = Gitlab.Subgroups subgroups ->
  GitlabProjectManager._create_subgroup GitlabEnvConf group_id w
  = match find (fun subgroup =>
                  String.eqb (snd subgroup)
                    (Conf.CI_SUBGROUP_NAME GitlabEnvConf)) subgroups with
    | Some subgroup =>
        Ok (Some (fst subgroup))
          (logged ("Subgroup '" +:+ Conf.CI_SUBGROUP_NAME GitlabEnvConf
                   +:+ "' already exists.") listed)
    | None => Ok None listed
    end.
Proof.
  intros asked listed Hans Htaken Hget Hlist.
  rewrite (create_subgroup_refused _ _ _ _ Hans).
  destruct e; try discriminate Htaken. cbn in Htaken. rewrite Htaken.
  erewrite bind_Ok by (apply gl_call_object_ok; exact Hget).
  erewrite bind_Ok by (apply gl_subgroups_list_ok; exact Hlist).
  destruct (find _ subgroups); reflexivity.
Qed.

Lemma X19_witness :
  GitlabProjectManager._create_subgroup payments_conf Conf.CI_CODE_GROUP_ID
    (world_of subgroup_taken_server)
  = Ok (Some 77%Z)
      (logged "Subgroup 'payments' already exists."
         (sent (Gitlab.SubgroupsList Conf.CI_CODE_GROUP_ID)
            (sent (Gitlab.GroupsGet Conf.CI_CODE_GROUP_ID)
               (sent (subgroup_request payments_conf Conf.CI_CODE_GROUP_ID)
                  (world_of subgroup_taken_server))))).
Proof.
  apply (X19_create_subgroup_taken_finds payments_conf Conf.CI_CODE_GROUP_ID
           Conf.CI_CODE_GROUP_ID
           (GitlabCreateError "400: {'path': ['has already been taken']}")
           [(76%Z, "billing"); (77%Z, "payments")]
           (world_of subgroup_taken_server));
    reflexivity.
Defined.

(** X20. The lookups that follow a taken name are not guarded: when the
    parent group cannot be read, or its subgroups cannot be listed, the
    error leaves [_create_subgroup], also when it is an error the function
    would have printed and turned into [None] had the creation raised it. *)
Theorem X20_create_subgroup_lookup_error_propagates
  (GitlabEnvConf : Conf.GitlabEnvConf) (group_id : Z) (e e' : exn)
  (w : World) :
  let asked := sent (subgroup_request GitlabEnvConf group_id) w in
  answer w (subgroup_request GitlabEnvConf group_id) = Gitlab.Error e ->
  name_taken e = true ->
  (answer asked (Gitlab.GroupsGet group_id) = Gitlab.Error e' ->
   GitlabProjectManager._create_subgroup GitlabEnvConf group_id w
   = Raise e' (sent (Gitlab.GroupsGet group_id) asked))
  /\ (forall parent,
        answer asked (Gitlab.GroupsGet group_id) = Gitlab.Object parent ->
        answer (sent (Gitlab.GroupsGet group_id) asked)
          (Gitlab.SubgroupsList parent) = Gitlab.Error e' ->
        GitlabProjectManager._create_subgroup GitlabEnvConf group_id w
        = Raise e'
            (sent (Gitlab.SubgroupsList parent)
               (sent (Gitlab.GroupsGet group_id) asked))).
Proof.
  intros asked Hans Htaken.
  rewrite (create_subgroup_refused _ _ _ _ Hans).
  destruct e; try discriminate Htaken. cbn in Htaken. rewrite Htaken.
  split.
  - intros Hget.
    erewrite bind_Raise by (apply gl_call_object_error; exact Hget).
    reflexivity.
  - intros parent Hget Hlist.
    erewrite bind_Ok by (apply gl_call_object_ok; exact Hget).
    erewrite bind_Raise by (apply gl_subgroups_list_error; exact Hlist).
    reflexivity.
Qed.

Lemma X20_witness :
  GitlabProjectManager._create_subgroup payments_conf Conf.CI_CODE_GROUP_ID
    (world_of hidden_parent_server)
  = Raise (GitlabGetError "404 Group Not Found")
      (sent (Gitlab.GroupsGet Conf.CI_CODE_GROUP_ID)
         (sent (subgroup_request payments_conf Conf.CI_CODE_GROUP_ID)
            (world_of hidden_parent_server))).
Proof.
  apply (X20_create_subgroup_lookup_error_propagates payments_conf
           Conf.CI_CODE_GROUP_ID
           (GitlabCreateError "400: {'path': ['has already been taken']}")
           (GitlabGetError "404 Group Not Found")
           (world_of hidden_parent_server));
    reflexivity.
Defined.

(** *** Project creation and what follows it *)


Lemma create_project_code_refused (GitlabEnvConf : Conf.GitlabEnvConf)
  (w w1 : World) (subgroup : option Z) (e : exn) :
  let asked := sent (code_project_request GitlabEnvConf subgroup) w1 in
  GitlabProjectManager._create_subgroup GitlabEnvConf Conf.CI_CODE_GROUP_ID w
  = Ok subgroup w1 ->
  answer w1 (code_project_request GitlabEnvConf subgroup) = Gitlab.Error e ->
  GitlabProjectManager.create_project_code GitlabEnvConf w
  = match e with
    | GitlabCreateError str_e =>
        if PyStr.contains "has already been taken" str_e then
          Raise
            (SystemExit
               ("Project '" +:+ Conf.CI_PROJECT_NAME GitlabEnvConf
                +:+ "' already exists in CODE group. Skipping creation."))
            asked
        else
          GitlabProjectManager.assign_members GitlabEnvConf
            "code_subgroup_project" None asked
    | SystemExit _ => Raise e asked
    | _ => Ok tt (logged ("An error occurred: " +:+ str_exn e) asked)
    end.
Proof.
  intros asked Hsub Hans.
  unfold GitlabProjectManager.create_project_code.
  erewrite bind_Ok by exact Hsub.
  unfold with_local, try_except.
  unfold bind at 1. unfold bind at 1.
  rewrite global_run. unfold Gitlab.projects_create.
  erewrite gl_call_object_error by exact Hans.
  fold (code_project_request GitlabEnvConf subgroup). fold asked.
  cbn iota.
  destruct e; cbn [is_Exception]; cbn iota;
    try (unfold bind at 1; rewrite global_run;
         change (print ?l ?b) with (Ok tt (logged l b)); reflexivity);
    try reflexivity.
  destruct (PyStr.contains _ _); [reflexivity |].
  unfold ret at 1. cbn iota.
  unfold load, get, ret, bind. cbn beta iota. cbn [fst snd].
  rewrite global_run.
  destruct (GitlabProjectManager.assign_members _ _ _ asked); reflexivity.
Qed.




Lemma add_member_unbound (var role username : string) (user : Z)
  (users : list Z) (w : World) :
  answer w (Gitlab.UsersList username) = Gitlab.Users (user :: users) ->
  GitlabProjectManager.add_member var None role username w
  = Raise (UnboundLocalError var) (sent (Gitlab.UsersList username) w).
Proof.
  intros Hans. unfold GitlabProjectManager.add_member.
  erewrite try_except_Raise.
  2:{ erewrite bind_Ok by (apply gl_users_list_ok; exact Hans).
      reflexivity. }
  reflexivity.
Qed.

(** X22. When GitLab refuses the creation of the project with a creation
    error that does not say that a name is taken, [create_project_code]
    prints nothing and goes on to the memberships without a project: the
    first maintainer that GitLab knows makes it raise [UnboundLocalError]
    for [code_subgroup_project], after the lookup of that user and before
    any membership request. *)
Theorem X22_project_refused_unbound_project
  (GitlabEnvConf : Conf.GitlabEnvConf) (w w1 : World) (subgroup : option Z)
  (str_e maintainer : string) (others : list string) (user : Z)
  (users : list Z) :
  let asked := sent (code_project_request GitlabEnvConf subgroup) w1 in
  GitlabProjectManager._create_subgroup GitlabEnvConf Conf.CI_CODE_GROUP_ID w
  = Ok subgroup w1 ->
  answer w1 (code_project_request GitlabEnvConf subgroup)
  = Gitlab.Error (GitlabCreateError str_e) ->
  PyStr.contains "has already been taken" str_e = false ->
  CommandManager.convert_string_to_list
    (Conf.CI_ACCESS_MAINTAINER GitlabEnvConf) = maintainer :: others ->
  answer asked (Gitlab.UsersList maintainer) = Gitlab.Users (user :: users) ->
  GitlabProjectManager.create_project_code GitlabEnvConf w
  = Raise (UnboundLocalError "code_subgroup_project")
      (sent (Gitlab.UsersList maintainer) asked).
Proof.
  intros asked Hsub Hans Htaken Hmaintainers Huser.
  rewrite (create_project_code_refused _ _ _ _ _ Hsub Hans).
  rewrite Htaken. fold asked.
  unfold GitlabProjectManager.assign_members.
  rewrite Hmaintainers. cbn [for_each fst snd].
  erewrite bind_Raise; [reflexivity |].
  erewrite bind_Raise; [reflexivity |].
  eapply add_member_unbound. exact Huser.
Qed.

Lemma X22_witness :
  GitlabProjectManager.create_project_code payments_conf
    (world_of refusing_known_server)
  = Raise (UnboundLocalError "code_subgroup_project")
      (sent (Gitlab.UsersList "ghost")
         (sent (code_project_request payments_conf (Some 900%Z))
            (sent (subgroup_request payments_conf Conf.CI_CODE_GROUP_ID)
               (world_of refusing_known_server)))).
Proof.
  apply (X22_project_refused_unbound_project payments_conf
           (world_of refusing_known_server)
           (sent (subgroup_request payments_conf Conf.CI_CODE_GROUP_ID)
              (world_of refusing_known_server))
           (Some 900%Z) "400: {'namespace': ['is not valid']}" "ghost" []
           42 []);
    reflexivity.
Defined.

(** X23. When the creation of the project fails with an error that is not
    a creation error of GitLab (a connection error, an authentication
    error), [create_project_code] prints the error and returns: it sends
    nothing more, so it protects no branch and adds no member, and it does
    not raise. *)
Theorem X23_project_error_returns
  (GitlabEnvConf : Conf.GitlabEnvConf) (w w1 : World) (subgroup : option Z)
  (e : exn) :
  GitlabProjectManager._create_subgroup GitlabEnvConf Conf.CI_CODE_GROUP_ID w
  = Ok subgroup w1 ->
  answer w1 (code_project_request GitlabEnvConf subgroup) = Gitlab.Error e ->
  is_Exception e = true ->
  (forall str_e, e <> GitlabCreateError str_e) ->
  GitlabProjectManager.create_project_code GitlabEnvConf w
  = Ok tt
      (logged ("An error occurred: " +:+ str_exn e)
         (sent (code_project_request GitlabEnvConf subgroup) w1)).
Proof.
  intros Hsub Hans Hexc Hne.
  rewrite (create_project_code_refused _ _ _ _ _ Hsub Hans).
  destruct e; try reflexivity; try discriminate Hexc.
  exfalso. eapply Hne. reflexivity.
Qed.

Lemma X23_witness :
  GitlabProjectManager.create_project_code payments_conf
    (world_of unreachable_server)
  = Ok tt
      (logged "An error occurred: 502 Bad Gateway"
         (sent (code_project_request payments_conf (Some 900%Z))
            (sent (subgroup_request payments_conf Conf.CI_CODE_GROUP_ID)
               (world_of unreachable_server)))).
Proof.
  apply (X23_project_error_returns payments_conf
           (world_of unreachable_server)
           (sent (subgroup_request payments_conf Conf.CI_CODE_GROUP_ID)
              (world_of unreachable_server))
           (Some 900%Z) (HTTPError "502 Bad Gateway"));
    try reflexivity.
  intros str_e. discriminate.
Defined.

(** *** Memberships *)

(** X24. The membership loops of [create_project_code] and
    [create_project_chart] catch [IndexError] only: when GitLab refuses a
    membership (the user is a member already, say), the error leaves the
    step and the loop, and the usernames that come after are not looked
    up. *)
Theorem X24_membership_refused_ends_loop (var role username : string)
  (later : list string) (project user : Z) (users : list Z) (e : exn)
  (w : World) :
  let found := sent (Gitlab.UsersList username) w in
  answer w (Gitlab.UsersList username) = Gitlab.Users (user :: users) ->
  answer found (member_request project user) = Gitlab.Error e ->
  (forall str_e, e <> IndexError str_e) ->
  GitlabProjectManager.add_member var (Some project) role username w
  = Raise e (sent (member_request project user) found)
  /\ for_each (username :: later)
       (GitlabProjectManager.add_member var (Some project) role) w
     = Raise e (sent (member_request project user) found).
Proof.
  intros found Huser Hmember Hne.
  assert (E : GitlabProjectManager.add_member var (Some project) role
                username w
              = Raise e (sent (member_request project user) found)).
  { unfold GitlabProjectManager.add_member.
    erewrite try_except_Raise.
    2:{ erewrite bind_Ok by (apply gl_users_list_ok; exact Huser).
        cbn [item0 bound]. unfold ret at 1, bind at 1. unfold ret at 1,
          bind at 1.
        erewrite bind_Raise; [reflexivity |].
        unfold Gitlab.members_create.
        apply gl_call_unit_error. exact Hmember. }
    destruct e; try reflexivity. exfalso. eapply Hne. reflexivity. }
  split; [exact E |].
  cbn [for_each]. apply bind_Raise. exact E.
Qed.

Lemma X24_witness :
  GitlabProjectManager.add_member "code_subgroup_project" (Some 7%Z)
    "maintainer" "alice" (world_of member_server)
  = Raise (GitlabCreateError "409: Member already exists")
      (sent (member_request 7 42)
         (sent (Gitlab.UsersList "alice") (world_of member_server)))
  /\ for_each ["alice"; "bob"]
       (GitlabProjectManager.add_member "code_subgroup_project" (Some 7%Z)
          "maintainer") (world_of member_server)
     = Raise (GitlabCreateError "409: Member already exists")
         (sent (member_request 7 42)
            (sent (Gitlab.UsersList "alice") (world_of member_server))).
Proof.
  apply (X24_membership_refused_ends_loop "code_subgroup_project"
           "maintainer" "alice" ["bob"] 7 42 []
           (GitlabCreateError "409: Member already exists")
           (world_of member_server));
    try reflexivity.
  intros str_e. discriminate.
Defined.

Lemma reporter_membership (reporter repository : string) (project user : Z)
  (granted refused : string) (w : World) :
  create_error_only (answer w (member_request project user)) ->
  granted = reporter_line reporter repository (Gitlab.Object 0) ->
  refused
  = reporter_line reporter repository (Gitlab.Error (IndexError "")) ->
  try_except
    (gl (Gitlab.members_create project user Conf.REPORTER_ACCESS) ;;
     print granted)
    (fun e =>
       match e with
       | GitlabCreateError _ => Some (print refused)
       | _ => None
       end) w
  = Ok tt
      (logged
         (reporter_line reporter repository
            (answer w (member_request project user)))
         (sent (member_request project user) w)).
Proof.
  intros Honly -> ->. unfold member_request in *.
  unfold Gitlab.members_create.
  destruct (answer w (Gitlab.MembersCreate project user Conf.REPORTER_ACCESS))
    as [e | | | |] eqn:Hans.
  - destruct (Honly e eq_refl) as (str_e & ->).
    erewrite try_except_Raise.
    2:{ erewrite bind_Raise; [reflexivity |].
        apply gl_call_unit_error. exact Hans. }
    reflexivity.
  - erewrite try_except_Ok; [reflexivity |].
    erewrite bind_Ok by (apply gl_call_unit_ok; rewrite Hans; reflexivity).
    reflexivity.
  - erewrite try_except_Ok; [reflexivity |].
    erewrite bind_Ok by (apply gl_call_unit_ok; rewrite Hans; reflexivity).
    reflexivity.
  - erewrite try_except_Ok; [reflexivity |].
    erewrite bind_Ok by (apply gl_call_unit_ok; rewrite Hans; reflexivity).
    reflexivity.
  - erewrite try_except_Ok; [reflexivity |].
    erewrite bind_Ok by (apply gl_call_unit_ok; rewrite Hans; reflexivity).
    reflexivity.
Qed.

(** X25. [assign_reporter_access_to_projects] does catch a refused
    membership: for a user that GitLab knows, and a GitLab that refuses a
    membership with a creation error if at all, the step asks for the
    membership of the image project (2021) and then for that of the
    template project (827) whatever was answered to the first, prints one
    line for each, and returns. *)
Theorem X25_reporter_access_both_projects (reporter : string) (user : Z)
  (users : list Z) (w : World) :
  let found := sent (Gitlab.UsersList reporter) w in
  let image_line :=
    reporter_line reporter "CI Image Repository"
      (answer found (member_request Conf.CI_IMAGE_REPO_ID user)) in
  let image :=
    logged image_line (sent (member_request Conf.CI_IMAGE_REPO_ID user) found)
  in
  let template_line :=
    reporter_line reporter "CI Template Repository"
      (answer image (member_request Conf.CI_TEMPLATE_REPO_ID user)) in
  answer w (Gitlab.UsersList reporter) = Gitlab.Users (user :: users) ->
  create_error_only
    (answer found (member_request Conf.CI_IMAGE_REPO_ID user)) ->
  create_error_only
    (answer image (member_request Conf.CI_TEMPLATE_REPO_ID user)) ->
  GitlabProjectManager.reporter_access reporter w
  = Ok tt
      (logged template_line
         (sent (member_request Conf.CI_TEMPLATE_REPO_ID user) image)).
Proof.
  intros found image_line image template_line Huser Himage Htemplate.
  unfold GitlabProjectManager.reporter_access.
  erewrite try_except_Ok; [reflexivity |].
  erewrite bind_Ok by (apply gl_users_list_ok; exact Huser).
  cbn [item0]. unfold ret at 1, bind at 1.
  erewrite bind_Ok.
  2:{ apply (reporter_membership reporter "CI Image Repository");
        [exact Himage | reflexivity | reflexivity]. }
  apply (reporter_membership reporter "CI Template Repository");
    [exact Htemplate | reflexivity | reflexivity].
Qed.

Lemma X25_witness :
  GitlabProjectManager.reporter_access "alice" (world_of member_server)
  = Ok tt
      (logged
         "User 'alice' already has access in CI Template Repository project."
         (sent (member_request Conf.CI_TEMPLATE_REPO_ID 42)
            (logged
               "User 'alice' already has access in CI Image Repository project."
               (sent (member_request Conf.CI_IMAGE_REPO_ID 42)
                  (sent (Gitlab.UsersList "alice")
                     (world_of member_server)))))).
Proof.
  apply (X25_reporter_access_both_projects "alice" 42 []
           (world_of member_server)).
  - reflexivity.
  - intros e [= <-]. eexists. reflexivity.
  - intros e [= <-]. eexists. reflexivity.
Defined.

(** *** The request for the project *)

Section AlongThen.

Context {St : Type} (R1 R2 : St -> St -> Prop).
Hypothesis R1_then_R2 : forall a b c, R1 a b -> R2 b c -> R1 a c.

Lemma along_bind_then {A B} (m : M St A) (k : A -> M St B) :
  along R1 m -> (forall a, along R2 (k a)) -> along R1 (bind m k).
Proof.
  intros Hm Hk s. unfold bind. specialize (Hm s).
  destruct (m s) as [a s' | e s']; cbn in *; [| exact Hm].
  eapply R1_then_R2; [exact Hm | apply Hk].
Qed.

Lemma along_try_except_then {A} (body : M St A)
  (handler : exn -> option (M St A)) :
  along R1 body ->
  (forall e h, handler e = Some h -> along R2 h) ->
  along R1 (try_except body handler).
Proof.
  intros Hb Hh s. unfold try_except. specialize (Hb s).
  destruct (body s) as [a s' | e s']; cbn in *; [exact Hb |].
  destruct (handler e) as [h |] eqn:He; cbn; [| exact Hb].
  eapply R1_then_R2; [exact Hb | apply (Hh e h He)].
Qed.

End AlongThen.

Lemma follows_then_emits {L} (req : Gitlab.request)
  (P : Gitlab.request -> Prop) (a b c : L * World) :
  follows_local req a b -> emits_local P b c -> follows_local req a c.
Proof.
  intros (l1 & E1) (l2 & E2 & _). exists (l2 ++ l1)%list.
  rewrite E2, E1, app_assoc. reflexivity.
Qed.

Lemma along_follows_call {L} (req : Gitlab.request) :
  along (@follows_local L req) (global (gl (Gitlab.call_object req))).
Proof.
  intros [l w]. rewrite global_run. exists [].
  unfold gl, zoom, Gitlab.call_object, bind, Gitlab.call.
  destruct (Gitlab.server _ _ _); reflexivity.
Qed.

Lemma create_project_code_asks (GitlabEnvConf : Conf.GitlabEnvConf)
  (subgroup : option Z) (w w1 : World) :
  GitlabProjectManager._create_subgroup GitlabEnvConf Conf.CI_CODE_GROUP_ID w
  = Ok subgroup w1 ->
  follows (code_project_request GitlabEnvConf subgroup) w1
    (final (GitlabProjectManager.create_project_code GitlabEnvConf w)).
Proof.
  intros Hsub. unfold GitlabProjectManager.create_project_code.
  erewrite bind_Ok by exact Hsub.
  match goal with
  | |- follows ?req _ (final (with_local ?init ?body _)) =>
      assert (H : along (follows_local req) body);
      [| specialize (H (init, w1)); unfold with_local;
         destruct (body (init, w1)); exact H]
  end.
  apply (along_bind_then _ (emits_local provisioning_request)
           (follows_then_emits _ _)).
  - apply (along_try_except_then _ (emits_local provisioning_request)
             (follows_then_emits _ _)).
    + apply (along_bind_then _ (emits_local provisioning_request)
               (follows_then_emits _ _)).
      * apply along_follows_call.
      * intros id.
        unfold GitlabProjectManager.code_branches,
          GitlabProjectManager.code_branch.
        repeat emits_step.
    + intros e h H. destruct e; try discriminate H; injection H as <-;
        repeat emits_step.
  - intros proceed.
    repeat first [apply assign_members_requests | emits_step].
Qed.

(** X26. [create_project_code] asks for the project whenever the subgroup
    step returns, in the namespace that step returned.  When the subgroup
    could not be created the step returns [None], and the project is asked
    for with no namespace at all instead of not being asked for. *)
Theorem X26_project_requested_without_subgroup
  (GitlabEnvConf : Conf.GitlabEnvConf) (e : exn) (w : World) :
  answer w (subgroup_request GitlabEnvConf Conf.CI_CODE_GROUP_ID)
  = Gitlab.Error e ->
  is_Exception e = true ->
  name_taken e = false ->
  exists later,
    Gitlab.trace
      (gitlab (final (GitlabProjectManager.create_project_code GitlabEnvConf
                        w)))
    = (later
       ++ [code_project_request GitlabEnvConf None;
           subgroup_request GitlabEnvConf Conf.CI_CODE_GROUP_ID]
       ++ Gitlab.trace (gitlab w))%list.
Proof.
  intros Hans Hexc Htaken.
  assert (Hsub : exists line,
             GitlabProjectManager._create_subgroup GitlabEnvConf
               Conf.CI_CODE_GROUP_ID w
             = Ok None
                 (logged line
                    (sent (subgroup_request GitlabEnvConf
                             Conf.CI_CODE_GROUP_ID) w))).
  { rewrite (create_subgroup_refused _ _ _ _ Hans).
    destruct e; cbn in Hexc, Htaken; try discriminate Hexc;
      try (eexists; reflexivity).
    rewrite Htaken. eexists. reflexivity. }
  destruct Hsub as (line & Hsub).
  destruct (create_project_code_asks _ _ _ _ Hsub) as (later & E).
  exists later. rewrite E. reflexivity.
Qed.

Lemma X26_witness :
  exists later,
    Gitlab.trace
      (gitlab (final (GitlabProjectManager.create_project_code payments_conf
                        (world_of no_subgroup_server))))
    = (later
       ++ [code_project_request payments_conf None;
           subgroup_request payments_conf Conf.CI_CODE_GROUP_ID]
       ++ Gitlab.trace (gitlab (world_of no_subgroup_server)))%list.
Proof.
  apply (X26_project_requested_without_subgroup payments_conf
           (GitlabCreateError "403 Forbidden") (world_of no_subgroup_server));
    reflexivity.
Defined.

(** *** The reporters *)

Lemma flush_app (cur : list ascii) (l1 l2 : list string) :
  PyStr.flush cur (l1 ++ l2)%list = (PyStr.flush cur l1 ++ l2)%list.
Proof. destruct cur; reflexivity. Qed.

Lemma split_ws_space (a b : string) (cur : list ascii) :
  PyStr.split_ws cur (a +:+ " " +:+ b)
  = (PyStr.split_ws cur a ++ PyStr.split_ws [] b)%list.
Proof.
  revert cur. induction a as [| c a IH]; intros cur.
  - rewrite append_EmptyString, append_String, append_EmptyString.
    cbn [PyStr.split_ws].
    change (PyStr.ends_ws (" "%char :: cur)) with (Some cur). cbn iota.
    apply (flush_app cur []).
  - rewrite append_String. cbn [PyStr.split_ws].
    destruct (PyStr.ends_ws (c :: cur)) as [word |].
    + rewrite IH. apply flush_app.
    + apply IH.
Qed.

(** X27. The users that [assign_reporter_access_to_projects] goes through
    are the maintainers followed by the developers when both settings hold
    a value, and nobody otherwise: with only one of the two settings set or
    not empty, no user is looked up and no access is granted. *)
Theorem X27_reporters (GitlabEnvConf : Conf.GitlabEnvConf) :
  let maintainers := Conf.CI_ACCESS_MAINTAINER GitlabEnvConf in
  let developers := Conf.CI_ACCESS_DEVELOPER GitlabEnvConf in
  CommandManager.convert_string_to_list
    (Conf.CI_ACCESS_REPORTER GitlabEnvConf)
  = (if PyStr.truthy maintainers && PyStr.truthy developers
     then (CommandManager.convert_string_to_list maintainers
           ++ CommandManager.convert_string_to_list developers)%list
     else [])
  /\ (PyStr.truthy maintainers && PyStr.truthy developers = false ->
      forall w,
        GitlabProjectManager.assign_reporter_access_to_projects GitlabEnvConf
          w = Ok tt w).
Proof.
  intros maintainers developers.
  assert (E : CommandManager.convert_string_to_list
                (Conf.CI_ACCESS_REPORTER GitlabEnvConf)
              = if PyStr.truthy maintainers && PyStr.truthy developers
                then (CommandManager.convert_string_to_list maintainers
                      ++ CommandManager.convert_string_to_list developers)%list
                else []).
  { unfold Conf.CI_ACCESS_REPORTER. fold maintainers developers.
    destruct (PyStr.truthy maintainers && PyStr.truthy developers) eqn:Hboth;
      [| reflexivity].
    apply andb_prop in Hboth. destruct Hboth as [Hm Hd].
    destruct maintainers as [m |]; [| discriminate Hm].
    destruct developers as [d |]; [| discriminate Hd].
    cbn [PyStr.fmt CommandManager.convert_string_to_list].
    unfold PyStr.split. apply split_ws_space. }
  split; [exact E |].
  intros Hnone w.
  unfold GitlabProjectManager.assign_reporter_access_to_projects.
  rewrite E, Hnone. reflexivity.
Qed.

Lemma X27_witness :
  GitlabProjectManager.assign_reporter_access_to_projects bare_conf
    (world_of accepting_server)
  = Ok tt (world_of accepting_server).
Proof.
  apply (proj2 (X27_reporters bare_conf)). reflexivity.
Defined.

(** *** The CI-variable step without environment branches *)

(** X28. [create_global_variable] returns only when the configuration has
    no environment branch, and then it has done nothing but the two lookups
    in GitLab: Vault, Consul and the output are as they were.  With no
    environment branch, and a GitLab that answers the two lookups, it does
    return. *)
Theorem X28_create_global_variable_returns (yaml_dump : doc -> string)
  (json_dumps : option nat -> doc -> string)
  (GitlabAuthConf : Conf.GitlabAuthConf) (GitlabEnvConf : Conf.GitlabEnvConf)
  (w : World) :
  (forall w',
      GitlabProjectManager.create_global_variable yaml_dump json_dumps
        GitlabAuthConf GitlabEnvConf w = Ok tt w' ->
      Conf.envBranches GitlabEnvConf = []
      /\ vault w' = vault w /\ consul w' = consul w /\ stdout w' = stdout w)
  /\ (Conf.envBranches GitlabEnvConf = [] ->
      forall project variables,
        answer w (Gitlab.ProjectsGet "devops/devops-project-provisioning")
        = Gitlab.Object project ->
        answer
          (sent (Gitlab.ProjectsGet "devops/devops-project-provisioning") w)
          (Gitlab.VariablesList project) = Gitlab.Variables variables ->
        GitlabProjectManager.create_global_variable yaml_dump json_dumps
          GitlabAuthConf GitlabEnvConf w
        = Ok tt
            (sent (Gitlab.VariablesList project)
               (sent
                  (Gitlab.ProjectsGet "devops/devops-project-provisioning")
                  w))).
Proof.
  split.
  - intros w' E.
    destruct (Conf.envBranches GitlabEnvConf) as [| branch rest] eqn:Hb.
    + split; [reflexivity |].
      assert (K : keeps (fun w => (vault w, consul w, stdout w))
                    (GitlabProjectManager.create_global_variable yaml_dump
                       json_dumps GitlabAuthConf GitlabEnvConf)).
      { unfold GitlabProjectManager.create_global_variable.
        apply keeps_bind; [apply keeps_gl; reflexivity | intros ?].
        apply keeps_bind; [apply keeps_gl; reflexivity | intros ?].
        rewrite Hb. apply keeps_ret. }
      specialize (K w). rewrite E in K. injection K as -> -> ->. auto.
    + destruct (create_global_variable_never_returns yaml_dump json_dumps
                  GitlabAuthConf GitlabEnvConf branch rest Hb w)
        as (e & w'' & E').
      rewrite E in E'. discriminate E'.
  - intros Hb project variables Hp Hv.
    unfold GitlabProjectManager.create_global_variable.
    erewrite bind_Ok by (apply gl_call_object_ok; exact Hp).
    erewrite bind_Ok by (apply gl_variables_list_ok; exact Hv).
    rewrite Hb. reflexivity.
Qed.

Lemma X28_witness :
  GitlabProjectManager.create_global_variable sample_yaml_dump
    sample_json_dumps auth_conf bare_conf (world_of accepting_server)
  = Ok tt
      (sent (Gitlab.VariablesList 3502)
         (sent (Gitlab.ProjectsGet "devops/devops-project-provisioning")
            (world_of accepting_server))).
Proof.
  apply (proj2 (X28_create_global_variable_returns sample_yaml_dump
                  sample_json_dumps auth_conf bare_conf
                  (world_of accepting_server)) eq_refl 3502%Z []);
    reflexivity.
Defined.
